(** * server.py: a static file server with CORS headers

    The script is 44 lines of Python.  It declares the constant [PORT], a
    request handler class [CustomHTTPRequestHandler] that overrides one
    method of [http.server.SimpleHTTPRequestHandler], and the routine [main].

    Everything else the script does is done by the Python standard library
    ([http.server], [socketserver], [shutil], [os], [webbrowser], [sys]).
    The library methods the handler inherits and runs are embedded here one
    by one, from [Lib/http/server.py], [Lib/socketserver.py] and
    [Lib/shutil.py] of CPython 3.11, in the modules [BaseHTTPRequestHandler]
    and [SimpleHTTPRequestHandler]; pure helpers of the library that only
    format text (dates, MIME types, HTML pages, URL quoting) and the file
    system are fields of the record [environment].  Calls that reach the
    operating system from [main] take their outcome from the record [world].

    A connection delivers a request line and header fields; [parse_request]
    reads them into the handler or answers a malformed request line itself.
    The record [request] is what [parse_request] leaves in the handler when
    it accepts the request. *)

From Stdlib Require Import ZArith List String Ascii Bool Lia DecimalString.
Import ListNotations.

Open Scope string_scope.
Open Scope Z_scope.

(** ** Python values *)

(** Bytes objects are strings of 8-bit characters. *)
Definition bytes := string.

Definition CR : ascii := ascii_of_nat 13.
Definition LF : ascii := ascii_of_nat 10.
Definition CRLF : string := String CR (String LF EmptyString).

(** [str(n)] for an integer. *)
Definition str (n : Z) : string := NilZero.string_of_int (Z.to_int n).

(** [len(s)] *)
Definition len (s : string) : Z := Z.of_nat (String.length s).

(** [b"".join(l)] *)
Definition join (l : list bytes) : bytes := String.concat "" l.

(** [s.lower()] on the ASCII range. *)
Definition lower_ascii (c : ascii) : ascii :=
  let n := nat_of_ascii c in
  if ((65 <=? n) && (n <=? 90))%nat then ascii_of_nat (n + 32) else c.

Fixpoint lower (s : string) : string :=
  match s with
  | EmptyString => EmptyString
  | String c s' => String (lower_ascii c) (lower s')
  end.

(** [s.endswith(suffix)] *)
Definition endswith (s suffix : string) : bool :=
  let n := String.length s in
  let m := String.length suffix in
  if (m <=? n)%nat then String.eqb (substring (n - m) m s) suffix else false.

(** [os.path.join(a, b)] of [posixpath], for a relative [b]. *)
Definition path_join (a b : string) : string :=
  if (String.eqb a "" || endswith a "/")%bool then a ++ b else a ++ "/" ++ b.

(** [s.startswith(prefix)] *)
Definition startswith (s prefix : string) : bool := String.prefix prefix s.

(** [c.isspace()] for a character of Latin-1: the request line is decoded
    as [iso-8859-1]. *)
Definition isspace (c : ascii) : bool :=
  let n := nat_of_ascii c in
  (((9 <=? n) && (n <=? 13)) || ((28 <=? n) && (n <=? 32))
   || (n =? 133) || (n =? 160))%nat.

(** [s.lstrip(chars)] and [s.rstrip(chars)] *)
Fixpoint lstrip (chars : ascii -> bool) (s : string) : string :=
  match s with
  | EmptyString => EmptyString
  | String c s' => if chars c then lstrip chars s' else s
  end.

Fixpoint rstrip (chars : ascii -> bool) (s : string) : string :=
  match s with
  | EmptyString => EmptyString
  | String c s' =>
      match rstrip chars s' with
      | EmptyString => if chars c then EmptyString else String c EmptyString
      | t => String c t
      end
  end.

Definition is_cr_or_lf (c : ascii) : bool := Ascii.eqb c CR || Ascii.eqb c LF.

Definition is_slash (c : ascii) : bool := Ascii.eqb c "/".

(** [s.split()]: the words between runs of white space. *)
Fixpoint split_from (word s : string) : list string :=
  match s with
  | EmptyString => if String.eqb word "" then [] else [word]
  | String c s' =>
      if isspace c then
        if String.eqb word "" then split_from "" s'
        else word :: split_from "" s'
      else split_from (word ++ String c "") s'
  end.

Definition str_split (s : string) : list string := split_from "" s.

(** [s.split(sep)] for a separator of one character. *)
Fixpoint split_on_from (sep : ascii) (piece s : string) : list string :=
  match s with
  | EmptyString => [piece]
  | String c s' =>
      if Ascii.eqb c sep then piece :: split_on_from sep "" s'
      else split_on_from sep (piece ++ String c "") s'
  end.

Definition split_on (sep : ascii) (s : string) : list string :=
  split_on_from sep "" s.

(** [s.split(sep, 1)[1]]: what follows the first [sep]; [None] is the
    [IndexError] when there is no [sep]. *)
Fixpoint after_first (sep : ascii) (s : string) : option string :=
  match s with
  | EmptyString => None
  | String c s' => if Ascii.eqb c sep then Some s' else after_first sep s'
  end.

(** [int(s)] for a string of Latin-1 that holds no white space, as the
    pieces of a word of [split] are; [None] is [ValueError].  A sign may come
    first, and single underscores may stand between digits. *)
Definition digit (c : ascii) : option Z :=
  let n := nat_of_ascii c in
  if ((48 <=? n) && (n <=? 57))%nat then Some (Z.of_nat (n - 48)) else None.

Fixpoint digits (acc : Z) (after_digit : bool) (s : string) : option Z :=
  match s with
  | EmptyString => if after_digit then Some acc else None
  | String c s' =>
      match digit c with
      | Some d => digits (10 * acc + d) true s'
      | None =>
          if Ascii.eqb c "_" && after_digit then digits acc false s'
          else None
      end
  end.

Definition py_int (s : string) : option Z :=
  match s with
  | String "+" s' => digits 0 false s'
  | String "-" s' => option_map Z.opp (digits 0 false s')
  | _ => digits 0 false s
  end.

(** [a >= b] for pairs of integers. *)
Definition tuple_ge (a b : Z * Z) : bool :=
  (fst b <? fst a) || ((fst a =? fst b) && (snd b <=? snd a)).

(** The first [n] characters of [s], and the rest. *)
Fixpoint take (n : nat) (s : string) : string :=
  match n, s with
  | S n', String c s' => String c (take n' s')
  | _, _ => EmptyString
  end.

Fixpoint drop (n : nat) (s : string) : string :=
  match n, s with
  | S n', String c s' => drop n' s'
  | _, _ => s
  end.

(** What successive calls of [f.read(length)] return for a file that holds
    [s], up to the first empty result.  Every call but the last consumes a
    character at least, hence [String.length s] calls are enough. *)
Fixpoint reads_from (calls : nat) (length : nat) (s : string) : list bytes :=
  match calls with
  | O => []
  | S calls' =>
      match take length s with
      | EmptyString => []
      | buf => buf :: reads_from calls' length (drop length s)
      end
  end.

Definition reads (length : nat) (s : string) : list bytes :=
  reads_from (String.length s) length s.

(** ** Exceptions and effects *)

Inductive exn : Type :=
| KeyboardInterrupt
| SystemExit (code : Z)
| OSError (what : string)
| ValueError (what : string)
| AttributeError (name : string)
| OtherException (name : string).

(** Only subclasses of [Exception] are caught by [except Exception];
    [KeyboardInterrupt] and [SystemExit] derive from [BaseException]. *)
Definition is_Exception (e : exn) : bool :=
  match e with
  | KeyboardInterrupt | SystemExit _ => false
  | _ => true
  end.

(** What a call does: it returns a value, raises, or never comes back
    (the observation ends while the call is still blocked). *)
Inductive result (A : Type) : Type :=
| Return (a : A)
| Raise (e : exn)
| Blocked.

Arguments Return {A} a.
Arguments Raise {A} e.
Arguments Blocked {A}.

(** A computation over a mutable state [S]; the state survives a raise. *)
Definition M (S A : Type) : Type := S -> result A * S.

Definition ret {S A} (a : A) : M S A := fun s => (Return a, s).

Definition bind {S A B} (m : M S A) (k : A -> M S B) : M S B :=
  fun s =>
    match m s with
    | (Return a, s') => k a s'
    | (Raise e, s') => (Raise e, s')
    | (Blocked, s') => (Blocked, s')
    end.

Definition raise {S A} (e : exn) : M S A := fun s => (Raise e, s).

Definition get {S} : M S S := fun s => (Return s, s).

Definition modify {S} (f : S -> S) : M S unit := fun s => (Return tt, f s).

(** [try: m except E: handler(e)] for the exceptions selected by [catches]. *)
Definition try_except {S A} (m : M S A) (catches : exn -> bool)
  (handler : exn -> M S A) : M S A :=
  fun s =>
    match m s with
    | (Raise e, s') => if catches e then handler e s' else (Raise e, s')
    | r => r
    end.

(** [try: m finally: cleanup]; also the shape of a [with] block, whose
    [__exit__] runs on the way out and lets the exception through. *)
Definition try_finally {S A} (m : M S A) (cleanup : M S unit) : M S A :=
  fun s =>
    match m s with
    | (Return a, s') =>
        match cleanup s' with
        | (Return _, s'') => (Return a, s'')
        | (Raise e, s'') => (Raise e, s'')
        | (Blocked, s'') => (Blocked, s'')
        end
    | (Raise e, s') =>
        match cleanup s' with
        | (Return _, s'') => (Raise e, s'')
        | (Raise e', s'') => (Raise e', s'')
        | (Blocked, s'') => (Blocked, s'')
        end
    | (Blocked, s') => (Blocked, s')
    end.

Declare Scope py_scope.
Delimit Scope py_scope with py.
Notation "x <- m ;; k" := (bind m (fun x => k))
  (at level 100, m at next level, right associativity) : py_scope.
Notation "m ;; k" := (bind m (fun _ => k))
  (at level 100, right associativity) : py_scope.
Open Scope py_scope.

Definition when {S} (b : bool) (m : M S unit) : M S unit :=
  if b then m else ret tt.

(** ** The world outside the handler *)

Record stat : Type := { st_size : Z; st_mtime : Z }.

(** What [open(path, 'rb')] followed by [os.fstat] comes to: the contents
    and the status of the file; [OSError] (no such file, no permission, a
    directory); or [ValueError], which [open] raises for a path that holds a
    NUL byte. *)
Inductive opened : Type :=
| Opened (contents : bytes) (fs : stat)
| Open_OSError
| Open_ValueError (what : string).

(** The file system as the [os] module shows it, and the text helpers of
    the library that the handler calls. *)
Record environment : Type := {
  (* os.path.isdir, os.path.isfile, os.listdir *)
  isdir : string -> bool;
  isfile : string -> bool;
  listdir : string -> option (list string);
  (* open(path, 'rb') with os.fstat of the result *)
  open_rb : string -> opened;
  (* SimpleHTTPRequestHandler.translate_path, from self.directory and
     self.path *)
  translate_path : string -> string -> string;
  (* SimpleHTTPRequestHandler.guess_type *)
  guess_type : string -> string;
  (* urllib.parse.urlsplit(p).path, and p with '/' added to that part *)
  urlsplit_path : string -> string;
  add_slash : string -> string;
  (* BaseHTTPRequestHandler.responses: short and long message of a code *)
  responses : Z -> option (string * string);
  (* version_string(), date_time_string(timestamp) *)
  version_string : string;
  date_time_string : option Z -> string;
  (* the date of an If-Modified-Since value is well formed, in UTC, and not
     before the given modification time *)
  not_modified_since : string -> Z -> bool;
  (* the encoded page of send_error, from code, message and explanation *)
  error_page : Z -> string -> string -> bytes;
  (* the encoded page of list_directory, from self.path, the directory and
     its sorted entries *)
  listing_page : string -> string -> list string -> bytes;
  (* sys.getfilesystemencoding() *)
  filesystemencoding : string;
  (* '%r' % s for a string *)
  repr : string -> string
}.

(** What [http.client.parse_headers] makes of the lines that follow the
    request line: the header fields, or one of its two exceptions with the
    text of the exception. *)
Inductive parsed_headers : Type :=
| Fields (hs : list (string * string))
| LineTooLong (err : string)
| TooManyHeaders (err : string).

(** What a client sends on a connection: the first line, as
    [self.rfile.readline(65537)] returns it (empty at the end of the
    stream), and the lines after it. *)
Record connection : Type := {
  raw_requestline : bytes;
  header_fields : parsed_headers
}.

(** The request as [parse_request] leaves it in the handler when it accepts
    it. *)
Record request : Type := {
  req_command : string;
  req_path : string;
  req_version : string;
  req_headers : list (string * string)
}.

(** The attributes of a handler instance that the response depends on.
    [command] is empty where the attribute is [None] or [''], which
    [send_error] treats alike; [headers_buffer] is [None] while the
    attribute [_headers_buffer] does not exist; [wfile] lists the writes
    made to the client, oldest first. *)
Record handler : Type := {
  command : string;
  path : string;
  request_version : string;
  headers : list (string * string);
  directory : string;
  close_connection : bool;
  headers_buffer : option (list bytes);
  wfile : list bytes
}.

Definition set_command (c : string) (h : handler) : handler :=
  {| command := c; path := path h;
     request_version := request_version h; headers := headers h;
     directory := directory h; close_connection := close_connection h;
     headers_buffer := headers_buffer h; wfile := wfile h |}.

Definition set_path (p : string) (h : handler) : handler :=
  {| command := command h; path := p;
     request_version := request_version h; headers := headers h;
     directory := directory h; close_connection := close_connection h;
     headers_buffer := headers_buffer h; wfile := wfile h |}.

Definition set_request_version (v : string) (h : handler) : handler :=
  {| command := command h; path := path h;
     request_version := v; headers := headers h;
     directory := directory h; close_connection := close_connection h;
     headers_buffer := headers_buffer h; wfile := wfile h |}.

Definition set_headers (hs : list (string * string)) (h : handler) : handler :=
  {| command := command h; path := path h;
     request_version := request_version h; headers := hs;
     directory := directory h; close_connection := close_connection h;
     headers_buffer := headers_buffer h; wfile := wfile h |}.

Definition set_close_connection (b : bool) (h : handler) : handler :=
  {| command := command h; path := path h;
     request_version := request_version h; headers := headers h;
     directory := directory h; close_connection := b;
     headers_buffer := headers_buffer h; wfile := wfile h |}.

Definition set_headers_buffer (b : option (list bytes)) (h : handler) : handler :=
  {| command := command h; path := path h;
     request_version := request_version h; headers := headers h;
     directory := directory h; close_connection := close_connection h;
     headers_buffer := b; wfile := wfile h |}.

(** [self.wfile.write(b)] *)
Definition wfile_write (b : bytes) (h : handler) : handler :=
  {| command := command h; path := path h;
     request_version := request_version h; headers := headers h;
     directory := directory h; close_connection := close_connection h;
     headers_buffer := headers_buffer h; wfile := wfile h ++ [b] |}.

(** [name in self.headers] and [self.headers[name]]: field names compare
    without case, the first field wins. *)
Definition header_in (name : string) (hs : list (string * string)) : bool :=
  existsb (fun kv => String.eqb (lower (fst kv)) (lower name)) hs.

Definition header_get (name : string) (hs : list (string * string)) : option string :=
  option_map snd
    (find (fun kv => String.eqb (lower (fst kv)) (lower name)) hs).

(** ** http.server.BaseHTTPRequestHandler

    The methods that build a response.  [log_request] and [log_error] write
    to standard error only and are left out.  Where a method calls
    [self.end_headers()] the call is dispatched on the class of the
    instance; such methods take the method as [self_end_headers]. *)
Module BaseHTTPRequestHandler.

Definition protocol_version : string := "HTTP/1.0".
Definition default_request_version : string := "HTTP/0.9".
Definition error_content_type : string := "text/html;charset=utf-8".

(** [self.protocol_version >= "HTTP/1.1"] *)
Definition protocol_1_1 : bool := String.leb "HTTP/1.1" protocol_version.

(** The version word of a request line as lines 290 to 303 of
    [parse_request] read it: the text after [HTTP/] and the two integers it
    holds; [None] where the code raises [ValueError] or [IndexError]. *)
Definition base_version_number (version : string) : option string :=
  if startswith version "HTTP/" then after_first "/" version else None.

Definition version_number (base : string) : option (Z * Z) :=
  match split_on "." base with
  | [major; minor] =>
      match py_int major, py_int minor with
      | Some a, Some b => Some (a, b)
      | _, _ => None
      end
  | _ => None
  end.

(** Lines 330 and 331: a path that starts with two slashes is reduced to
    one leading slash. *)
Definition single_slash (path : string) : string :=
  if startswith path "//" then "/" ++ lstrip is_slash path else path.

Definition read_version (version : string) : option (string * (Z * Z)) :=
  match base_version_number version with
  | Some base => option_map (pair base) (version_number base)
  | None => None
  end.

Definition is_http09 (h : handler) : bool :=
  String.eqb (request_version h) "HTTP/0.9".

(** [self._headers_buffer], created empty when the attribute is missing. *)
Definition buffer_or_new (h : handler) : list bytes :=
  match headers_buffer h with
  | Some b => b
  | None => []
  end.

Definition buffer_append (line : bytes) (h : handler) : handler :=
  set_headers_buffer (Some (buffer_or_new h ++ [line])%list) h.

Section Methods.
Variable E : environment.

(** The message of a status line: the one given, or the short message
    of the code, or nothing for a code that is not in [responses]. *)
Definition status_message (code : Z) (message : option string) : string :=
  match message with
  | Some m => m
  | None =>
      match responses E code with
      | Some (short, _) => short
      | None => ""
      end
  end.

Definition send_response_only (code : Z) (message : option string)
  : M handler unit :=
  h <- get ;;
  when (negb (is_http09 h))
    (let message := status_message code message in
     modify (buffer_append
               (protocol_version ++ " " ++ str code ++ " " ++ message ++ CRLF))).

Definition send_header (keyword value : string) : M handler unit :=
  h <- get ;;
  when (negb (is_http09 h))
    (modify (buffer_append (keyword ++ ": " ++ value ++ CRLF))) ;;
  when (String.eqb (lower keyword) "connection")
    (if String.eqb (lower value) "close"
     then modify (set_close_connection true)
     else if String.eqb (lower value) "keep-alive"
          then modify (set_close_connection false)
          else ret tt).

Definition flush_headers : M handler unit :=
  h <- get ;;
  match headers_buffer h with
  | Some b =>
      modify (fun h => set_headers_buffer (Some []) (wfile_write (join b) h))
  | None => ret tt
  end.

Definition end_headers : M handler unit :=
  h <- get ;;
  when (negb (is_http09 h))
    (h <- get ;;
     match headers_buffer h with
     | Some b => modify (set_headers_buffer (Some (b ++ [CRLF])%list))
     | None => raise (AttributeError "_headers_buffer")
     end ;;
     flush_headers).

Definition send_response (code : Z) (message : option string)
  : M handler unit :=
  send_response_only code message ;;
  send_header "Server" (version_string E) ;;
  send_header "Date" (date_time_string E None).

Section Dispatched.
Variable self_end_headers : M handler unit.

(** 204, 205 and 304 carry no body, nor does any code below 200. *)
Definition has_body (code : Z) : bool :=
  (200 <=? code) && negb ((code =? 204) || (code =? 205) || (code =? 304)).

(** [self.responses[code]], with the pair the method takes on
    [KeyError]. *)
Definition response_messages (code : Z) : string * string :=
  match responses E code with
  | Some sl => sl
  | None => ("???", "???")
  end.

Definition send_error (code : Z) (message explain : option string)
  : M handler unit :=
  let '(shortmsg, longmsg) := response_messages code in
  let message := match message with Some m => m | None => shortmsg end in
  let explain := match explain with Some x => x | None => longmsg end in
  send_response code (Some message) ;;
  send_header "Connection" "close" ;;
  let body :=
    if has_body code then Some (error_page E code message explain)
    else None in
  match body with
  | Some b =>
      send_header "Content-Type" error_content_type ;;
      send_header "Content-Length" (str (len b))
  | None => ret tt
  end ;;
  self_end_headers ;;
  h <- get ;;
  match body with
  | Some b =>
      when (negb (String.eqb (command h) "HEAD") && negb (String.eqb b ""))
        (modify (wfile_write b))
  | None => ret tt
  end.

Definition handle_expect_100 : M handler bool :=
  send_response_only 100 None ;;
  self_end_headers ;;
  ret true.

(** Lines 288 to 314 of [parse_request], for a request line of three words
    or more: the last word is the version.  The value says whether
    [parse_request] goes on; where it does not, the error response has been
    sent with [request_version] still at its default. *)
Definition parse_version (words : list string) : M handler bool :=
  let version := last words "" in
  match read_version version with
  | None =>
      send_error 400
        (Some ("Bad request version (" ++ repr E version ++ ")")) None ;;
      ret false
  | Some (base, number) =>
      when (tuple_ge number (1, 1) && protocol_1_1)
        (modify (set_close_connection false)) ;;
      if tuple_ge number (2, 0) then
        send_error 505 (Some ("Invalid HTTP version (" ++ base ++ ")")) None ;;
        ret false
      else
        modify (set_request_version version) ;;
        ret true
  end.

(** Lines 337 to 371 of [parse_request]: the header fields, the
    [Connection] directive and the [Expect] directive. *)
Definition parse_headers (conn : connection) : M handler bool :=
  match header_fields conn with
  | LineTooLong err =>
      send_error 431 (Some "Line too long") (Some err) ;;
      ret false
  | TooManyHeaders err =>
      send_error 431 (Some "Too many headers") (Some err) ;;
      ret false
  | Fields hs =>
      modify (set_headers hs) ;;
      let conntype :=
        match header_get "Connection" hs with Some v => v | None => "" end in
      (if String.eqb (lower conntype) "close"
       then modify (set_close_connection true)
       else if String.eqb (lower conntype) "keep-alive" && protocol_1_1
            then modify (set_close_connection false)
            else ret tt) ;;
      let expect :=
        match header_get "Expect" hs with Some v => v | None => "" end in
      h <- get ;;
      if String.eqb (lower expect) "100-continue" && protocol_1_1
         && String.leb "HTTP/1.1" (request_version h)
      then handle_expect_100
      else ret true
  end.

(** [parse_request]: reads the request line and the header fields of the
    connection into the handler.  Returns [True] when the request is
    accepted; otherwise the error response, if any, has been sent. *)
Definition parse_request (conn : connection) : M handler bool :=
  modify (set_command "") ;;
  modify (set_request_version default_request_version) ;;
  modify (set_close_connection true) ;;
  let requestline := rstrip is_cr_or_lf (raw_requestline conn) in
  let words := str_split requestline in
  if (List.length words =? 0)%nat then ret false
  else
    go_on <- (if (3 <=? List.length words)%nat then parse_version words
              else ret true) ;;
    if negb go_on then ret false
    else if negb ((2 <=? List.length words)
                  && (List.length words <=? 3))%nat then
      send_error 400
        (Some ("Bad request syntax (" ++ repr E requestline ++ ")")) None ;;
      ret false
    else
      let command := nth 0 words "" in
      let path := nth 1 words "" in
      go_on <- (if (List.length words =? 2)%nat then
                  modify (set_close_connection true) ;;
                  if negb (String.eqb command "GET") then
                    send_error 400
                      (Some ("Bad HTTP/0.9 request type ("
                             ++ repr E command ++ ")")) None ;;
                    ret false
                  else ret true
                else ret true) ;;
      if negb go_on then ret false
      else
        modify (set_command command) ;;
        modify (set_path (single_slash path)) ;;
        parse_headers conn.

(** The second half of [handle_one_request], once [parse_request] has
    accepted the request: the method [do_<command>] of the instance is
    looked up and called; [self_method] is [getattr] on the instance,
    [None] when [hasattr] is false. *)
Variable self_method : string -> option (M handler unit).

Definition handle_one_request : M handler unit :=
  h <- get ;;
  let mname := "do_" ++ command h in
  match self_method mname with
  | None =>
      send_error 501
        (Some ("Unsupported method (" ++ repr E (command h) ++ ")")) None
  | Some method => method
  end.

(** [handle] with the first half of [handle_one_request]: the request line
    is read, refused when it is longer than 65536 bytes, and parsed.  The
    class speaks [HTTP/1.0] and [close_connection] stays set, so the loop of
    [handle] asks for no second request. *)
Definition handle (conn : connection) : M handler unit :=
  modify (set_close_connection true) ;;
  if 65536 <? len (raw_requestline conn) then
    modify (set_request_version "") ;;
    modify (set_command "") ;;
    send_error 414 None None
  else if String.eqb (raw_requestline conn) "" then
    modify (set_close_connection true)
  else
    ok <- parse_request conn ;;
    if ok then handle_one_request else ret tt.
End Dispatched.
End Methods.

End BaseHTTPRequestHandler.

(** ** http.server.SimpleHTTPRequestHandler *)
Module SimpleHTTPRequestHandler.
Import BaseHTTPRequestHandler.

Section Methods.
Variable E : environment.
Variable self_end_headers : M handler unit.

(** Returns the bytes of an in-memory file holding the listing, or
    [None] after an error response. *)
Definition list_directory (fullpath : string) : M handler (option bytes) :=
  h <- get ;;
  match listdir E fullpath with
  | None =>
      send_error E self_end_headers 404
        (Some "No permission to list directory") None ;;
      ret None
  | Some entries =>
      let encoded := listing_page E (path h) fullpath entries in
      send_response E 200 None ;;
      send_header "Content-type"
        ("text/html; charset=" ++ filesystemencoding E) ;;
      send_header "Content-Length" (str (len encoded)) ;;
      self_end_headers ;;
      ret (Some encoded)
  end.

(** The second half of [send_head], from [ctype = self.guess_type(path)]
    on: [fullpath] is the translated path, or the index file found in
    it. *)
Definition send_head_file (fullpath : string) : M handler (option bytes) :=
  h <- get ;;
  let ctype := guess_type E fullpath in
  if endswith fullpath "/" then
    send_error E self_end_headers 404 (Some "File not found") None ;;
    ret None
  else
    match open_rb E fullpath with
    | Open_OSError =>
        send_error E self_end_headers 404 (Some "File not found") None ;;
        ret None
    | Open_ValueError what => raise (ValueError what)
    | Opened contents fs =>
        if (header_in "If-Modified-Since" (headers h)
            && negb (header_in "If-None-Match" (headers h))
            && match header_get "If-Modified-Since" (headers h) with
               | Some ims => not_modified_since E ims (st_mtime fs)
               | None => false
               end)%bool
        then
          send_response E 304 None ;;
          self_end_headers ;;
          ret None
        else
          send_response E 200 None ;;
          send_header "Content-type" ctype ;;
          send_header "Content-Length" (str (st_size fs)) ;;
          send_header "Last-Modified"
            (date_time_string E (Some (st_mtime fs))) ;;
          self_end_headers ;;
          ret (Some contents)
    end.

(** Common code of GET and HEAD: sends the status line and the headers;
    returns the bytes of the open file the caller has to copy, or [None]
    when there is nothing further to do. *)
Definition send_head : M handler (option bytes) :=
  h <- get ;;
  let fullpath := translate_path E (directory h) (path h) in
  if isdir E fullpath then
    if negb (endswith (urlsplit_path E (path h)) "/") then
      send_response E 301 None ;;
      send_header "Location" (add_slash E (path h)) ;;
      send_header "Content-Length" "0" ;;
      self_end_headers ;;
      ret None
    else if isfile E (path_join fullpath "index.html") then
      send_head_file (path_join fullpath "index.html")
    else if isfile E (path_join fullpath "index.htm") then
      send_head_file (path_join fullpath "index.htm")
    else list_directory fullpath
  else send_head_file fullpath.

(** [shutil.COPY_BUFSIZE], where the system is not Windows. *)
Definition COPY_BUFSIZE : nat := 64 * 1024.

Fixpoint write_all (bufs : list bytes) : M handler unit :=
  match bufs with
  | [] => ret tt
  | buf :: bufs' => modify (wfile_write buf) ;; write_all bufs'
  end.

(** [copyfile(f, self.wfile)], that is [shutil.copyfileobj]: the file is
    read and written in pieces of [COPY_BUFSIZE] bytes until a read returns
    nothing; nothing is written for an empty file. *)
Definition copyfile (contents : bytes) : M handler unit :=
  write_all (reads COPY_BUFSIZE contents).

Definition do_GET : M handler unit :=
  f <- send_head ;;
  match f with
  | Some contents => copyfile contents
  | None => ret tt
  end.

Definition do_HEAD : M handler unit :=
  f <- send_head ;;
  ret tt.

(** [getattr(self, mname)] for the names [handle_one_request] asks for:
    the class defines [do_GET] and [do_HEAD] and no other [do_] name. *)
Definition getattr_do (mname : string) : option (M handler unit) :=
  if String.eqb mname "do_GET" then Some do_GET
  else if String.eqb mname "do_HEAD" then Some do_HEAD
  else None.
End Methods.

(** The class itself: every dispatched call reaches the inherited
    methods. *)
Definition handle_one_request (E : environment) : M handler unit :=
  BaseHTTPRequestHandler.handle_one_request E
    BaseHTTPRequestHandler.end_headers
    (getattr_do E BaseHTTPRequestHandler.end_headers).

Definition handle (E : environment) (conn : connection) : M handler unit :=
  BaseHTTPRequestHandler.handle E
    BaseHTTPRequestHandler.end_headers
    (getattr_do E BaseHTTPRequestHandler.end_headers) conn.
End SimpleHTTPRequestHandler.

(** ** server.py *)

Definition PORT : Z := 3000.

Module CustomHTTPRequestHandler.

(** Lines 17 to 22: three calls of the inherited [send_header], then the
    [end_headers] of the parent class. *)
Definition end_headers : M handler unit :=
  BaseHTTPRequestHandler.send_header "Access-Control-Allow-Origin" "*" ;;
  BaseHTTPRequestHandler.send_header "Access-Control-Allow-Methods"
    "GET, POST, OPTIONS" ;;
  BaseHTTPRequestHandler.send_header "Access-Control-Allow-Headers"
    "Content-Type" ;;
  BaseHTTPRequestHandler.end_headers.

(** The class defines nothing else: the [do_] methods are those of
    [SimpleHTTPRequestHandler], and every [self.end_headers()] in them
    reaches the override. *)
Definition getattr_do (E : environment) : string -> option (M handler unit) :=
  SimpleHTTPRequestHandler.getattr_do E end_headers.

Definition handle_one_request (E : environment) : M handler unit :=
  BaseHTTPRequestHandler.handle_one_request E end_headers (getattr_do E).

Definition handle (E : environment) (conn : connection) : M handler unit :=
  BaseHTTPRequestHandler.handle E end_headers (getattr_do E) conn.

End CustomHTTPRequestHandler.

(** ** One connection

    [socketserver] creates a handler instance per accepted connection;
    [SimpleHTTPRequestHandler.__init__] stores [os.getcwd()] in
    [self.directory] and [BaseRequestHandler.__init__] calls [handle].  The
    attributes of the request do not exist yet; they are written before
    they are read. *)
Definition fresh_handler (cwd : string) : handler :=
  {| command := ""; path := ""; request_version := ""; headers := [];
     directory := cwd; close_connection := true;
     headers_buffer := None; wfile := [] |}.

(** The writes a client receives on a connection from a handler class whose
    [handle] is [handle]. *)
Definition reply_of (handle : connection -> M handler unit) (cwd : string)
  (conn : connection) : list bytes :=
  wfile (snd (handle conn (fresh_handler cwd))).

(** The handler when [parse_request] has accepted a request. *)
Definition new_handler (cwd : string) (r : request) : handler :=
  {| command := req_command r; path := req_path r;
     request_version := req_version r; headers := req_headers r;
     directory := cwd; close_connection := true;
     headers_buffer := None; wfile := [] |}.

(** The writes a client receives for an accepted request from a handler
    class whose [handle_one_request] goes on with [handle]. *)
Definition response_of (handle : M handler unit) (cwd : string) (r : request)
  : list bytes :=
  wfile (snd (handle (new_handler cwd r))).

(** The three header lines of lines 19 to 21, as they are encoded. *)
Definition cors_lines : list bytes :=
  [ "Access-Control-Allow-Origin: *" ++ CRLF;
    "Access-Control-Allow-Methods: GET, POST, OPTIONS" ++ CRLF;
    "Access-Control-Allow-Headers: Content-Type" ++ CRLF ].

(** ** The process

    [main] runs in a process with a working directory, a standard output, at
    most one listening socket and a browser it may launch.  [calls] records,
    oldest first, every call [main] makes that has an effect outside the
    interpreter; the other fields hold what took effect.  [stdout] holds the
    lines that have reached the file descriptor, [pending] the lines that
    [print] has left in the buffer of [sys.stdout]. *)

Inductive socket_state : Type :=
| NoSocket
| Listening (host : string) (port : Z)
| Closed.

Inductive call : Type :=
| Call_chdir (dir : string)
| Call_TCPServer (host : string) (port : Z)
| Call_print (line : string)
| Call_webbrowser_open (url : string)
| Call_serve_forever
| Call_server_close
| Call_sys_exit (code : Z).

Record process : Type := {
  cwd : string;
  stdout : list string;
  pending : list string;
  socket : socket_state;
  browser : list string;
  served : list (list bytes);
  calls : list call
}.

(** The places of [main] where a call can raise instead of completing: an
    error of the operating system, or a [KeyboardInterrupt] that the
    interpreter delivers there.  The prints are numbered 0 to 5 in the order
    of the source. *)
Inductive point : Type :=
| At_chdir
| At_TCPServer
| At_print (n : nat)
| At_getcwd
| At_webbrowser_open
| At_server_close.

(** What [webbrowser.open(url)] comes to when it does not raise: it starts
    a browser and returns [True]; it finds no browser it can start and
    returns [False]; or it starts a browser that runs in the foreground (a
    console browser) and waits for it to end. *)
Inductive opening : Type :=
| Launched
| NotLaunched
| Waits.

(** One start of the script.  [argv] is [sys.argv], whose first entry is
    the script as it was named on the command line; [script_path dir name]
    is the [__file__] the interpreter gives a script named [name] when it is
    started in [dir], and [parent_of] is [Path(...).parent].  [resolve old
    dir] is the working directory [os.getcwd()] reports after [os.chdir(dir)]
    succeeded from [old].  [line_buffered] tells whether [sys.stdout] is
    flushed at every end of line, as it is on a terminal; otherwise it is
    flushed when the interpreter ends, the lines of [main] being shorter
    than its buffer.  [browse env url] is what [webbrowser.open(url)] does in
    the process environment [env], which it reads ([BROWSER], [DISPLAY] and
    others) to choose a browser.  [connections] are the connections accepted
    while [serve_forever] runs, and [loop_end] is the exception that ends
    the loop after them, [None] when the loop is still waiting. *)
Record world : Type := {
  argv : list string;
  environ : list (string * string);
  start_dir : string;
  script_path : string -> string -> string;
  parent_of : string -> string;
  resolve : string -> string -> string;
  fault : point -> option exn;
  line_buffered : bool;
  browse : list (string * string) -> string -> opening;
  connections : list connection;
  loop_end : option exn;
  site : environment
}.

Definition log_call (c : call) (p : process) : process :=
  {| cwd := cwd p; stdout := stdout p; pending := pending p;
     socket := socket p; browser := browser p; served := served p;
     calls := calls p ++ [c] |}.

Definition set_cwd (d : string) (p : process) : process :=
  {| cwd := d; stdout := stdout p; pending := pending p;
     socket := socket p; browser := browser p; served := served p;
     calls := calls p |}.

Definition write_stdout (line : string) (p : process) : process :=
  {| cwd := cwd p; stdout := stdout p ++ [line]; pending := pending p;
     socket := socket p; browser := browser p; served := served p;
     calls := calls p |}.

Definition buffer_line (line : string) (p : process) : process :=
  {| cwd := cwd p; stdout := stdout p; pending := pending p ++ [line];
     socket := socket p; browser := browser p; served := served p;
     calls := calls p |}.

(** [sys.stdout.flush()] *)
Definition flush_stdout (p : process) : process :=
  {| cwd := cwd p; stdout := stdout p ++ pending p; pending := [];
     socket := socket p; browser := browser p; served := served p;
     calls := calls p |}.

Definition set_socket (s : socket_state) (p : process) : process :=
  {| cwd := cwd p; stdout := stdout p; pending := pending p;
     socket := s; browser := browser p; served := served p;
     calls := calls p |}.

Definition launch (url : string) (p : process) : process :=
  {| cwd := cwd p; stdout := stdout p; pending := pending p;
     socket := socket p; browser := browser p ++ [url]; served := served p;
     calls := calls p |}.

Definition send (response : list bytes) (p : process) : process :=
  {| cwd := cwd p; stdout := stdout p; pending := pending p;
     socket := socket p; browser := browser p;
     served := served p ++ [response]; calls := calls p |}.

Section Process.
Variable w : world.

(** [__file__] and [Path(__file__).parent] *)
Definition script_file : string :=
  script_path w (start_dir w) (hd "" (argv w)).

Definition script_parent : string := parent_of w script_file.

(** A call at point [pt] completes with [effect] unless the world makes it
    raise. *)
Definition at_point {A} (pt : point) (effect : M process A) : M process A :=
  match fault w pt with
  | Some e => raise e
  | None => effect
  end.

(** [os.chdir(d)] *)
Definition chdir (d : string) : M process unit :=
  modify (log_call (Call_chdir d)) ;;
  at_point At_chdir
    (p <- get ;; modify (set_cwd (resolve w (cwd p) d))).

(** [os.getcwd()] *)
Definition getcwd : M process string :=
  at_point At_getcwd (p <- get ;; ret (cwd p)).

(** [print(line)]: the line goes to [sys.stdout], which passes it on at
    once when it is line buffered and keeps it otherwise. *)
Definition print (n : nat) (line : string) : M process unit :=
  modify (log_call (Call_print line)) ;;
  at_point (At_print n)
    (modify (if line_buffered w then write_stdout line
             else buffer_line line)).

(** [webbrowser.open(url)]; its boolean result is not used. *)
Definition webbrowser_open (url : string) : M process unit :=
  modify (log_call (Call_webbrowser_open url)) ;;
  at_point At_webbrowser_open
    (match browse w (environ w) url with
     | Launched => modify (launch url)
     | NotLaunched => ret tt
     | Waits => modify (launch url) ;; fun p => (Blocked, p)
     end).

(** [sys.exit(code)] *)
Definition sys_exit (code : Z) : M process unit :=
  modify (log_call (Call_sys_exit code)) ;;
  raise (SystemExit code).

(** [socketserver.TCPServer((host, port), handler_class)]: the constructor
    creates the socket, binds it and starts listening; when that raises it
    closes the socket and raises again. *)
Definition TCPServer (host : string) (port : Z) : M process unit :=
  modify (log_call (Call_TCPServer host port)) ;;
  match fault w At_TCPServer with
  | Some e => modify (set_socket Closed) ;; raise e
  | None => modify (set_socket (Listening host port))
  end.

(** [TCPServer.server_close], which [__exit__] calls. *)
Definition server_close : M process unit :=
  modify (log_call Call_server_close) ;;
  at_point At_server_close (modify (set_socket Closed)).

(** [with ctor as httpd: body] *)
Definition with_server {A} (ctor : M process unit) (body : M process A)
  : M process A :=
  ctor ;; try_finally body server_close.

(** [BaseServer.finish_request]: a handler instance serves the connection.
    The client reads what is sent to it, so that no write to the connection
    fails; what the handler wrote has reached the client also when the
    handler raises. *)
Definition finish_request (conn : connection) : M process unit :=
  fun p =>
    let '(res, h) :=
      CustomHTTPRequestHandler.handle (site w) conn
        (fresh_handler (cwd p)) in
    (res, send (wfile h) p).

(** [BaseServer._handle_request_noblock]: an [Exception] of the handler is
    reported on standard error by [handle_error] and the loop goes on;
    anything else propagates. *)
Definition handle_request_noblock (conn : connection) : M process unit :=
  try_except (finish_request conn) is_Exception (fun _ => ret tt).

Fixpoint serve_loop (conns : list connection) : M process unit :=
  match conns with
  | conn :: conns' => handle_request_noblock conn ;; serve_loop conns'
  | [] =>
      match loop_end w with
      | Some e => raise e
      | None => fun p => (Blocked, p)
      end
  end.

(** [httpd.serve_forever()]: nothing calls [shutdown], so the loop ends by
    an exception or not at all. *)
Definition serve_forever : M process unit :=
  modify (log_call Call_serve_forever) ;;
  serve_loop (connections w).

Definition is_KeyboardInterrupt (e : exn) : bool :=
  match e with
  | KeyboardInterrupt => true
  | _ => false
  end.

Definition url : string := "http://localhost:" ++ str PORT.

Definition line_title : string := "🚀 AP Government Quiz Tool Server".
Definition line_url : string := "📍 Serving at: " ++ url.
Definition line_directory (d : string) : string := "📁 Directory: " ++ d.
Definition line_browser : string := "🌐 Opening browser...".
Definition line_stop : string := "⏹️  Press Ctrl+C to stop the server".
Definition line_stopped : string := String LF "🛑 Server stopped".

(** Lines 29 to 33: the five prints. *)
Definition announce : M process unit :=
  print 0 line_title ;;
  print 1 line_url ;;
  d <- getcwd ;;
  print 2 (line_directory d) ;;
  print 3 line_browser ;;
  print 4 line_stop.

(** Lines 38 to 42: the serve loop and the [except] clause. *)
Definition serve : M process unit :=
  try_except serve_forever is_KeyboardInterrupt
    (fun _ => print 5 line_stopped ;; sys_exit 0).

(** Lines 24 to 42. *)
Definition main : M process unit :=
  chdir script_parent ;;
  with_server (TCPServer "" PORT)
    (announce ;;
     webbrowser_open url ;;
     serve).

Definition initial : process :=
  {| cwd := start_dir w; stdout := []; pending := []; socket := NoSocket;
     browser := []; served := []; calls := [] |}.

(** The interpreter flushes [sys.stdout] when it ends, however [main] has
    ended. *)
Definition interpreter_exit (r : result unit * process)
  : result unit * process :=
  match fst r with
  | Blocked => r
  | _ => (fst r, flush_stdout (snd r))
  end.

(** Lines 44 and 45: the script runs [main] and the interpreter ends. *)
Definition run : result unit * process := interpreter_exit (main initial).

(** The process when [main] has reached line 36 and is about to call
    [webbrowser.open], and when it has reached line 38 and is about to call
    [serve_forever]: lines 26 to 33 and 26 to 36, from the initial
    state. *)
Definition up_to_launch : result unit * process :=
  (chdir script_parent ;; TCPServer "" PORT ;; announce) initial.

Definition up_to_serving : result unit * process :=
  (chdir script_parent ;; TCPServer "" PORT ;; announce ;;
   webbrowser_open url) initial.

(** Line 38 on, and the way out of the [with] block. *)
Definition serve_and_leave : M process unit :=
  try_finally serve server_close.
End Process.

(** The exit status the interpreter gives the process: 0 after a normal end,
    the code of an uncaught [SystemExit], 130 after an uncaught
    [KeyboardInterrupt] (the interpreter ends by the signal), 1 after any
    other uncaught exception, which it reports with a traceback.  A blocked
    process has none. *)
Definition exit_status (r : result unit) : option Z :=
  match r with
  | Return _ => Some 0
  | Raise (SystemExit code) => Some code
  | Raise KeyboardInterrupt => Some 130
  | Raise _ => Some 1
  | Blocked => None
  end.

(** ** Reading a response

    A response is the list of writes a client receives: when it is sent
    while the request version is not [HTTP/0.9] the first write is the
    header block (status line, header lines, blank line), the writes after
    it are the body. *)

(** What the client of a connection receives from the handler class of the
    script, and what it would receive from the parent class, where nothing
    is overridden. *)
Definition custom_reply (E : environment) (cwd : string) (conn : connection)
  : list bytes :=
  reply_of (CustomHTTPRequestHandler.handle E) cwd conn.

Definition inherited_reply (E : environment) (cwd : string)
  (conn : connection) : list bytes :=
  reply_of (SimpleHTTPRequestHandler.handle E) cwd conn.

(** The same for a request that [parse_request] has accepted. *)
Definition custom_response (E : environment) (cwd : string) (r : request)
  : list bytes :=
  response_of (CustomHTTPRequestHandler.handle_one_request E) cwd r.

Definition inherited_response (E : environment) (cwd : string) (r : request)
  : list bytes :=
  response_of (SimpleHTTPRequestHandler.handle_one_request E) cwd r.

Definition header_line (keyword value : string) : bytes :=
  keyword ++ ": " ++ value ++ CRLF.

Definition status_line (code : Z) (message : string) : bytes :=
  BaseHTTPRequestHandler.protocol_version ++ " " ++ str code ++ " "
  ++ message ++ CRLF.

(** The response starts with a status line of the given code. *)
Definition status_is (code : Z) (resp : list bytes) : Prop :=
  exists message rest body, resp = (status_line code message ++ rest) :: body.

(** What follows the header block is, put together, exactly [contents]. *)
Definition body_is (contents : bytes) (resp : list bytes) : Prop :=
  exists block rest, resp = block :: rest /\ join rest = contents.

(** The header block ends with the three lines of the override and the
    blank line. *)
Definition carries_cors (resp : list bytes) : Prop :=
  exists lines body, resp = join (lines ++ cors_lines ++ [CRLF])%list :: body.

(** [parse_request] accepts what the connection delivers and leaves the
    request [r] in the handler: the request line is not longer than 65536
    bytes and has three words, the last of which is a version below 2.0, or
    it has the two words of a simple request of HTTP/0.9, which is a GET;
    and the header fields can be parsed. *)
Definition accepts (conn : connection) (r : request) : Prop :=
  len (raw_requestline conn) <= 65536 /\
  header_fields conn = Fields (req_headers r) /\
  match str_split (rstrip is_cr_or_lf (raw_requestline conn)) with
  | [command; path; version] =>
      (exists base number,
         BaseHTTPRequestHandler.read_version version = Some (base, number) /\
         tuple_ge number (2, 0) = false) /\
      req_command r = command /\
      req_path r = BaseHTTPRequestHandler.single_slash path /\
      req_version r = version
  | [command; path] =>
      command = "GET" /\
      req_command r = "GET" /\
      req_path r = BaseHTTPRequestHandler.single_slash path /\
      req_version r = "HTTP/0.9"
  | _ => False
  end.

(** The value [self.request_version] has while the response to a connection
    is sent: empty for a request line that is too long; the last word of a
    request line of three words or more when that is a version below 2.0;
    the default [HTTP/0.9] in every other case, a malformed version and a
    version of 2.0 or more among them. *)
Definition version_in_force (conn : connection) : string :=
  if 65536 <? len (raw_requestline conn) then ""
  else
    let words := str_split (rstrip is_cr_or_lf (raw_requestline conn)) in
    if (3 <=? List.length words)%nat then
      match BaseHTTPRequestHandler.read_version (last words "") with
      | Some (_, number) =>
          if tuple_ge number (2, 0) then "HTTP/0.9" else last words ""
      | None => "HTTP/0.9"
      end
    else "HTTP/0.9".

(** The page [send_error] makes for a code, a message and an
    explanation, where those not given come from [responses]. *)
Definition page_of (E : environment) (code : Z) (message explain : option string)
  : bytes :=
  error_page E code
    (match message with
     | Some m => m
     | None => fst (BaseHTTPRequestHandler.response_messages E code)
     end)
    (match explain with
     | Some x => x
     | None => snd (BaseHTTPRequestHandler.response_messages E code)
     end).

(** The file a request path stands for: the translated path, or the index
    file of the directory it names.  [None] when the path names a directory
    that is asked for without the final slash or that holds no index. *)
Definition resolves_to (E : environment) (cwd : string) (r : request)
  : option string :=
  let p := translate_path E cwd (req_path r) in
  if isdir E p then
    if negb (endswith (urlsplit_path E (req_path r)) "/") then None
    else if isfile E (path_join p "index.html")
         then Some (path_join p "index.html")
         else if isfile E (path_join p "index.htm")
              then Some (path_join p "index.htm")
              else None
  else Some p.

(** The request is conditional and the file has not changed since the date
    it gives: there is an [If-Modified-Since] field, no [If-None-Match]
    field, and the date is well formed and not before the modification time
    of the file. *)
Definition not_modified (E : environment) (r : request) (fs : stat) : bool :=
  header_in "If-Modified-Since" (req_headers r)
  && negb (header_in "If-None-Match" (req_headers r))
  && match header_get "If-Modified-Since" (req_headers r) with
     | Some ims => not_modified_since E ims (st_mtime fs)
     | None => false
     end.

(** ** Reading a run *)

(** The working directory after the [os.chdir] of line 26. *)
Definition working_directory (w : world) : string :=
  resolve w (start_dir w) (script_parent w).

(** The points [main] passes before it calls [serve_forever], in order. *)
Definition startup_points : list point :=
  [At_chdir; At_TCPServer; At_print 0; At_print 1; At_getcwd; At_print 2;
   At_print 3; At_print 4; At_webbrowser_open].

(** Those among them that lie inside the [with] block. *)
Definition after_bind_points : list point :=
  [At_print 0; At_print 1; At_getcwd; At_print 2; At_print 3; At_print 4;
   At_webbrowser_open].

(** What [webbrowser.open] of line 36 does in the process environment of
    the world, and the browsers that have been started when it has. *)
Definition opens (w : world) : opening := browse w (environ w) url.

Definition launched (w : world) : list string :=
  match opens w with
  | NotLaunched => []
  | _ => [url]
  end.

(** The startup goes through: no call of lines 26 to 36 raises, and
    [webbrowser.open] returns. *)
Definition startup_ok (w : world) : Prop :=
  (forall pt, In pt startup_points -> fault w pt = None) /\
  opens w <> Waits.

Fixpoint first_fault_among (w : world) (pts : list point)
  : option (point * exn) :=
  match pts with
  | [] => None
  | pt :: pts' =>
      match fault w pt with
      | Some e => Some (pt, e)
      | None => first_fault_among w pts'
      end
  end.

(** The first point of the startup at which a call raises. *)
Definition first_fault (w : world) : option (point * exn) :=
  first_fault_among w startup_points.

(** The five lines of lines 29 to 33. *)
Definition startup_lines (w : world) : list string :=
  [line_title; line_url; line_directory (working_directory w); line_browser;
   line_stop].

(** Of lines that have been printed, those that have reached standard
    output at once and those that wait in the buffer. *)
Definition shown (w : world) (lines : list string) : list string :=
  if line_buffered w then lines else [].

Definition kept (w : world) (lines : list string) : list string :=
  if line_buffered w then [] else lines.

(** The calls of lines 26 to 36. *)
Definition startup_calls (w : world) : list call :=
  [Call_chdir (script_parent w); Call_TCPServer "" PORT;
   Call_print line_title; Call_print line_url;
   Call_print (line_directory (working_directory w));
   Call_print line_browser; Call_print line_stop;
   Call_webbrowser_open url].

(** What the clients of all the connections of the world receive. *)
Definition responses_sent (w : world) : list (list bytes) :=
  map (custom_reply (site w) (working_directory w)) (connections w).

Definition is_launch (c : call) : bool :=
  match c with
  | Call_webbrowser_open _ => true
  | _ => false
  end.

Definition is_bind (c : call) : bool :=
  match c with
  | Call_TCPServer _ _ => true
  | _ => false
  end.

Definition is_serve (c : call) : bool :=
  match c with
  | Call_serve_forever => true
  | _ => false
  end.

Definition is_chdir (c : call) : bool :=
  match c with
  | Call_chdir _ => true
  | _ => false
  end.

(** The socket is only ever asked for all interfaces and port 3000. *)
Definition fixed_bind (c : call) : Prop :=
  match c with
  | Call_TCPServer host port => host = "" /\ port = 3000
  | _ => True
  end.

(** A connection to the port is taken by the operating system, and waits
    to be accepted, once a socket is bound to it and listens. *)
Definition takes_connections (s : socket_state) : bool :=
  match s with
  | Listening _ _ => true
  | _ => false
  end.

(** The position of the first call that satisfies [f]. *)
Fixpoint index_of (f : call -> bool) (l : list call) : option nat :=
  match l with
  | [] => None
  | c :: l' => if f c then Some 0%nat else option_map S (index_of f l')
  end.

(** The same script started with other arguments after its name, in another
    process environment, or with other events during the serve loop. *)
Definition set_arguments (args : list string) (w : world) : world :=
  {| argv := hd "" (argv w) :: args; environ := environ w;
     start_dir := start_dir w; script_path := script_path w;
     parent_of := parent_of w; resolve := resolve w; fault := fault w;
     line_buffered := line_buffered w; browse := browse w;
     connections := connections w; loop_end := loop_end w;
     site := site w |}.

Definition set_environ (e : list (string * string)) (w : world) : world :=
  {| argv := argv w; environ := e;
     start_dir := start_dir w; script_path := script_path w;
     parent_of := parent_of w; resolve := resolve w; fault := fault w;
     line_buffered := line_buffered w; browse := browse w;
     connections := connections w; loop_end := loop_end w;
     site := site w |}.

Definition set_serving (conns : list connection) (e : option exn) (w : world)
  : world :=
  {| argv := argv w; environ := environ w;
     start_dir := start_dir w; script_path := script_path w;
     parent_of := parent_of w; resolve := resolve w; fault := fault w;
     line_buffered := line_buffered w; browse := browse w;
     connections := conns; loop_end := e; site := site w |}.

(** ** Auxiliary notions of the proofs *)

(** What [send_header] does besides buffering the line. *)
Definition connection_directive (keyword value : string) (h : handler)
  : handler :=
  if String.eqb (lower keyword) "connection" then
    if String.eqb (lower value) "close" then set_close_connection true h
    else if String.eqb (lower value) "keep-alive"
         then set_close_connection false h
         else h
  else h.

(** The handler after its header buffer went out as [block]. *)
Definition flushed (block : list bytes) (h : handler) : handler :=
  set_headers_buffer (Some []) (wfile_write (join block) h).

(** An [end_headers] that sends the buffered lines, then the lines [extra],
    then the blank line. *)
Definition flushes (extra : list bytes) (eh : M handler unit) : Prop :=
  forall h,
    BaseHTTPRequestHandler.is_http09 h = false ->
    headers_buffer h <> None ->
    eh h =
    (Return tt,
     flushed (BaseHTTPRequestHandler.buffer_or_new h ++ extra ++ [CRLF])%list h).

(** An [end_headers] that does nothing while the request version is
    HTTP/0.9. *)
Definition silent_for_http09 (eh : M handler unit) : Prop :=
  forall h, BaseHTTPRequestHandler.is_http09 h = true -> eh h = (Return tt, h).

(** Two runs of one method under two [end_headers].  Either both raise the
    same exception and nothing has been written; or both return the same
    value, the same header lines are followed by the extra lines of each,
    and the same body follows. *)
Definition twin {A} (x1 x2 : list bytes) (r1 r2 : result A * handler) : Prop :=
  (exists e,
     (fst r1 = Raise e /\ wfile (snd r1) = []) /\
     (fst r2 = Raise e /\ wfile (snd r2) = [])) \/
  exists a lines body,
    (fst r1 = Return a /\
     wfile (snd r1) = join (lines ++ x1 ++ [CRLF])%list :: body) /\
    (fst r2 = Return a /\
     wfile (snd r2) = join (lines ++ x2 ++ [CRLF])%list :: body).

(** The same for a whole connection, whose request version in force is
    [v]: the two runs are one and the same when [v] is HTTP/0.9; if not,
    nothing is written or the two header blocks differ by the extra
    lines. *)
Definition akin (x1 x2 : list bytes) (v : string)
  (r1 r2 : result unit * handler) : Prop :=
  if String.eqb v "HTTP/0.9" then r1 = r2
  else
    fst r1 = fst r2 /\
    ((wfile (snd r1) = [] /\ wfile (snd r2) = []) \/
     exists lines body,
       wfile (snd r1) = join (lines ++ x1 ++ [CRLF])%list :: body /\
       wfile (snd r2) = join (lines ++ x2 ++ [CRLF])%list :: body).

(** A continuation that returns [v a] and only writes [out a]. *)
Definition appends {A B} (k : A -> M handler B) (v : A -> B)
  (out : A -> list bytes) : Prop :=
  forall a s, fst (k a s) = Return (v a) /\
              wfile (snd (k a s)) = (wfile s ++ out a)%list.

(** A computation that returns or raises [ValueError], from every state. *)
Definition mild {A} (m : M handler A) : Prop :=
  forall h,
    (exists a, fst (m h) = Return a) \/
    (exists what, fst (m h) = Raise (ValueError what)).

(** A computation that leaves the request version alone and the connection
    marked for closing. *)
Definition steady {A} (m : M handler A) : Prop :=
  forall h,
    request_version (snd (m h)) = request_version h /\
    (close_connection h = true -> close_connection (snd (m h)) = true).

(** The process when the script has gone through lines 26 to 36. *)
Definition started (w : world) : process :=
  {| cwd := working_directory w;
     stdout := shown w (startup_lines w);
     pending := kept w (startup_lines w);
     socket := Listening "" PORT; browser := launched w; served := [];
     calls := startup_calls w |}.

Definition loop_result (w : world) : result unit :=
  match loop_end w with
  | Some e => Raise e
  | None => Blocked
  end.

(** The process after the handler has served the connections [conns]. *)
Definition deliver (w : world) (conns : list connection) (p : process)
  : process :=
  fold_left (fun p conn => send (custom_reply (site w) (cwd p) conn) p)
    conns p.

(** The process when the serve loop has served every connection. *)
Definition serving (w : world) : process :=
  deliver w (connections w) (log_call Call_serve_forever (started w)).

(** The calls [main] makes once the loop has ended. *)
Definition exit_call (c : call) : Prop :=
  c = Call_print line_stopped \/ c = Call_sys_exit 0 \/ c = Call_server_close.

(** A run that ended during the startup. *)
Definition aborted (w : world) (p : process) : Prop :=
  served p = [] /\ browser p = [] /\ pending p = [] /\
  (fault w At_chdir = None -> cwd p = working_directory w) /\
  (exists n, (n <= 5)%nat /\ stdout p = firstn n (startup_lines w)) /\
  exists n closing,
    (1 <= n <= 8)%nat /\
    (closing = [] \/ closing = [Call_server_close]) /\
    calls p = (firstn n (startup_calls w) ++ closing)%list.

(** A run that entered the serve loop. *)
Definition completed (w : world) (p : process) : Prop :=
  cwd p = working_directory w /\ browser p = launched w /\
  served p = responses_sent w /\
  (exists extra, (stdout p ++ pending p)%list = (startup_lines w ++ extra)%list) /\
  exists tail,
    calls p = (startup_calls w ++ Call_serve_forever :: tail)%list /\
    Forall exit_call tail /\
    (In (Call_print line_stopped) tail <-> loop_end w = Some KeyboardInterrupt).

(** The same request with another method. *)
Definition with_command (c : string) (r : request) : request :=
  {| req_command := c; req_path := req_path r; req_version := req_version r;
     req_headers := req_headers r |}.

(** Two runs of one method, for HEAD and for GET: both raise the same
    exception before anything is written, or both return the same value
    after the same header block, and nothing comes after the block for
    HEAD. *)
Definition head_of {A} (r1 r2 : result A * handler) : Prop :=
  (exists e,
     (fst r1 = Raise e /\ wfile (snd r1) = []) /\
     (fst r2 = Raise e /\ wfile (snd r2) = [])) \/
  exists a block rest,
    (fst r1 = Return a /\ wfile (snd r1) = [block]) /\
    (fst r2 = Return a /\ wfile (snd r2) = block :: rest).

(** What leaving the [with] block and the interpreter makes of a body that
    raised [e] in the state [p]: [__exit__] calls [server_close] and lets
    [e] through, then [sys.stdout] is flushed. *)
Definition leave_with (w : world) (e : exn) (p : process)
  : result unit * process :=
  match fault w At_server_close with
  | Some e' => (Raise e', flush_stdout (log_call Call_server_close p))
  | None =>
      (Raise e,
       flush_stdout (set_socket Closed (log_call Call_server_close p)))
  end.

(** How a run goes on once the serve loop has served every connection. *)
Definition ending (w : world) : result unit * process :=
  match loop_end w with
  | None => (Blocked, serving w)
  | Some KeyboardInterrupt =>
      match fault w (At_print 5) with
      | Some e =>
          leave_with w e (log_call (Call_print line_stopped) (serving w))
      | None =>
          leave_with w (SystemExit 0)
            (log_call (Call_sys_exit 0)
               ((if line_buffered w then write_stdout line_stopped
                 else buffer_line line_stopped)
                  (log_call (Call_print line_stopped) (serving w))))
      end
  | Some e => leave_with w e (serving w)
  end.

(** The six lines [main] can print, in the order of the source. *)
Definition all_lines (w : world) : list string :=
  (startup_lines w ++ [line_stopped])%list.

(** ** A small site, for running the definitions *)
Module Sample.

Definition site_responses (code : Z) : option (string * string) :=
  if code =? 200 then Some ("OK", "Request fulfilled, document follows")
  else if code =? 301 then
    Some ("Moved Permanently", "Object moved permanently -- see URI list")
  else if code =? 304 then
    Some ("Not Modified", "Document has not changed since given time")
  else if code =? 400 then
    Some ("Bad Request", "Bad request syntax or unsupported method")
  else if code =? 404 then Some ("Not Found", "Nothing matches the given URI")
  else if code =? 414 then Some ("Request-URI Too Long", "URI is too long")
  else if code =? 501 then
    Some ("Not Implemented", "Server does not support this operation")
  else if code =? 505 then
    Some ("HTTP Version Not Supported", "Cannot fulfill request")
  else None.

Definition index_html : bytes := "<h1>AP Government Quiz</h1>".

Definition NUL : string := String (ascii_of_nat 0) EmptyString.

(** [/srv/quiz] holds [index.html] and the directory [data], which holds
    nothing.  The path [/%00] is unquoted to a NUL byte, which [open]
    refuses with [ValueError]. *)
Definition quiz_site : environment :=
  {| isdir := fun p =>
       String.eqb p "/srv/quiz/" || String.eqb p "/srv/quiz/data"
       || String.eqb p "/srv/quiz/data/";
     isfile := fun p => String.eqb p "/srv/quiz/index.html";
     listdir := fun p =>
       if String.eqb p "/srv/quiz/" then Some ["data"; "index.html"]
       else if String.eqb p "/srv/quiz/data" then Some []
       else if String.eqb p "/srv/quiz/data/" then Some []
       else None;
     open_rb := fun p =>
       if String.eqb p "/srv/quiz/index.html"
       then Opened index_html
              {| st_size := len index_html; st_mtime := 1700000000 |}
       else if String.eqb p ("/srv/quiz/" ++ NUL)
            then Open_ValueError "embedded null byte"
            else Open_OSError;
     translate_path := fun d p =>
       if String.eqb p "/" then d ++ "/"
       else if String.eqb p "/%00" then d ++ "/" ++ NUL
            else d ++ p;
     guess_type := fun _ => "text/html";
     urlsplit_path := fun p => p;
     add_slash := fun p => p ++ "/";
     responses := site_responses;
     version_string := "SimpleHTTP/0.6 Python/3.11.2";
     date_time_string := fun _ => "Thu, 01 Jan 1970 00:00:00 GMT";
     not_modified_since := fun _ _ => true;
     error_page := fun code m x => "<p>Error code: " ++ str code ++ "</p>";
     listing_page := fun _ _ _ => "<ul></ul>";
     filesystemencoding := "utf-8";
     repr := fun s => "'" ++ s ++ "'" |}.

(** A client that sends the request line [line] and a [Host] field. *)
Definition sends (line : string) : connection :=
  {| raw_requestline := line ++ CRLF;
     header_fields := Fields [("Host", "localhost:3000")] |}.

Definition request_of (method p version : string) : request :=
  {| req_command := method; req_path := p; req_version := version;
     req_headers := [("Host", "localhost:3000")] |}.

Definition get (p : string) : request := request_of "GET" p "HTTP/1.1".
Definition head (p : string) : request := request_of "HEAD" p "HTTP/1.1".
Definition post (p : string) : request := request_of "POST" p "HTTP/1.1".

(** The simple request [GET /index.html] of HTTP/0.9, which has no version
    and no header fields. *)
Definition http09_get (p : string) : request :=
  {| req_command := "GET"; req_path := p; req_version := "HTTP/0.9";
     req_headers := [] |}.

Definition sends_simple (line : string) : connection :=
  {| raw_requestline := line ++ CRLF; header_fields := Fields [] |}.

(** A conditional request for a file that has not changed. *)
Definition cached_get (p : string) : request :=
  {| req_command := "GET"; req_path := p; req_version := "HTTP/1.1";
     req_headers := [("If-Modified-Since", "Wed, 15 Nov 2023 00:00:00 GMT")] |}.

Definition sends_cached (line : string) : connection :=
  {| raw_requestline := line ++ CRLF;
     header_fields :=
       Fields [("If-Modified-Since", "Wed, 15 Nov 2023 00:00:00 GMT")] |}.

Definition getenv (name : string) (env : list (string * string))
  : option string :=
  option_map snd (find (fun kv => String.eqb (fst kv) name) env).

(** A machine on which [webbrowser.open] runs the console browser named in
    [BROWSER] when there is one, starts a graphical browser when [DISPLAY]
    is set, and finds nothing to start otherwise. *)
Definition desktop (env : list (string * string)) (u : string) : opening :=
  match getenv "BROWSER" env with
  | Some _ => Waits
  | None =>
      match getenv "DISPLAY" env with
      | Some _ => Launched
      | None => NotLaunched
      end
  end.

Definition point_eqb (a b : point) : bool :=
  match a, b with
  | At_chdir, At_chdir => true
  | At_TCPServer, At_TCPServer => true
  | At_print n, At_print m => Nat.eqb n m
  | At_getcwd, At_getcwd => true
  | At_webbrowser_open, At_webbrowser_open => true
  | At_server_close, At_server_close => true
  | _, _ => false
  end.

(** The script [/srv/quiz/server.py] is started from a home directory, on a
    terminal of a desktop session; the call at [pt] raises [e]; two requests
    arrive, then Ctrl+C. *)
Definition failing_at (pt : point) (e : exn) : world :=
  {| argv := ["/srv/quiz/server.py"];
     environ := [("HOME", "/home/u"); ("DISPLAY", ":0")];
     start_dir := "/home/u";
     script_path := fun _ name => name;
     parent_of := fun p =>
       if String.eqb p "/srv/quiz/server.py" then "/srv/quiz" else ".";
     resolve := fun _ d => d;
     fault := fun q => if point_eqb q pt then Some e else None;
     line_buffered := true;
     browse := desktop;
     connections :=
       [sends "GET /index.html HTTP/1.1"; sends "GET /nope HTTP/1.1"];
     loop_end := Some KeyboardInterrupt;
     site := quiz_site |}.

(** The same start when no call raises. *)
Definition quiet_start : world :=
  {| argv := ["/srv/quiz/server.py"];
     environ := [("HOME", "/home/u"); ("DISPLAY", ":0")];
     start_dir := "/home/u";
     script_path := fun _ name => name;
     parent_of := fun p =>
       if String.eqb p "/srv/quiz/server.py" then "/srv/quiz" else ".";
     resolve := fun _ d => d;
     fault := fun _ => None;
     line_buffered := true;
     browse := desktop;
     connections :=
       [sends "GET /index.html HTTP/1.1"; sends "GET /nope HTTP/1.1"];
     loop_end := Some KeyboardInterrupt;
     site := quiz_site |}.

Definition port_in_use : world :=
  failing_at At_TCPServer (OSError "[Errno 98] Address already in use").

(** The same start with standard output sent to a pipe or a file. *)
Definition piped_start : world :=
  {| argv := argv quiet_start; environ := environ quiet_start;
     start_dir := start_dir quiet_start;
     script_path := script_path quiet_start;
     parent_of := parent_of quiet_start; resolve := resolve quiet_start;
     fault := fault quiet_start; line_buffered := false;
     browse := browse quiet_start; connections := connections quiet_start;
     loop_end := loop_end quiet_start; site := site quiet_start |}.

End Sample.

Module Scenario.

(** The start of [Sample.quiet_start] with other events in the serve
    loop. *)
Definition serving_until (e : option exn) : world :=
  set_serving
    [Sample.sends "GET /index.html HTTP/1.1";
     Sample.sends "POST /index.html HTTP/1.1"] e
    Sample.quiet_start.

(** Ctrl+C in the loop, and the terminal gone when the notice is printed. *)
Definition notice_fails : world :=
  Sample.failing_at (At_print 5) (OSError "[Errno 32] Broken pipe").

(** The same start with a console browser named in the environment, and
    outside a desktop session. *)
Definition console_browser : world :=
  set_environ [("HOME", "/home/u"); ("BROWSER", "lynx")] Sample.quiet_start.

Definition no_desktop : world :=
  set_environ [("HOME", "/home/u")] Sample.quiet_start.

(** A fresh handler for a request, as [new_handler] makes it. *)
Definition fresh : handler :=
  new_handler "/srv/quiz" (Sample.get "/index.html").

(** A handler that has buffered a status line. *)
Definition buffering : handler :=
  BaseHTTPRequestHandler.buffer_append (status_line 200 "OK") fresh.

Definition fresh_http09 : handler :=
  new_handler "/srv/quiz" (Sample.http09_get "/index.html").

End Scenario.

(** * Proofs *)

Import BaseHTTPRequestHandler.

(** ** Facts about the handler *)

Lemma send_response_only_run E code message h :
  is_http09 h = false ->
  send_response_only E code message h =
    (Return tt,
     buffer_append (status_line code (status_message E code message)) h).
Proof.
  intros H. unfold send_response_only, bind, get, when, modify.
  rewrite H. reflexivity.
Qed.

Lemma send_header_run keyword value h :
  is_http09 h = false ->
  send_header keyword value h =
    (Return tt,
     connection_directive keyword value
       (buffer_append (header_line keyword value) h)).
Proof.
  intros H.
  unfold send_header, bind, get, when, modify, ret, connection_directive.
  rewrite H. cbn [negb].
  destruct (String.eqb (lower keyword) "connection"); [|reflexivity].
  destruct (String.eqb (lower value) "close"); [reflexivity|].
  destruct (String.eqb (lower value) "keep-alive"); reflexivity.
Qed.

Lemma send_header_http09 keyword value h :
  is_http09 h = true ->
  send_header keyword value h =
    (Return tt, connection_directive keyword value h).
Proof.
  intros H.
  unfold send_header, bind, get, when, modify, ret, connection_directive.
  rewrite H. cbn [negb].
  destruct (String.eqb (lower keyword) "connection"); [|reflexivity].
  destruct (String.eqb (lower value) "close"); [reflexivity|].
  destruct (String.eqb (lower value) "keep-alive"); reflexivity.
Qed.

Lemma base_end_headers_flushes : flushes [] end_headers.
Proof.
  intros h H Hb. unfold end_headers, bind, get, when, modify, raise.
  rewrite H. cbn [negb].
  destruct (headers_buffer h) as [b|] eqn:Eb; [|congruence].
  unfold flush_headers, bind, get, modify, flushed, buffer_or_new.
  cbn. rewrite Eb. reflexivity.
Qed.

Lemma custom_end_headers_run h :
  is_http09 h = false ->
  CustomHTTPRequestHandler.end_headers h =
    (Return tt, flushed (buffer_or_new h ++ cors_lines ++ [CRLF])%list h).
Proof.
  intros H. unfold CustomHTTPRequestHandler.end_headers.
  unfold bind at 1. rewrite send_header_run by exact H.
  unfold bind at 1. rewrite send_header_run by exact H.
  unfold bind at 1. rewrite send_header_run by exact H.
  rewrite base_end_headers_flushes; [| exact H | discriminate].
  destruct h as [c p v hs d cc [b|] ws];
    lazy -[join app]; rewrite <- ?app_assoc; reflexivity.
Qed.

Lemma custom_end_headers_flushes :
  flushes cors_lines CustomHTTPRequestHandler.end_headers.
Proof. intros h H _. apply custom_end_headers_run, H. Qed.

(** Running a sequence. *)
Lemma bind_assoc {S A B C} (m : M S A) (f : A -> M S B) (g : B -> M S C) s :
  bind (bind m f) g s = bind m (fun a => bind (f a) g) s.
Proof. unfold bind. destruct (m s) as [[a|e|] s']; reflexivity. Qed.

Lemma bind_get {S B} (f : S -> M S B) s : bind get f s = f s s.
Proof. reflexivity. Qed.

Lemma bind_ret {S A B} (a : A) (f : A -> M S B) s : bind (ret a) f s = f a s.
Proof. reflexivity. Qed.

Lemma bind_modify {S B} (g : S -> S) (f : unit -> M S B) s :
  bind (modify g) f s = f tt (g s).
Proof. reflexivity. Qed.

Lemma bind_send_header {B} keyword value (f : unit -> M handler B) h :
  is_http09 h = false ->
  bind (send_header keyword value) f h =
    f tt (connection_directive keyword value
            (buffer_append (header_line keyword value) h)).
Proof.
  intros H. unfold bind at 1. rewrite send_header_run by exact H.
  reflexivity.
Qed.

Lemma bind_send_response_only {B} E code message (f : unit -> M handler B) h :
  is_http09 h = false ->
  bind (send_response_only E code message) f h =
    f tt (buffer_append (status_line code (status_message E code message)) h).
Proof.
  intros H. unfold bind at 1. rewrite send_response_only_run by exact H.
  reflexivity.
Qed.

Lemma bind_flushes {B} extra eh (f : unit -> M handler B) h :
  flushes extra eh -> is_http09 h = false -> headers_buffer h <> None ->
  bind eh f h = f tt (flushed (buffer_or_new h ++ extra ++ [CRLF])%list h).
Proof.
  intros Hf H Hb. unfold bind at 1. rewrite Hf by assumption. reflexivity.
Qed.

(** The attributes the header methods leave alone. *)
Lemma is_http09_buffer_append l h :
  is_http09 (buffer_append l h) = is_http09 h.
Proof. reflexivity. Qed.

Lemma is_http09_connection_directive k v h :
  is_http09 (connection_directive k v h) = is_http09 h.
Proof.
  unfold connection_directive.
  repeat match goal with |- context [if ?b then _ else _] => destruct b end;
    reflexivity.
Qed.

Lemma is_http09_new_handler cwd r :
  is_http09 (new_handler cwd r) = String.eqb (req_version r) "HTTP/0.9".
Proof. reflexivity. Qed.

Lemma headers_buffer_buffer_append l h :
  headers_buffer (buffer_append l h) = Some (buffer_or_new h ++ [l])%list.
Proof. reflexivity. Qed.

Lemma headers_buffer_connection_directive k v h :
  headers_buffer (connection_directive k v h) = headers_buffer h.
Proof.
  unfold connection_directive.
  repeat match goal with |- context [if ?b then _ else _] => destruct b end;
    reflexivity.
Qed.

Lemma wfile_buffer_append l h : wfile (buffer_append l h) = wfile h.
Proof. reflexivity. Qed.

Lemma wfile_connection_directive k v h :
  wfile (connection_directive k v h) = wfile h.
Proof.
  unfold connection_directive.
  repeat match goal with |- context [if ?b then _ else _] => destruct b end;
    reflexivity.
Qed.

Lemma wfile_flushed block h :
  wfile (flushed block h) = (wfile h ++ [join block])%list.
Proof. reflexivity. Qed.

Lemma wfile_wfile_write b h : wfile (wfile_write b h) = (wfile h ++ [b])%list.
Proof. reflexivity. Qed.

Lemma wfile_new_handler cwd r : wfile (new_handler cwd r) = [].
Proof. reflexivity. Qed.

Lemma command_buffer_append l h : command (buffer_append l h) = command h.
Proof. reflexivity. Qed.

Lemma command_connection_directive k v h :
  command (connection_directive k v h) = command h.
Proof.
  unfold connection_directive.
  repeat match goal with |- context [if ?b then _ else _] => destruct b end;
    reflexivity.
Qed.

Lemma command_flushed block h : command (flushed block h) = command h.
Proof. reflexivity. Qed.

Lemma wfile_fresh_handler cwd : wfile (fresh_handler cwd) = [].
Proof. reflexivity. Qed.

Lemma protocol_is_1_0 : protocol_1_1 = false.
Proof. reflexivity. Qed.

Lemma has_body_404 : has_body 404 = true.
Proof. reflexivity. Qed.

Lemma has_body_501 : has_body 501 = true.
Proof. reflexivity. Qed.

Create Rewrite HintDb handler.
#[global] Hint Rewrite is_http09_buffer_append is_http09_connection_directive
  is_http09_new_handler headers_buffer_buffer_append
  headers_buffer_connection_directive wfile_buffer_append
  wfile_connection_directive wfile_flushed wfile_wfile_write
  wfile_new_handler wfile_fresh_handler command_buffer_append
  command_connection_directive command_flushed : handler.

Lemma twin_bind {A B} x1 x2 (m1 m2 : M handler A) (k : A -> M handler B) v out h :
  appends k v out ->
  twin x1 x2 (m1 h) (m2 h) ->
  twin x1 x2 (bind m1 k h) (bind m2 k h).
Proof.
  intros Hk [(e & [R1 W1] & [R2 W2]) | (a & lines & body & [R1 W1] & [R2 W2])];
    unfold bind;
    destruct (m1 h) as [r1 s1], (m2 h) as [r2 s2]; cbn [fst snd] in *;
    subst r1 r2.
  - left. exists e. repeat split; assumption.
  - right. exists (v a), lines, (body ++ out a)%list.
    destruct (Hk a s1) as [K1 K1'], (Hk a s2) as [K2 K2'].
    rewrite K1, K1', K2, K2', W1, W2. repeat split.
Qed.

Lemma appends_ret {A B} (b : B) : appends (fun _ : A => ret b) (fun _ => b) (fun _ => []).
Proof. intros a s. cbn. rewrite app_nil_r. split; reflexivity. Qed.

Ltac side H := autorewrite with handler; first [exact H | discriminate].

Ltac run_monad :=
  repeat
    (first
       [ rewrite bind_assoc
       | rewrite bind_get
       | rewrite bind_ret
       | rewrite bind_modify ];
     cbv beta iota zeta).

Ltac run_handler H H1 H2 :=
  repeat
    (first
       [ rewrite bind_assoc
       | rewrite bind_get
       | rewrite bind_ret
       | rewrite bind_modify
       | rewrite bind_send_header by side H
       | rewrite bind_send_response_only by side H
       | rewrite (bind_flushes _ _ _ _ H1) by side H
       | rewrite (bind_flushes _ _ _ _ H2) by side H
       | rewrite has_body_404
       | rewrite has_body_501 ];
     cbv beta iota zeta).

Ltac twin_leaf Hw :=
  right; unfold ret, modify; cbn [fst snd];
  eexists _, _, _; split; (split; [reflexivity|]);
  autorewrite with handler; rewrite ?Hw; reflexivity.

(** ** One method under two [end_headers], the request version not being
    HTTP/0.9 *)
Section Twin.
Variable E : environment.
Variable h : handler.
Variables (eh1 eh2 : M handler unit) (x1 x2 : list bytes).
Hypothesis H : is_http09 h = false.
Hypothesis Hw : wfile h = [].
Hypothesis H1 : flushes x1 eh1.
Hypothesis H2 : flushes x2 eh2.

Lemma send_error_twin code message explain :
  has_body code = true ->
  twin x1 x2
    (send_error E eh1 code message explain h)
    (send_error E eh2 code message explain h).
Proof.
  intros Hb. unfold send_error, send_response, when.
  destruct (response_messages E code) as [shortmsg longmsg].
  rewrite Hb.
  run_handler H H1 H2.
  autorewrite with handler.
  match goal with |- context [if ?b then _ else _] => destruct b end;
    twin_leaf Hw.
Qed.

Lemma list_directory_twin fullpath :
  twin x1 x2
    (SimpleHTTPRequestHandler.list_directory E eh1 fullpath h)
    (SimpleHTTPRequestHandler.list_directory E eh2 fullpath h).
Proof.
  unfold SimpleHTTPRequestHandler.list_directory.
  rewrite !bind_get.
  destruct (listdir E fullpath) as [entries|].
  - unfold send_response. run_handler H H1 H2. twin_leaf Hw.
  - eapply twin_bind; [apply appends_ret|].
    apply send_error_twin. reflexivity.
Qed.

Lemma send_head_file_twin fullpath :
  twin x1 x2
    (SimpleHTTPRequestHandler.send_head_file E eh1 fullpath h)
    (SimpleHTTPRequestHandler.send_head_file E eh2 fullpath h).
Proof.
  unfold SimpleHTTPRequestHandler.send_head_file.
  rewrite !bind_get. cbv zeta.
  destruct (endswith fullpath "/").
  { eapply twin_bind; [apply appends_ret|].
    apply send_error_twin. reflexivity. }
  destruct (open_rb E fullpath) as [contents fs| |what].
  - match goal with |- context [if ?b then _ else _] => destruct b end;
      unfold send_response; run_handler H H1 H2; twin_leaf Hw.
  - eapply twin_bind; [apply appends_ret|].
    apply send_error_twin. reflexivity.
  - left. exists (ValueError what). unfold raise. cbn [fst snd].
    repeat split; exact Hw.
Qed.

Lemma send_head_twin :
  twin x1 x2
    (SimpleHTTPRequestHandler.send_head E eh1 h)
    (SimpleHTTPRequestHandler.send_head E eh2 h).
Proof.
  unfold SimpleHTTPRequestHandler.send_head.
  rewrite !bind_get. cbv zeta.
  destruct (isdir E _); [|apply send_head_file_twin].
  destruct (negb _).
  { unfold send_response. run_handler H H1 H2. twin_leaf Hw. }
  destruct (isfile E _); [apply send_head_file_twin|].
  destruct (isfile E _); [apply send_head_file_twin|].
  apply list_directory_twin.
Qed.
End Twin.

(** ** Copying a file *)

Lemma write_all_run bufs h :
  fst (SimpleHTTPRequestHandler.write_all bufs h) = Return tt /\
  wfile (snd (SimpleHTTPRequestHandler.write_all bufs h))
  = (wfile h ++ bufs)%list /\
  request_version (snd (SimpleHTTPRequestHandler.write_all bufs h))
  = request_version h /\
  close_connection (snd (SimpleHTTPRequestHandler.write_all bufs h))
  = close_connection h.
Proof.
  revert h. induction bufs as [|buf bufs IH]; intros h.
  - cbn. rewrite app_nil_r. repeat split.
  - cbn [SimpleHTTPRequestHandler.write_all]. rewrite bind_modify.
    destruct (IH (wfile_write buf h)) as (-> & -> & -> & ->).
    cbn [wfile wfile_write request_version close_connection].
    rewrite <- app_assoc. repeat split.
Qed.

Lemma take_drop n s : take n s ++ drop n s = s.
Proof.
  revert s. induction n as [|n IH]; intros [|c s]; cbn; try reflexivity.
  now rewrite IH.
Qed.

Lemma length_drop n s :
  String.length (drop n s) = (String.length s - n)%nat.
Proof.
  revert s. induction n as [|n IH]; intros [|c s]; cbn; try reflexivity.
  apply IH.
Qed.

Lemma take_empty n s : take n s = "" -> n = 0%nat \/ s = "".
Proof. destruct n, s; cbn; auto; discriminate. Qed.

Lemma join_cons a l : join (a :: l) = a ++ join l.
Proof.
  unfold join. destruct l as [|b l]; cbn.
  - induction a as [|c a IH]; cbn; [reflexivity | now rewrite <- IH].
  - reflexivity.
Qed.

(** The pieces of a file make up the file. *)
Lemma join_reads_from calls n s :
  (0 < n)%nat -> (String.length s <= calls)%nat ->
  join (reads_from calls n s) = s.
Proof.
  intros Hn. revert s. induction calls as [|calls IH]; intros s Hs.
  - destruct s; [reflexivity | cbn in Hs; lia].
  - cbn [reads_from].
    destruct (take n s) as [|c t] eqn:Ht.
    + destruct (take_empty n s Ht) as [-> | ->]; [lia | reflexivity].
    + rewrite join_cons, IH.
      * rewrite <- Ht. apply take_drop.
      * rewrite length_drop.
        destruct s as [|c' s']; [destruct n; discriminate Ht|].
        cbn [String.length] in *. lia.
Qed.

Lemma copy_bufsize_positive : (0 < SimpleHTTPRequestHandler.COPY_BUFSIZE)%nat.
Proof. unfold SimpleHTTPRequestHandler.COPY_BUFSIZE. lia. Qed.

Lemma join_reads s : join (reads SimpleHTTPRequestHandler.COPY_BUFSIZE s) = s.
Proof.
  apply join_reads_from; [apply copy_bufsize_positive | apply Nat.le_refl].
Qed.

(** A file no longer than the buffer goes out in one piece, and an empty
    file in none. *)
Lemma reads_short n s :
  s <> "" -> (String.length s <= n)%nat -> reads n s = [s].
Proof.
  intros Hs Hn. unfold reads.
  destruct s as [|c s]; [congruence|].
  cbn [String.length reads_from].
  assert (Htake : forall m t, (String.length t <= m)%nat -> take m t = t).
  { induction m as [|m IH]; intros [|c' t] Ht; cbn in *;
      try reflexivity; try lia.
    rewrite IH by lia. reflexivity. }
  assert (Hdrop : forall m t, (String.length t <= m)%nat -> drop m t = "").
  { induction m as [|m IH]; intros [|c' t] Ht; cbn in *;
      try reflexivity; try lia.
    apply IH. lia. }
  rewrite (Htake n (String c s)) by exact Hn.
  rewrite (Hdrop n (String c s)) by exact Hn.
  destruct (String.length s), n; reflexivity.
Qed.

Lemma reads_empty n : reads n "" = [].
Proof. reflexivity. Qed.

Lemma appends_copy :
  appends
    (fun f : option bytes =>
       match f with
       | Some contents => SimpleHTTPRequestHandler.copyfile contents
       | None => ret tt
       end)
    (fun _ => tt)
    (fun f =>
       match f with
       | Some contents => reads SimpleHTTPRequestHandler.COPY_BUFSIZE contents
       | None => []
       end).
Proof.
  intros [contents|] s.
  - unfold SimpleHTTPRequestHandler.copyfile.
    destruct (write_all_run
                (reads SimpleHTTPRequestHandler.COPY_BUFSIZE contents) s)
      as (-> & -> & _).
    split; reflexivity.
  - cbn. rewrite app_nil_r. split; reflexivity.
Qed.

Section TwinDispatch.
Variable E : environment.
Variable h : handler.
Variables (eh1 eh2 : M handler unit) (x1 x2 : list bytes).
Hypothesis H : is_http09 h = false.
Hypothesis Hw : wfile h = [].
Hypothesis H1 : flushes x1 eh1.
Hypothesis H2 : flushes x2 eh2.

Lemma handle_one_request_twin :
  twin x1 x2
    (BaseHTTPRequestHandler.handle_one_request E eh1
       (SimpleHTTPRequestHandler.getattr_do E eh1) h)
    (BaseHTTPRequestHandler.handle_one_request E eh2
       (SimpleHTTPRequestHandler.getattr_do E eh2) h).
Proof.
  unfold BaseHTTPRequestHandler.handle_one_request,
    SimpleHTTPRequestHandler.getattr_do.
  rewrite !bind_get.
  destruct (String.eqb _ "do_GET").
  { unfold SimpleHTTPRequestHandler.do_GET.
    eapply twin_bind; [apply appends_copy |].
    apply send_head_twin; assumption. }
  destruct (String.eqb _ "do_HEAD").
  { unfold SimpleHTTPRequestHandler.do_HEAD.
    eapply twin_bind; [apply appends_ret |].
    apply send_head_twin; assumption. }
  apply send_error_twin; try assumption. reflexivity.
Qed.
End TwinDispatch.

(** ** One method under two [end_headers], the request version being
    HTTP/0.9 *)

Lemma send_response_only_http09 E code message h :
  is_http09 h = true -> send_response_only E code message h = (Return tt, h).
Proof.
  intros H. unfold send_response_only, bind, get, when. rewrite H. reflexivity.
Qed.

Lemma bind_send_header_http09 {B} keyword value (f : unit -> M handler B) h :
  is_http09 h = true ->
  bind (send_header keyword value) f h
  = f tt (connection_directive keyword value h).
Proof.
  intros H. unfold bind at 1. rewrite send_header_http09 by exact H.
  reflexivity.
Qed.

Lemma bind_send_response_only_http09 {B} E code message
  (f : unit -> M handler B) h :
  is_http09 h = true ->
  bind (send_response_only E code message) f h = f tt h.
Proof.
  intros H. unfold bind at 1. rewrite send_response_only_http09 by exact H.
  reflexivity.
Qed.

Lemma bind_silent {B} eh (f : unit -> M handler B) h :
  silent_for_http09 eh -> is_http09 h = true -> bind eh f h = f tt h.
Proof. intros Hs H. unfold bind at 1. rewrite Hs by exact H. reflexivity. Qed.

Lemma base_end_headers_silent : silent_for_http09 end_headers.
Proof.
  intros h H. unfold end_headers, bind, get, when. rewrite H. reflexivity.
Qed.

Ltac side09 H := autorewrite with handler; exact H.

Ltac run_http09 H S1 S2 :=
  repeat
    (first
       [ rewrite bind_assoc
       | rewrite bind_get
       | rewrite bind_ret
       | rewrite bind_modify
       | rewrite bind_send_header_http09 by side09 H
       | rewrite bind_send_response_only_http09 by side09 H
       | rewrite (bind_silent _ _ _ S1) by side09 H
       | rewrite (bind_silent _ _ _ S2) by side09 H ];
     cbv beta iota zeta).

Section Http09.
Variable E : environment.
Variables eh1 eh2 : M handler unit.
Hypothesis S1 : silent_for_http09 eh1.
Hypothesis S2 : silent_for_http09 eh2.
Variable h : handler.
Hypothesis H : is_http09 h = true.

Lemma send_error_http09 code message explain :
  send_error E eh1 code message explain h
  = send_error E eh2 code message explain h.
Proof.
  unfold send_error, send_response, when.
  destruct (response_messages E code) as [shortmsg longmsg].
  destruct (has_body code); run_http09 H S1 S2; reflexivity.
Qed.

Lemma list_directory_http09 fullpath :
  SimpleHTTPRequestHandler.list_directory E eh1 fullpath h
  = SimpleHTTPRequestHandler.list_directory E eh2 fullpath h.
Proof.
  unfold SimpleHTTPRequestHandler.list_directory.
  rewrite !bind_get.
  destruct (listdir E fullpath) as [entries|].
  - unfold send_response. run_http09 H S1 S2. reflexivity.
  - unfold bind. rewrite send_error_http09. reflexivity.
Qed.

Lemma send_head_file_http09 fullpath :
  SimpleHTTPRequestHandler.send_head_file E eh1 fullpath h
  = SimpleHTTPRequestHandler.send_head_file E eh2 fullpath h.
Proof.
  unfold SimpleHTTPRequestHandler.send_head_file.
  rewrite !bind_get. cbv zeta.
  destruct (endswith fullpath "/").
  { unfold bind. rewrite send_error_http09. reflexivity. }
  destruct (open_rb E fullpath) as [contents fs| |what].
  - match goal with |- context [if ?b then _ else _] => destruct b end;
      unfold send_response; run_http09 H S1 S2; reflexivity.
  - unfold bind. rewrite send_error_http09. reflexivity.
  - reflexivity.
Qed.

Lemma send_head_http09 :
  SimpleHTTPRequestHandler.send_head E eh1 h
  = SimpleHTTPRequestHandler.send_head E eh2 h.
Proof.
  unfold SimpleHTTPRequestHandler.send_head.
  rewrite !bind_get. cbv zeta.
  destruct (isdir E _); [|apply send_head_file_http09].
  destruct (negb _).
  { unfold send_response. run_http09 H S1 S2. reflexivity. }
  destruct (isfile E _); [apply send_head_file_http09|].
  destruct (isfile E _); [apply send_head_file_http09|].
  apply list_directory_http09.
Qed.

Lemma handle_one_request_http09 :
  BaseHTTPRequestHandler.handle_one_request E eh1
    (SimpleHTTPRequestHandler.getattr_do E eh1) h
  = BaseHTTPRequestHandler.handle_one_request E eh2
      (SimpleHTTPRequestHandler.getattr_do E eh2) h.
Proof.
  unfold BaseHTTPRequestHandler.handle_one_request,
    SimpleHTTPRequestHandler.getattr_do.
  rewrite !bind_get.
  destruct (String.eqb _ "do_GET").
  { unfold SimpleHTTPRequestHandler.do_GET, bind.
    rewrite send_head_http09. reflexivity. }
  destruct (String.eqb _ "do_HEAD").
  { unfold SimpleHTTPRequestHandler.do_HEAD, bind.
    rewrite send_head_http09. reflexivity. }
  apply send_error_http09.
Qed.
End Http09.

(** ** What a handler can raise *)

Lemma mild_ret {A} (a : A) : mild (ret a).
Proof. intros h. left. exists a. reflexivity. Qed.

Lemma mild_modify f : mild (modify f).
Proof. intros h. left. exists tt. reflexivity. Qed.

Lemma mild_raise {A} what : mild (@raise handler A (ValueError what)).
Proof. intros h. right. exists what. reflexivity. Qed.

Lemma mild_bind {A B} (m : M handler A) (k : A -> M handler B) :
  mild m -> (forall a, mild (k a)) -> mild (bind m k).
Proof.
  intros Hm Hk h. unfold bind.
  destruct (Hm h) as [[a Ha] | [what Ha]];
    destruct (m h) as [res h']; cbn [fst] in Ha; subst res.
  - apply Hk.
  - right. exists what. reflexivity.
Qed.

Lemma mild_get_bind {A} (k : handler -> M handler A) :
  (forall h, mild (k h)) -> mild (bind get k).
Proof. intros Hk h. rewrite bind_get. apply Hk. Qed.

Lemma mild_when b (m : M handler unit) : mild m -> mild (when b m).
Proof. intros Hm. destruct b; [exact Hm | apply mild_ret]. Qed.

Lemma mild_send_header keyword value : mild (send_header keyword value).
Proof.
  unfold send_header. apply mild_get_bind. intros h.
  apply mild_bind; [apply mild_when, mild_modify|]. intros _.
  apply mild_when.
  repeat match goal with |- context [if ?b then _ else _] => destruct b end;
    first [apply mild_modify | apply mild_ret].
Qed.

Lemma mild_send_response_only E code message :
  mild (send_response_only E code message).
Proof.
  unfold send_response_only. apply mild_get_bind. intros h.
  apply mild_when, mild_modify.
Qed.

Lemma custom_end_headers_http09 h :
  is_http09 h = true ->
  CustomHTTPRequestHandler.end_headers h = (Return tt, h).
Proof.
  intros H. unfold CustomHTTPRequestHandler.end_headers.
  unfold bind at 1. rewrite send_header_http09 by exact H.
  change (connection_directive "Access-Control-Allow-Origin" "*" h) with h.
  unfold bind at 1. rewrite send_header_http09 by exact H.
  change (connection_directive "Access-Control-Allow-Methods"
            "GET, POST, OPTIONS" h) with h.
  unfold bind at 1. rewrite send_header_http09 by exact H.
  change (connection_directive "Access-Control-Allow-Headers"
            "Content-Type" h) with h.
  unfold end_headers, bind, get, when. rewrite H. reflexivity.
Qed.

Lemma custom_end_headers_silent :
  silent_for_http09 CustomHTTPRequestHandler.end_headers.
Proof. intros h H. apply custom_end_headers_http09, H. Qed.

Lemma custom_end_headers_returns h :
  fst (CustomHTTPRequestHandler.end_headers h) = Return tt.
Proof.
  destruct (is_http09 h) eqn:H.
  - rewrite custom_end_headers_http09 by exact H. reflexivity.
  - rewrite custom_end_headers_run by exact H. reflexivity.
Qed.

Lemma mild_custom_end_headers : mild CustomHTTPRequestHandler.end_headers.
Proof. intros h. left. exists tt. apply custom_end_headers_returns. Qed.

Section Mild.
Variable E : environment.
Variable eh : M handler unit.
Hypothesis mild_eh : mild eh.

Lemma mild_send_response code message :
  mild (send_response E code message).
Proof.
  unfold send_response.
  apply mild_bind; [apply mild_send_response_only|]. intros _.
  apply mild_bind; [apply mild_send_header|]. intros _.
  apply mild_send_header.
Qed.

Ltac mild_step :=
  first [ apply mild_send_response | apply mild_send_header
        | apply mild_send_response_only
        | exact mild_eh | apply mild_ret | apply mild_modify
        | apply mild_raise
        | apply mild_bind; [|intros _] ].

Lemma mild_send_error code message explain :
  mild (send_error E eh code message explain).
Proof.
  unfold send_error. destruct (response_messages E code) as [s l].
  apply mild_bind; [apply mild_send_response|]. intros _.
  apply mild_bind; [apply mild_send_header|]. intros _.
  apply mild_bind.
  { destruct (has_body code); [|apply mild_ret].
    apply mild_bind; [apply mild_send_header|]. intros _.
    apply mild_send_header. }
  intros _. apply mild_bind; [exact mild_eh|]. intros _.
  apply mild_get_bind. intros h.
  destruct (has_body code); [|apply mild_ret].
  apply mild_when, mild_modify.
Qed.

Lemma mild_list_directory fullpath :
  mild (SimpleHTTPRequestHandler.list_directory E eh fullpath).
Proof.
  unfold SimpleHTTPRequestHandler.list_directory.
  apply mild_get_bind. intros h.
  destruct (listdir E fullpath).
  - repeat mild_step.
  - apply mild_bind; [apply mild_send_error|]. intros _. apply mild_ret.
Qed.

Lemma mild_send_head_file fullpath :
  mild (SimpleHTTPRequestHandler.send_head_file E eh fullpath).
Proof.
  unfold SimpleHTTPRequestHandler.send_head_file.
  apply mild_get_bind. intros h. cbv zeta.
  destruct (endswith fullpath "/").
  { apply mild_bind; [apply mild_send_error|]. intros _. apply mild_ret. }
  destruct (open_rb E fullpath) as [contents fs| |what].
  - match goal with |- context [if ?b then _ else _] => destruct b end;
      repeat mild_step.
  - apply mild_bind; [apply mild_send_error|]. intros _. apply mild_ret.
  - apply mild_raise.
Qed.

Lemma mild_send_head : mild (SimpleHTTPRequestHandler.send_head E eh).
Proof.
  unfold SimpleHTTPRequestHandler.send_head.
  apply mild_get_bind. intros h. cbv zeta.
  destruct (isdir E _); [|apply mild_send_head_file].
  destruct (negb _).
  { repeat mild_step. }
  destruct (isfile E _); [apply mild_send_head_file|].
  destruct (isfile E _); [apply mild_send_head_file|].
  apply mild_list_directory.
Qed.

Lemma mild_copyfile contents :
  mild (SimpleHTTPRequestHandler.copyfile contents).
Proof.
  intros h. left. exists tt. unfold SimpleHTTPRequestHandler.copyfile.
  apply write_all_run.
Qed.

Lemma mild_handle_one_request :
  mild (BaseHTTPRequestHandler.handle_one_request E eh
          (SimpleHTTPRequestHandler.getattr_do E eh)).
Proof.
  unfold BaseHTTPRequestHandler.handle_one_request,
    SimpleHTTPRequestHandler.getattr_do.
  apply mild_get_bind. intros h.
  destruct (String.eqb _ "do_GET").
  { unfold SimpleHTTPRequestHandler.do_GET.
    apply mild_bind; [apply mild_send_head|].
    intros [contents|]; [apply mild_copyfile | apply mild_ret]. }
  destruct (String.eqb _ "do_HEAD").
  { unfold SimpleHTTPRequestHandler.do_HEAD.
    apply mild_bind; [apply mild_send_head|]. intros _.
    apply mild_ret. }
  apply mild_send_error.
Qed.

Lemma mild_parse_version words : mild (parse_version E eh words).
Proof.
  unfold parse_version. cbv zeta.
  destruct (read_version _) as [[base number]|].
  - apply mild_bind; [apply mild_when, mild_modify|]. intros _.
    destruct (tuple_ge number (2, 0)).
    + apply mild_bind; [apply mild_send_error|]. intros _. apply mild_ret.
    + apply mild_bind; [apply mild_modify|]. intros _. apply mild_ret.
  - apply mild_bind; [apply mild_send_error|]. intros _. apply mild_ret.
Qed.

Lemma mild_parse_headers conn : mild (parse_headers E eh conn).
Proof.
  unfold parse_headers.
  destruct (header_fields conn) as [hs|err|err].
  - apply mild_bind; [apply mild_modify|]. intros _. cbv zeta.
    apply mild_bind.
    { repeat match goal with
             | |- context [if ?b then _ else _] => destruct b
             end; first [apply mild_modify | apply mild_ret]. }
    intros _. apply mild_get_bind. intros h.
    match goal with |- context [if ?b then _ else _] => destruct b end;
      [|apply mild_ret].
    unfold handle_expect_100. repeat mild_step.
  - apply mild_bind; [apply mild_send_error|]. intros _. apply mild_ret.
  - apply mild_bind; [apply mild_send_error|]. intros _. apply mild_ret.
Qed.

Lemma mild_parse_request conn : mild (parse_request E eh conn).
Proof.
  unfold parse_request.
  apply mild_bind; [apply mild_modify|]. intros _.
  apply mild_bind; [apply mild_modify|]. intros _.
  apply mild_bind; [apply mild_modify|]. intros _. cbv zeta.
  destruct (List.length _ =? 0)%nat; [apply mild_ret|].
  apply mild_bind.
  { destruct (3 <=? _)%nat; [apply mild_parse_version | apply mild_ret]. }
  intros [|]; cbn [negb]; [|apply mild_ret].
  destruct (negb _).
  { apply mild_bind; [apply mild_send_error|]. intros _. apply mild_ret. }
  apply mild_bind.
  { destruct (List.length _ =? 2)%nat; [|apply mild_ret].
    apply mild_bind; [apply mild_modify|]. intros _.
    destruct (negb _); [|apply mild_ret].
    apply mild_bind; [apply mild_send_error|]. intros _. apply mild_ret. }
  intros [|]; cbn [negb]; [|apply mild_ret].
  apply mild_bind; [apply mild_modify|]. intros _.
  apply mild_bind; [apply mild_modify|]. intros _.
  apply mild_parse_headers.
Qed.

Lemma mild_handle conn :
  mild (BaseHTTPRequestHandler.handle E eh
          (SimpleHTTPRequestHandler.getattr_do E eh) conn).
Proof.
  unfold BaseHTTPRequestHandler.handle.
  apply mild_bind; [apply mild_modify|]. intros _.
  destruct (65536 <? _).
  { apply mild_bind; [apply mild_modify|]. intros _.
    apply mild_bind; [apply mild_modify|]. intros _.
    apply mild_send_error. }
  destruct (String.eqb _ ""); [apply mild_modify|].
  apply mild_bind; [apply mild_parse_request|].
  intros [|]; [apply mild_handle_one_request | apply mild_ret].
Qed.
End Mild.

(** The handler of the script returns, or raises the [ValueError] of
    [open]: nothing else. *)
Lemma custom_handler_is_mild E conn :
  mild (CustomHTTPRequestHandler.handle E conn).
Proof. apply mild_handle, mild_custom_end_headers. Qed.


(** ** Reading the request *)

Lemma parse_version_run E eh words s :
  parse_version E eh words s =
  match read_version (last words "") with
  | None =>
      bind (send_error E eh 400
              (Some ("Bad request version (" ++ repr E (last words "") ++ ")"))
              None)
        (fun _ => ret false) s
  | Some (base, number) =>
      if tuple_ge number (2, 0) then
        bind (send_error E eh 505
                (Some ("Invalid HTTP version (" ++ base ++ ")")) None)
          (fun _ => ret false) s
      else (Return true, set_request_version (last words "") s)
  end.
Proof.
  unfold parse_version. cbv zeta.
  destruct (read_version _) as [[base number]|]; [|reflexivity].
  rewrite protocol_is_1_0, andb_false_r. unfold when. rewrite bind_ret.
  destruct (tuple_ge number (2, 0)); reflexivity.
Qed.

(** What the [Connection] field makes of a handler whose connection is
    marked for closing already. *)
Lemma parse_headers_run E eh conn hs s :
  header_fields conn = Fields hs ->
  close_connection s = true ->
  parse_headers E eh conn s = (Return true, set_headers hs s).
Proof.
  intros Hf Hc. unfold parse_headers. rewrite Hf.
  rewrite bind_modify. cbv zeta.
  rewrite !protocol_is_1_0, !andb_false_r. cbn [andb].
  assert (Hs : set_close_connection true (set_headers hs s) = set_headers hs s).
  { destruct s. cbn in *. subst. reflexivity. }
  destruct (String.eqb _ "close").
  - rewrite bind_modify, Hs, bind_get. reflexivity.
  - rewrite bind_ret, bind_get. reflexivity.
Qed.

Ltac run_words :=
  repeat (progress (run_monad;
                    cbn [List.length Nat.eqb Nat.leb negb andb nth])).

(** A request that [parse_request] accepts reaches the method of the
    handler as [new_handler] has it. *)
Lemma handle_accepted E eh getattr cwd conn r :
  accepts conn r ->
  BaseHTTPRequestHandler.handle E eh getattr conn (fresh_handler cwd)
  = BaseHTTPRequestHandler.handle_one_request E eh getattr
      (new_handler cwd r).
Proof.
  intros (Hlen & Hf & Hwords).
  unfold BaseHTTPRequestHandler.handle. rewrite bind_modify.
  replace (65536 <? len (raw_requestline conn)) with false
    by (symmetry; apply Z.ltb_ge; exact Hlen).
  destruct (String.eqb (raw_requestline conn) "") eqn:Hraw.
  { apply String.eqb_eq in Hraw. rewrite Hraw in Hwords.
    cbn in Hwords. contradiction. }
  unfold parse_request. run_monad.
  destruct (str_split _) as [|c [|p [|v [|x rest]]]]; try contradiction.
  - destruct Hwords as (-> & Hc & Hp & Hv).
    run_words. change (String.eqb "GET" "GET") with true. run_words.
    unfold bind at 1. erewrite parse_headers_run; [|exact Hf|reflexivity].
    destruct r as [rc rp rv rh]. cbn in Hc, Hp, Hv, Hf. subst. reflexivity.
  - destruct Hwords as ((base & number & Hread & Hge) & Hc & Hp & Hv).
    run_words. unfold bind at 1. rewrite parse_version_run.
    cbn [last]. rewrite Hread, Hge. run_words.
    unfold bind at 1. erewrite parse_headers_run; [|exact Hf|reflexivity].
    destruct r as [rc rp rv rh]. cbn in Hc, Hp, Hv, Hf. subst. reflexivity.
Qed.

Lemma custom_reply_accepted E cwd conn r :
  accepts conn r -> custom_reply E cwd conn = custom_response E cwd r.
Proof.
  intros Ha. unfold custom_reply, reply_of, custom_response, response_of,
    CustomHTTPRequestHandler.handle,
    CustomHTTPRequestHandler.handle_one_request.
  rewrite (handle_accepted _ _ _ cwd conn r Ha). reflexivity.
Qed.

Lemma inherited_reply_accepted E cwd conn r :
  accepts conn r -> inherited_reply E cwd conn = inherited_response E cwd r.
Proof.
  intros Ha. unfold inherited_reply, reply_of, inherited_response, response_of,
    SimpleHTTPRequestHandler.handle,
    SimpleHTTPRequestHandler.handle_one_request.
  rewrite (handle_accepted _ _ _ cwd conn r Ha). reflexivity.
Qed.

(** ** A whole connection under two [end_headers] *)

Lemma bind_parse_version {B} E eh words (k : bool -> M handler B) s :
  bind (parse_version E eh words) k s =
  match read_version (last words "") with
  | None =>
      bind (send_error E eh 400
              (Some ("Bad request version (" ++ repr E (last words "") ++ ")"))
              None)
        (fun _ => k false) s
  | Some (base, number) =>
      if tuple_ge number (2, 0) then
        bind (send_error E eh 505
                (Some ("Invalid HTTP version (" ++ base ++ ")")) None)
          (fun _ => k false) s
      else k true (set_request_version (last words "") s)
  end.
Proof.
  unfold bind at 1. rewrite parse_version_run.
  destruct (read_version _) as [[base number]|].
  - destruct (tuple_ge number (2, 0)); [|reflexivity].
    unfold bind, ret. destruct (send_error _ _ _ _ _ s) as [[[]|e|] s'];
      reflexivity.
  - unfold bind, ret. destruct (send_error _ _ _ _ _ s) as [[[]|e|] s'];
      reflexivity.
Qed.

Lemma akin_of_twin {A} x1 x2 (r1 r2 : result A * handler) :
  twin x1 x2 r1 r2 ->
  fst r1 = fst r2 /\
  ((wfile (snd r1) = [] /\ wfile (snd r2) = []) \/
   exists lines body,
     wfile (snd r1) = join (lines ++ x1 ++ [CRLF])%list :: body /\
     wfile (snd r2) = join (lines ++ x2 ++ [CRLF])%list :: body).
Proof.
  intros [(e & [R1 W1] & [R2 W2]) | (a & lines & body & [R1 W1] & [R2 W2])].
  - split; [congruence|]. left. split; assumption.
  - split; [congruence|]. right. exists lines, body. split; assumption.
Qed.

Section Akin.
Variable E : environment.
Variables (eh1 eh2 : M handler unit) (x1 x2 : list bytes).
Hypothesis H1 : flushes x1 eh1.
Hypothesis H2 : flushes x2 eh2.
Hypothesis S1 : silent_for_http09 eh1.
Hypothesis S2 : silent_for_http09 eh2.

(** An error response, after which the handler only returns. *)
Lemma refusal_akin code message explain s (k1 k2 : unit -> M handler unit) :
  has_body code = true ->
  wfile s = [] ->
  (forall u s', k1 u s' = (Return tt, s')) ->
  (forall u s', k2 u s' = (Return tt, s')) ->
  akin x1 x2 (request_version s)
    (bind (send_error E eh1 code message explain) k1 s)
    (bind (send_error E eh2 code message explain) k2 s).
Proof.
  intros Hb Hw K1 K2. unfold akin.
  destruct (String.eqb (request_version s) "HTTP/0.9") eqn:Hv.
  - unfold bind.
    rewrite (send_error_http09 E eh1 eh2 S1 S2 s Hv).
    destruct (send_error E eh2 code message explain s) as [[[]|e|] s'];
      rewrite ?K1, ?K2; reflexivity.
  - apply akin_of_twin.
    assert (Ht : twin x1 x2 (send_error E eh1 code message explain s)
                   (send_error E eh2 code message explain s))
      by (apply send_error_twin; assumption).
    unfold bind.
    destruct (send_error E eh1 code message explain s) as [r1 s1],
             (send_error E eh2 code message explain s) as [r2 s2].
    destruct Ht as [(e & [R1 W1] & [R2 W2])
                   | ([] & lines & body & [R1 W1] & [R2 W2])];
      cbn [fst snd] in *; subst r1 r2.
    + left. exists e. repeat split; assumption.
    + right. exists tt, lines, body. rewrite K1, K2. repeat split; assumption.
Qed.

Lemma method_akin s :
  wfile s = [] ->
  akin x1 x2 (request_version s)
    (handle_one_request E eh1 (SimpleHTTPRequestHandler.getattr_do E eh1) s)
    (handle_one_request E eh2 (SimpleHTTPRequestHandler.getattr_do E eh2) s).
Proof.
  intros Hw. unfold akin.
  destruct (String.eqb (request_version s) "HTTP/0.9") eqn:Hv.
  - apply handle_one_request_http09; assumption.
  - apply akin_of_twin.
    apply handle_one_request_twin; assumption.
Qed.

Lemma nothing_akin v (s : handler) :
  wfile s = [] ->
  akin x1 x2 v (@Return unit tt, s) (Return tt, s).
Proof.
  intros Hw. unfold akin. destruct (String.eqb v "HTTP/0.9"); [reflexivity|].
  split; [reflexivity|]. left. split; exact Hw.
Qed.

Lemma headers_akin conn s :
  wfile s = [] -> close_connection s = true ->
  akin x1 x2 (request_version s)
    (bind (parse_headers E eh1 conn)
       (fun ok : bool =>
          if ok
          then handle_one_request E eh1 (SimpleHTTPRequestHandler.getattr_do E eh1)
          else ret tt) s)
    (bind (parse_headers E eh2 conn)
       (fun ok : bool =>
          if ok
          then handle_one_request E eh2 (SimpleHTTPRequestHandler.getattr_do E eh2)
          else ret tt) s).
Proof.
  intros Hw Hc. destruct (header_fields conn) as [hs|err|err] eqn:Hf.
  - unfold bind.
    rewrite !(parse_headers_run E _ conn hs s Hf Hc).
    apply (method_akin (set_headers hs s)). exact Hw.
  - unfold parse_headers. rewrite Hf. rewrite !bind_assoc.
    apply refusal_akin; [reflexivity|exact Hw|..]; intros; reflexivity.
  - unfold parse_headers. rewrite Hf. rewrite !bind_assoc.
    apply refusal_akin; [reflexivity|exact Hw|..]; intros; reflexivity.
Qed.

Lemma handle_akin cwd conn :
  akin x1 x2 (version_in_force conn)
    (BaseHTTPRequestHandler.handle E eh1
       (SimpleHTTPRequestHandler.getattr_do E eh1) conn (fresh_handler cwd))
    (BaseHTTPRequestHandler.handle E eh2
       (SimpleHTTPRequestHandler.getattr_do E eh2) conn (fresh_handler cwd)).
Proof.
  unfold BaseHTTPRequestHandler.handle, version_in_force.
  rewrite !bind_modify.
  destruct (65536 <? len (raw_requestline conn)).
  { run_monad.
    apply akin_of_twin.
    apply send_error_twin; try assumption; reflexivity. }
  destruct (String.eqb (raw_requestline conn) "").
  { apply nothing_akin. reflexivity. }
  unfold parse_request. run_monad.
  destruct (str_split _) as [|c [|p [|v [|x rest]]]].
  - run_words. apply nothing_akin. reflexivity.
  - run_words.
    apply (refusal_akin 400 _ _
             (set_close_connection true
                (set_request_version default_request_version
                   (set_command ""
                      (set_close_connection true (fresh_handler cwd))))));
      try reflexivity; intros; reflexivity.
  - run_words.
    destruct (String.eqb c "GET"); run_words.
    + apply (headers_akin conn
               (set_path (single_slash p)
                  (set_command c
                     (set_close_connection true
                        (set_close_connection true
                           (set_request_version default_request_version
                              (set_command ""
                                 (set_close_connection true
                                    (fresh_handler cwd)))))))));
        reflexivity.
    + apply (refusal_akin 400 _ _
               (set_close_connection true
                  (set_close_connection true
                     (set_request_version default_request_version
                        (set_command ""
                           (set_close_connection true (fresh_handler cwd)))))));
        try reflexivity; intros; reflexivity.
  - run_words. rewrite !bind_parse_version. cbn [last].
    destruct (read_version v) as [[base number]|].
    + destruct (tuple_ge number (2, 0)).
      * apply (refusal_akin 505 _ _
                 (set_close_connection true
                    (set_request_version default_request_version
                       (set_command ""
                          (set_close_connection true (fresh_handler cwd))))));
          try reflexivity; intros; reflexivity.
      * run_words.
        apply (headers_akin conn
                 (set_path (single_slash p)
                    (set_command c
                       (set_request_version v
                          (set_close_connection true
                             (set_request_version default_request_version
                                (set_command ""
                                   (set_close_connection true
                                      (fresh_handler cwd)))))))));
          reflexivity.
    + apply (refusal_akin 400 _ _
               (set_close_connection true
                  (set_request_version default_request_version
                     (set_command ""
                        (set_close_connection true (fresh_handler cwd))))));
        try reflexivity; intros; reflexivity.
  - run_words. rewrite !bind_parse_version.
    destruct (read_version _) as [[base number]|].
    + destruct (tuple_ge number (2, 0)).
      * apply (refusal_akin 505 _ _
                 (set_close_connection true
                    (set_request_version default_request_version
                       (set_command ""
                          (set_close_connection true (fresh_handler cwd))))));
          try reflexivity; intros; reflexivity.
      * run_words.
        apply (refusal_akin 400 _ _
                 (set_request_version (last (c :: p :: v :: x :: rest) "")
                    (set_close_connection true
                       (set_request_version default_request_version
                          (set_command ""
                             (set_close_connection true
                                (fresh_handler cwd)))))));
          try reflexivity; intros; reflexivity.
    + apply (refusal_akin 400 _ _
               (set_close_connection true
                  (set_request_version default_request_version
                     (set_command ""
                        (set_close_connection true (fresh_handler cwd))))));
        try reflexivity; intros; reflexivity.
Qed.
End Akin.

(** ** What a handler leaves alone *)

Lemma steady_ret {A} (a : A) : steady (ret a).
Proof. intros h. split; [reflexivity | intros Hc; exact Hc]. Qed.

Lemma steady_raise {A} e : steady (@raise handler A e).
Proof. intros h. split; [reflexivity | intros Hc; exact Hc]. Qed.

Lemma steady_modify f :
  (forall h, request_version (f h) = request_version h) ->
  (forall h, close_connection h = true -> close_connection (f h) = true) ->
  steady (modify f).
Proof. intros Hv Hc h. split; [apply Hv | apply Hc]. Qed.

Lemma steady_bind {A B} (m : M handler A) (k : A -> M handler B) :
  steady m -> (forall a, steady (k a)) -> steady (bind m k).
Proof.
  intros Hm Hk h. unfold bind. specialize (Hm h).
  destruct (m h) as [[a|e|] s']; cbn [fst snd] in *; try exact Hm.
  destruct Hm as [Hv Hc], (Hk a s') as [Hv' Hc'].
  split; [congruence | auto].
Qed.

Lemma steady_get_bind {A} (k : handler -> M handler A) :
  (forall h, steady (k h)) -> steady (bind get k).
Proof. intros Hk h. rewrite bind_get. apply Hk. Qed.

Lemma steady_when b (m : M handler unit) : steady m -> steady (when b m).
Proof. intros Hm. destruct b; [exact Hm | apply steady_ret]. Qed.

Lemma steady_buffer_append line : steady (modify (buffer_append line)).
Proof. apply steady_modify; intros h; [reflexivity | intros Hc; exact Hc]. Qed.

Lemma steady_wfile_write b : steady (modify (wfile_write b)).
Proof. apply steady_modify; intros h; [reflexivity | intros Hc; exact Hc]. Qed.

(** No header the handler sends asks to keep the connection alive. *)
Lemma steady_send_header keyword value :
  String.eqb (lower keyword) "connection"
  && String.eqb (lower value) "keep-alive" = false ->
  steady (send_header keyword value).
Proof.
  intros Hk. unfold send_header. apply steady_get_bind. intros h.
  apply steady_bind; [apply steady_when, steady_buffer_append|]. intros _.
  destruct (String.eqb (lower keyword) "connection"); [|apply steady_ret].
  cbn [when andb] in *. rewrite Hk.
  destruct (String.eqb (lower value) "close"); [|apply steady_ret].
  apply steady_modify; intros h'; [reflexivity | intros _; reflexivity].
Qed.

Lemma steady_send_response_only E code message :
  steady (send_response_only E code message).
Proof.
  unfold send_response_only. apply steady_get_bind. intros h.
  apply steady_when, steady_buffer_append.
Qed.

Lemma steady_base_end_headers : steady end_headers.
Proof.
  unfold end_headers. apply steady_get_bind. intros h.
  apply steady_when. apply steady_get_bind. intros h'.
  apply steady_bind.
  { destruct (headers_buffer h'); [|apply steady_raise].
    apply steady_modify; intros h''; [reflexivity | intros Hc; exact Hc]. }
  intros _. unfold flush_headers. apply steady_get_bind. intros h''.
  destruct (headers_buffer h''); [|apply steady_ret].
  apply steady_modify; intros h3; [reflexivity | intros Hc; exact Hc].
Qed.

Lemma steady_custom_end_headers : steady CustomHTTPRequestHandler.end_headers.
Proof.
  unfold CustomHTTPRequestHandler.end_headers.
  apply steady_bind; [apply steady_send_header; reflexivity|]. intros _.
  apply steady_bind; [apply steady_send_header; reflexivity|]. intros _.
  apply steady_bind; [apply steady_send_header; reflexivity|]. intros _.
  apply steady_base_end_headers.
Qed.

Lemma steady_write_all bufs : steady (SimpleHTTPRequestHandler.write_all bufs).
Proof.
  intros h. destruct (write_all_run bufs h) as (_ & _ & -> & ->).
  split; [reflexivity | intros Hc; exact Hc].
Qed.

Section Steady.
Variable E : environment.
Variable eh : M handler unit.
Hypothesis steady_eh : steady eh.

Lemma steady_send_response code message :
  steady (send_response E code message).
Proof.
  unfold send_response.
  apply steady_bind; [apply steady_send_response_only|]. intros _.
  apply steady_bind; [apply steady_send_header; reflexivity|]. intros _.
  apply steady_send_header; reflexivity.
Qed.

Ltac steady_step :=
  first [ apply steady_send_response
        | apply steady_send_header; reflexivity
        | apply steady_send_response_only
        | exact steady_eh | apply steady_ret | apply steady_wfile_write
        | apply steady_raise
        | apply steady_bind; [|intros _] ].

Lemma steady_send_error code message explain :
  steady (send_error E eh code message explain).
Proof.
  unfold send_error. destruct (response_messages E code) as [s l].
  apply steady_bind; [apply steady_send_response|]. intros _.
  apply steady_bind; [apply steady_send_header; reflexivity|]. intros _.
  apply steady_bind.
  { destruct (has_body code); [|apply steady_ret].
    apply steady_bind; [apply steady_send_header; reflexivity|]. intros _.
    apply steady_send_header; reflexivity. }
  intros _. apply steady_bind; [exact steady_eh|]. intros _.
  apply steady_get_bind. intros h.
  destruct (has_body code); [|apply steady_ret].
  apply steady_when, steady_wfile_write.
Qed.

Lemma steady_list_directory fullpath :
  steady (SimpleHTTPRequestHandler.list_directory E eh fullpath).
Proof.
  unfold SimpleHTTPRequestHandler.list_directory.
  apply steady_get_bind. intros h.
  destruct (listdir E fullpath).
  - repeat steady_step.
  - apply steady_bind; [apply steady_send_error|]. intros _. apply steady_ret.
Qed.

Lemma steady_send_head_file fullpath :
  steady (SimpleHTTPRequestHandler.send_head_file E eh fullpath).
Proof.
  unfold SimpleHTTPRequestHandler.send_head_file.
  apply steady_get_bind. intros h. cbv zeta.
  destruct (endswith fullpath "/").
  { apply steady_bind; [apply steady_send_error|]. intros _.
    apply steady_ret. }
  destruct (open_rb E fullpath) as [contents fs| |what].
  - match goal with |- context [if ?b then _ else _] => destruct b end;
      repeat steady_step.
  - apply steady_bind; [apply steady_send_error|]. intros _. apply steady_ret.
  - apply steady_raise.
Qed.

Lemma steady_send_head : steady (SimpleHTTPRequestHandler.send_head E eh).
Proof.
  unfold SimpleHTTPRequestHandler.send_head.
  apply steady_get_bind. intros h. cbv zeta.
  destruct (isdir E _); [|apply steady_send_head_file].
  destruct (negb _).
  { repeat steady_step. }
  destruct (isfile E _); [apply steady_send_head_file|].
  destruct (isfile E _); [apply steady_send_head_file|].
  apply steady_list_directory.
Qed.

Lemma steady_handle_one_request :
  steady (BaseHTTPRequestHandler.handle_one_request E eh
            (SimpleHTTPRequestHandler.getattr_do E eh)).
Proof.
  unfold BaseHTTPRequestHandler.handle_one_request,
    SimpleHTTPRequestHandler.getattr_do.
  apply steady_get_bind. intros h.
  destruct (String.eqb _ "do_GET").
  { unfold SimpleHTTPRequestHandler.do_GET.
    apply steady_bind; [apply steady_send_head|].
    intros [contents|]; [apply steady_write_all | apply steady_ret]. }
  destruct (String.eqb _ "do_HEAD").
  { unfold SimpleHTTPRequestHandler.do_HEAD.
    apply steady_bind; [apply steady_send_head|]. intros _.
    apply steady_ret. }
  apply steady_send_error.
Qed.

Lemma steady_parse_headers conn : steady (parse_headers E eh conn).
Proof.
  unfold parse_headers.
  destruct (header_fields conn) as [hs|err|err].
  - apply steady_bind.
    { apply steady_modify; intros h; [reflexivity | intros Hc; exact Hc]. }
    intros _. cbv zeta.
    rewrite !protocol_is_1_0, !andb_false_r. cbn [andb].
    apply steady_bind.
    { destruct (String.eqb _ "close"); [|apply steady_ret].
      apply steady_modify; intros h; [reflexivity | intros _; reflexivity]. }
    intros _. apply steady_get_bind. intros h. apply steady_ret.
  - apply steady_bind; [apply steady_send_error|]. intros _. apply steady_ret.
  - apply steady_bind; [apply steady_send_error|]. intros _. apply steady_ret.
Qed.

(** The method, or nothing, after the value of [parse_request]. *)
Lemma steady_dispatch (ok : bool) :
  steady (if ok
          then BaseHTTPRequestHandler.handle_one_request E eh
                 (SimpleHTTPRequestHandler.getattr_do E eh)
          else ret tt).
Proof.
  destruct ok; [apply steady_handle_one_request | apply steady_ret].
Qed.

Lemma steady_at {A} (m : M handler A) s v :
  steady m -> request_version s = v -> close_connection s = true ->
  request_version (snd (m s)) = v /\ close_connection (snd (m s)) = true.
Proof.
  intros Hm Hv Hc. destruct (Hm s) as [Hv' Hc'].
  split; [congruence | auto].
Qed.

Ltac refused :=
  apply steady_at; [|reflexivity|reflexivity];
  apply steady_bind; [apply steady_send_error|]; intros _;
  first [ apply steady_bind; [apply steady_ret|]; intros ok;
          apply steady_dispatch
        | apply steady_ret ].

(** When the handler is done the connection is marked for closing, so
    [handle] asks for no second request; and the request version is the one
    in force. *)
Lemma handle_leaves cwd conn :
  let s :=
    snd (BaseHTTPRequestHandler.handle E eh
           (SimpleHTTPRequestHandler.getattr_do E eh) conn
           (fresh_handler cwd)) in
  (raw_requestline conn <> "" -> request_version s = version_in_force conn) /\
  close_connection s = true.
Proof.
  cbv zeta.
  unfold BaseHTTPRequestHandler.handle, version_in_force.
  rewrite !bind_modify.
  assert (Hgoal : forall v (m : M handler unit) s,
             request_version (snd (m s)) = v /\
             close_connection (snd (m s)) = true ->
             (raw_requestline conn <> "" -> request_version (snd (m s)) = v) /\
             close_connection (snd (m s)) = true)
    by (intros v m s [Hv Hc]; split; [intros _; exact Hv | exact Hc]).
  destruct (65536 <? len (raw_requestline conn)).
  { run_monad. apply Hgoal.
    apply steady_at; [apply steady_send_error | reflexivity | reflexivity]. }
  destruct (String.eqb (raw_requestline conn) "") eqn:Hraw.
  { apply String.eqb_eq in Hraw. split; [congruence | reflexivity]. }
  unfold parse_request. run_monad.
  destruct (str_split _) as [|c [|p [|v [|x rest]]]].
  - run_words. split; reflexivity.
  - run_words. apply Hgoal. refused.
  - run_words. destruct (String.eqb c "GET"); run_words; apply Hgoal.
    + apply steady_at; [|reflexivity|reflexivity].
      apply steady_bind; [apply steady_parse_headers|]. apply steady_dispatch.
    + refused.
  - run_words. rewrite !bind_parse_version. cbn [last].
    destruct (read_version v) as [[base number]|].
    + destruct (tuple_ge number (2, 0)); apply Hgoal.
      * refused.
      * run_words. apply steady_at; [|reflexivity|reflexivity].
        apply steady_bind; [apply steady_parse_headers|].
        apply steady_dispatch.
    + apply Hgoal. refused.
  - run_words. rewrite !bind_parse_version.
    destruct (read_version _) as [[base number]|].
    + destruct (tuple_ge number (2, 0)); apply Hgoal.
      * refused.
      * run_words. refused.
    + apply Hgoal. refused.
Qed.
End Steady.


(** ** Status lines and bodies *)

Lemma String_eqb_false s t : s <> t -> String.eqb s t = false.
Proof. intros H. apply String.eqb_neq. exact H. Qed.

Lemma length_append s t :
  String.length (s ++ t) = (String.length s + String.length t)%nat.
Proof. induction s as [|c s IH]; cbn; [reflexivity | now rewrite IH]. Qed.

Lemma join_app l m : join (l ++ m) = join l ++ join m.
Proof.
  induction l as [|a l IH]; [reflexivity|].
  change ((a :: l) ++ m)%list with (a :: (l ++ m))%list.
  rewrite !join_cons, IH.
  induction a as [|c a IHa]; cbn; [reflexivity | now rewrite IHa].
Qed.

Lemma cors_block_length lines :
  (128 <= String.length (join (lines ++ cors_lines ++ [CRLF])))%nat.
Proof.
  rewrite join_app, length_append.
  change (String.length (join (cors_lines ++ [CRLF]))) with 128%nat. lia.
Qed.

Lemma buffer_or_new_buffer_append l h :
  buffer_or_new (buffer_append l h) = (buffer_or_new h ++ [l])%list.
Proof. reflexivity. Qed.

Lemma buffer_or_new_connection_directive k v h :
  buffer_or_new (connection_directive k v h) = buffer_or_new h.
Proof.
  unfold buffer_or_new. now rewrite headers_buffer_connection_directive.
Qed.

Lemma buffer_or_new_new_handler cwd r : buffer_or_new (new_handler cwd r) = [].
Proof. reflexivity. Qed.

#[global] Hint Rewrite buffer_or_new_buffer_append
  buffer_or_new_connection_directive buffer_or_new_new_handler : handler.

Ltac status_leaf :=
  unfold ret, modify; eexists; split; [reflexivity|];
  autorewrite with handler; rewrite <- ?app_assoc; cbn [app];
  rewrite join_cons; eexists _, _; reflexivity.

Section Custom.
Variable E : environment.
Variables (cwd : string) (r : request).
Hypothesis H : String.eqb (req_version r) "HTTP/0.9" = false.

Let Heh := custom_end_headers_flushes.

(** An error response of the handler: the header block, then the page
    unless the method is HEAD or the page is empty. *)
Lemma send_error_status code message :
  has_body code = true ->
  exists S,
    send_error E CustomHTTPRequestHandler.end_headers code (Some message) None
      (new_handler cwd r) = (Return tt, S) /\
    status_is code (wfile S).
Proof.
  intros Hb. unfold send_error, send_response, when.
  destruct (response_messages E code) as [shortmsg longmsg].
  rewrite Hb.
  run_handler H Heh Heh.
  autorewrite with handler.
  match goal with |- context [if ?b then _ else _] => destruct b end;
    unfold ret, modify; eexists; (split; [reflexivity|]);
    autorewrite with handler; rewrite <- ?app_assoc; cbn [app];
    rewrite join_cons; eexists _, _, _; reflexivity.
Qed.

Lemma send_head_file_found f contents fs :
  endswith f "/" = false ->
  open_rb E f = Opened contents fs ->
  not_modified E r fs = false ->
  exists S,
    SimpleHTTPRequestHandler.send_head_file E
      CustomHTTPRequestHandler.end_headers f (new_handler cwd r)
    = (Return (Some contents), S) /\
    exists message rest, wfile S = [status_line 200 message ++ rest].
Proof.
  intros Hslash Hopen Hims.
  unfold SimpleHTTPRequestHandler.send_head_file.
  rewrite bind_get. cbv zeta. rewrite Hslash, Hopen.
  cbn [headers new_handler].
  change (header_in "If-Modified-Since" (req_headers r)
          && negb (header_in "If-None-Match" (req_headers r))
          && match header_get "If-Modified-Since" (req_headers r) with
             | Some ims => not_modified_since E ims (st_mtime fs)
             | None => false
             end) with (not_modified E r fs).
  rewrite Hims.
  unfold send_response. run_handler H Heh Heh. status_leaf.
Qed.

Lemma send_head_file_unchanged f contents fs :
  endswith f "/" = false ->
  open_rb E f = Opened contents fs ->
  not_modified E r fs = true ->
  exists S,
    SimpleHTTPRequestHandler.send_head_file E
      CustomHTTPRequestHandler.end_headers f (new_handler cwd r)
    = (Return None, S) /\
    exists message rest, wfile S = [status_line 304 message ++ rest].
Proof.
  intros Hslash Hopen Hims.
  unfold SimpleHTTPRequestHandler.send_head_file.
  rewrite bind_get. cbv zeta. rewrite Hslash, Hopen.
  cbn [headers new_handler].
  change (header_in "If-Modified-Since" (req_headers r)
          && negb (header_in "If-None-Match" (req_headers r))
          && match header_get "If-Modified-Since" (req_headers r) with
             | Some ims => not_modified_since E ims (st_mtime fs)
             | None => false
             end) with (not_modified E r fs).
  rewrite Hims.
  unfold send_response. run_handler H Heh Heh. status_leaf.
Qed.

Lemma send_head_file_missing f :
  endswith f "/" = true \/ open_rb E f = Open_OSError ->
  exists S,
    SimpleHTTPRequestHandler.send_head_file E
      CustomHTTPRequestHandler.end_headers f (new_handler cwd r)
    = (Return None, S) /\
    status_is 404 (wfile S).
Proof.
  intros Hmiss.
  unfold SimpleHTTPRequestHandler.send_head_file.
  rewrite bind_get. cbv zeta.
  destruct (send_error_status 404 "File not found" eq_refl) as (S & HS & Hst).
  exists S.
  destruct (endswith f "/").
  - unfold bind; rewrite HS; split; [reflexivity | exact Hst].
  - destruct Hmiss as [Hmiss | Hmiss]; [discriminate Hmiss|].
    rewrite Hmiss. unfold bind; rewrite HS; split; [reflexivity | exact Hst].
Qed.

Lemma send_head_file_refused f what :
  endswith f "/" = false ->
  open_rb E f = Open_ValueError what ->
  SimpleHTTPRequestHandler.send_head_file E
    CustomHTTPRequestHandler.end_headers f (new_handler cwd r)
  = (Raise (ValueError what), new_handler cwd r).
Proof.
  intros Hslash Hopen.
  unfold SimpleHTTPRequestHandler.send_head_file.
  rewrite bind_get. cbv zeta. rewrite Hslash, Hopen. reflexivity.
Qed.

Lemma send_head_resolved f :
  resolves_to E cwd r = Some f ->
  SimpleHTTPRequestHandler.send_head E CustomHTTPRequestHandler.end_headers
    (new_handler cwd r)
  = SimpleHTTPRequestHandler.send_head_file E
      CustomHTTPRequestHandler.end_headers f (new_handler cwd r).
Proof.
  unfold resolves_to, SimpleHTTPRequestHandler.send_head.
  rewrite bind_get. cbv zeta. cbn [directory path new_handler].
  destruct (isdir E _); [|intros [= <-]; reflexivity].
  destruct (negb _); [discriminate|].
  destruct (isfile E _); [intros [= <-]; reflexivity|].
  destruct (isfile E _); [intros [= <-]; reflexivity|].
  discriminate.
Qed.

(** The response to GET and to HEAD is made by [send_head], to which GET
    adds the pieces of the file. *)
Lemma get_response :
  req_command r = "GET" ->
  custom_response E cwd r =
  match SimpleHTTPRequestHandler.send_head E
          CustomHTTPRequestHandler.end_headers (new_handler cwd r) with
  | (Return (Some contents), h) =>
      (wfile h ++ reads SimpleHTTPRequestHandler.COPY_BUFSIZE contents)%list
  | (_, h) => wfile h
  end.
Proof.
  intros Hc.
  unfold custom_response, response_of,
    CustomHTTPRequestHandler.handle_one_request,
    BaseHTTPRequestHandler.handle_one_request,
    CustomHTTPRequestHandler.getattr_do, SimpleHTTPRequestHandler.getattr_do.
  rewrite bind_get. cbn [command new_handler]. rewrite Hc.
  change (String.eqb ("do_" ++ "GET") "do_GET") with true. cbv iota.
  unfold SimpleHTTPRequestHandler.do_GET, bind.
  destruct (SimpleHTTPRequestHandler.send_head E
              CustomHTTPRequestHandler.end_headers (new_handler cwd r))
    as [[[contents|]|e|] h]; try reflexivity.
  unfold SimpleHTTPRequestHandler.copyfile.
  apply write_all_run.
Qed.

Lemma head_response :
  req_command r = "HEAD" ->
  custom_response E cwd r =
  wfile (snd (SimpleHTTPRequestHandler.send_head E
                CustomHTTPRequestHandler.end_headers (new_handler cwd r))).
Proof.
  intros Hc.
  unfold custom_response, response_of,
    CustomHTTPRequestHandler.handle_one_request,
    BaseHTTPRequestHandler.handle_one_request,
    CustomHTTPRequestHandler.getattr_do, SimpleHTTPRequestHandler.getattr_do.
  rewrite bind_get. cbn [command new_handler]. rewrite Hc.
  change (String.eqb ("do_" ++ "HEAD") "do_GET") with false.
  change (String.eqb ("do_" ++ "HEAD") "do_HEAD") with true. cbv iota.
  unfold SimpleHTTPRequestHandler.do_HEAD, bind.
  destruct (SimpleHTTPRequestHandler.send_head E
              CustomHTTPRequestHandler.end_headers (new_handler cwd r))
    as [[a|e|] h]; reflexivity.
Qed.

Lemma other_method_response :
  req_command r <> "GET" -> req_command r <> "HEAD" ->
  status_is 501 (custom_response E cwd r).
Proof.
  intros Hget Hhead.
  unfold custom_response, response_of,
    CustomHTTPRequestHandler.handle_one_request,
    BaseHTTPRequestHandler.handle_one_request,
    CustomHTTPRequestHandler.getattr_do,
    SimpleHTTPRequestHandler.getattr_do.
  rewrite bind_get. cbn [command new_handler].
  change (String.eqb ("do_" ++ req_command r) "do_GET")
    with (String.eqb (req_command r) "GET").
  change (String.eqb ("do_" ++ req_command r) "do_HEAD")
    with (String.eqb (req_command r) "HEAD").
  rewrite (String_eqb_false _ _ Hget), (String_eqb_false _ _ Hhead).
  destruct (send_error_status 501
              ("Unsupported method (" ++ repr E (req_command r) ++ ")")
              eq_refl)
    as (S & -> & Hst).
  exact Hst.
Qed.
End Custom.

(** ** Facts about the process *)

Lemma handle_request_noblock_run w conn p :
  handle_request_noblock w conn p
  = (Return tt, send (custom_reply (site w) (cwd p) conn) p).
Proof.
  unfold handle_request_noblock, try_except, finish_request, custom_reply,
    reply_of.
  destruct (custom_handler_is_mild (site w) conn (fresh_handler (cwd p)))
    as [[[] Hr] | [what Hr]];
    destruct (CustomHTTPRequestHandler.handle (site w) conn
                (fresh_handler (cwd p))) as [res h];
    cbn [fst snd] in *; subst res; reflexivity.
Qed.

Lemma serve_loop_run w conns p :
  serve_loop w conns p = (loop_result w, deliver w conns p).
Proof.
  revert p. induction conns as [|conn conns IH]; intros p; cbn [serve_loop].
  - unfold loop_result, raise, deliver. cbn. destruct (loop_end w); reflexivity.
  - unfold bind. rewrite handle_request_noblock_run. rewrite IH. reflexivity.
Qed.

Lemma deliver_fields w conns p :
  cwd (deliver w conns p) = cwd p /\ stdout (deliver w conns p) = stdout p /\
  pending (deliver w conns p) = pending p /\
  socket (deliver w conns p) = socket p /\
  browser (deliver w conns p) = browser p /\
  calls (deliver w conns p) = calls p /\
  served (deliver w conns p)
  = (served p ++ map (custom_reply (site w) (cwd p)) conns)%list.
Proof.
  revert p. induction conns as [|conn conns IH]; intros p.
  - cbn. rewrite app_nil_r. repeat split.
  - change (deliver w (conn :: conns) p)
      with (deliver w conns (send (custom_reply (site w) (cwd p) conn) p)).
    destruct (IH (send (custom_reply (site w) (cwd p) conn) p))
      as (-> & -> & -> & -> & -> & -> & ->).
    cbn [cwd stdout pending socket browser calls served send map].
    rewrite <- app_assoc. repeat split.
Qed.

Lemma serving_explicit w :
  serving w =
  {| cwd := working_directory w;
     stdout := shown w (startup_lines w);
     pending := kept w (startup_lines w);
     socket := Listening "" PORT; browser := launched w;
     served := responses_sent w;
     calls := startup_calls w ++ [Call_serve_forever] |}.
Proof.
  unfold serving.
  destruct (deliver_fields w (connections w)
              (log_call Call_serve_forever (started w)))
    as (Hcwd & Hout & Hpen & Hsock & Hbr & Hcalls & Hsv).
  destruct (deliver w (connections w) (log_call Call_serve_forever (started w)))
    as [c o q s b sv cl].
  cbn in *. subst. reflexivity.
Qed.

Ltac run_main :=
  cbv beta iota zeta delta
    [run main with_server chdir TCPServer print getcwd webbrowser_open
     announce serve serve_and_leave up_to_launch up_to_serving
     sys_exit server_close serve_forever at_point bind modify get ret raise
     try_finally try_except initial log_call set_cwd write_stdout
     buffer_line flush_stdout interpreter_exit set_socket
     launch cwd stdout pending socket browser served calls app fst snd
     is_KeyboardInterrupt].

Ltac run_state :=
  cbv beta iota delta
    [log_call write_stdout buffer_line set_socket flush_stdout set_cwd launch
     send shown kept cwd stdout pending socket browser served calls fst snd].

Ltac unfold_main :=
  unfold run, main, with_server, announce, chdir, TCPServer, print, getcwd,
    webbrowser_open, server_close, sys_exit, at_point.

Ltac in_points :=
  unfold startup_points; cbn [In];
  repeat (first [left; reflexivity | right]).

Lemma launched_cases w :
  opens w <> Waits ->
  (opens w = Launched /\ launched w = [url]) \/
  (opens w = NotLaunched /\ launched w = []).
Proof.
  unfold launched. destruct (opens w); intros H;
    [left | right | congruence]; split; reflexivity.
Qed.

(** A startup that goes through leaves the process as [started] has
    it. *)
Lemma startup_run w :
  startup_ok w -> up_to_serving w = (Return tt, started w).
Proof.
  intros [Hok Hopen].
  unfold up_to_serving, announce, chdir, TCPServer, print, getcwd,
    webbrowser_open, at_point.
  rewrite !Hok by in_points.
  unfold started, launched, shown, kept.
  fold (opens w). 
  destruct (opens w); [| |congruence];
    destruct (line_buffered w); reflexivity.
Qed.

Lemma main_started w :
  startup_ok w -> main w (initial w) = serve_and_leave w (started w).
Proof.
  intros [Hok Hopen].
  unfold main, with_server, announce, chdir, TCPServer, print, getcwd,
    webbrowser_open, at_point.
  rewrite !Hok by in_points.
  unfold started, launched, shown, kept.
  fold (opens w).
  destruct (opens w); [| |congruence];
    destruct (line_buffered w); reflexivity.
Qed.

Lemma flush_shown_kept w lines more c s b sv cl :
  flush_stdout
    {| cwd := c; stdout := shown w lines ++ (if line_buffered w then more else []);
       pending := kept w lines ++ (if line_buffered w then [] else more);
       socket := s; browser := b; served := sv; calls := cl |}
  = {| cwd := c; stdout := lines ++ more; pending := [];
       socket := s; browser := b; served := sv; calls := cl |}.
Proof.
  unfold flush_stdout, shown, kept. cbn [cwd stdout pending socket browser served calls].
  destruct (line_buffered w); cbn [app]; rewrite ?app_nil_r; reflexivity.
Qed.

Lemma run_ending w : startup_ok w -> run w = ending w.
Proof.
  intros Hok. unfold run. rewrite (main_started w Hok).
  unfold serve_and_leave, serve, try_finally, try_except, serve_forever.
  rewrite bind_modify, serve_loop_run. fold (serving w).
  unfold loop_result, ending, leave_with.
  destruct (loop_end w) as [[]|]; cbn [is_KeyboardInterrupt];
    unfold print, sys_exit, server_close, at_point, bind, modify, raise;
    destruct (fault w At_server_close);
    try destruct (fault w (At_print 5)); reflexivity.
Qed.

Lemma first_fault_none w :
  first_fault w = None -> forall pt, In pt startup_points -> fault w pt = None.
Proof.
  unfold first_fault, startup_points. cbn [first_fault_among].
  intros Hf pt Hin. cbn [In] in Hin.
  repeat match type of Hf with
         | match fault w ?q with _ => _ end = _ =>
             destruct (fault w q) eqn:?; [discriminate Hf|]
         end.
  repeat destruct Hin as [<-|Hin]; solve [assumption | contradiction].
Qed.

Lemma first_fault_ok w :
  (forall pt, In pt startup_points -> fault w pt = None) ->
  first_fault w = None.
Proof.
  intros Hok. unfold first_fault, startup_points. cbn [first_fault_among].
  rewrite !Hok by in_points. reflexivity.
Qed.

Lemma first_fault_some w pt e :
  first_fault w = Some (pt, e) -> ~ startup_ok w.
Proof.
  intros Hf [Hok _]. rewrite (first_fault_ok w Hok) in Hf. discriminate Hf.
Qed.

(** The call of [webbrowser.open] does not return: [main] stays in it. *)
Lemma run_waiting w :
  first_fault w = None -> opens w = Waits -> run w = (Blocked, started w).
Proof.
  intros Hf Hopen. pose proof (first_fault_none w Hf) as Hok.
  unfold_main. rewrite !Hok by in_points.
  unfold started, launched, shown, kept. fold (opens w). rewrite Hopen.
  destruct (line_buffered w); reflexivity.
Qed.

Ltac abort_with j n closing :=
  unfold aborted; cbn [snd served browser pending stdout calls];
  split; [reflexivity|]; split; [reflexivity|]; split; [reflexivity|];
  split; [intros Hc; first [reflexivity | congruence]|];
  split; [exists j; split; [lia | reflexivity]|];
  exists n, closing; split; [lia|]; split; [auto | reflexivity].

Ltac failed_here :=
  unfold_main;
  repeat match goal with
         | H : fault _ _ = _ |- _ => rewrite !H; clear H
         end;
  destruct (line_buffered _);
  run_main.

Lemma run_aborted w pt e :
  first_fault w = Some (pt, e) -> aborted w (snd (run w)).
Proof.
  unfold first_fault, startup_points. cbn [first_fault_among].
  destruct (fault w At_chdir) eqn:F1.
  { intros _. unfold_main. rewrite !F1. run_main.
    abort_with 0%nat 1%nat (@nil call). }
  destruct (fault w At_TCPServer) eqn:F2.
  { intros _. unfold_main. rewrite !F1, !F2. run_main.
    abort_with 0%nat 2%nat (@nil call). }
  destruct (fault w (At_print 0)) eqn:F3.
  { intros _. unfold_main. rewrite !F1, !F2, !F3.
    destruct (line_buffered w); run_main;
    destruct (fault w At_server_close);
      abort_with 0%nat 3%nat [Call_server_close]. }
  destruct (fault w (At_print 1)) eqn:F4.
  { intros _. unfold_main. rewrite !F1, !F2, !F3, !F4.
    destruct (line_buffered w); run_main;
    destruct (fault w At_server_close);
      abort_with 1%nat 4%nat [Call_server_close]. }
  destruct (fault w At_getcwd) eqn:F5.
  { intros _. unfold_main. rewrite !F1, !F2, !F3, !F4, !F5.
    destruct (line_buffered w); run_main;
    destruct (fault w At_server_close);
      abort_with 2%nat 4%nat [Call_server_close]. }
  destruct (fault w (At_print 2)) eqn:F6.
  { intros _. unfold_main. rewrite !F1, !F2, !F3, !F4, !F5, !F6.
    destruct (line_buffered w); run_main;
    destruct (fault w At_server_close);
      abort_with 2%nat 5%nat [Call_server_close]. }
  destruct (fault w (At_print 3)) eqn:F7.
  { intros _. unfold_main. rewrite !F1, !F2, !F3, !F4, !F5, !F6, !F7.
    destruct (line_buffered w); run_main;
    destruct (fault w At_server_close);
      abort_with 3%nat 6%nat [Call_server_close]. }
  destruct (fault w (At_print 4)) eqn:F8.
  { intros _. unfold_main. rewrite !F1, !F2, !F3, !F4, !F5, !F6, !F7, !F8.
    destruct (line_buffered w); run_main;
    destruct (fault w At_server_close);
      abort_with 4%nat 7%nat [Call_server_close]. }
  destruct (fault w At_webbrowser_open) eqn:F9.
  { intros _. unfold_main.
    rewrite !F1, !F2, !F3, !F4, !F5, !F6, !F7, !F8, !F9.
    destruct (line_buffered w); run_main;
    destruct (fault w At_server_close);
      abort_with 5%nat 8%nat [Call_server_close]. }
  discriminate.
Qed.

(** Every run is of one of three kinds. *)
Lemma run_cases w :
  (startup_ok w /\ run w = ending w) \/
  ((exists pt e, first_fault w = Some (pt, e)) /\ aborted w (snd (run w))) \/
  (first_fault w = None /\ opens w = Waits /\ run w = (Blocked, started w)).
Proof.
  destruct (first_fault w) as [[pt e]|] eqn:Hf.
  - right. left. split; [exists pt, e; reflexivity|].
    exact (run_aborted w pt e Hf).
  - destruct (opens w) eqn:Hopen.
    + left. assert (Hok : startup_ok w).
      { split; [exact (first_fault_none w Hf) | congruence]. }
      split; [exact Hok | exact (run_ending w Hok)].
    + left. assert (Hok : startup_ok w).
      { split; [exact (first_fault_none w Hf) | congruence]. }
      split; [exact Hok | exact (run_ending w Hok)].
    + right. right. split; [reflexivity|]. split; [reflexivity|].
      exact (run_waiting w Hf Hopen).
Qed.

Lemma ending_completed w : completed w (snd (ending w)).
Proof.
  unfold ending, leave_with. rewrite serving_explicit.
  unfold completed.
  destruct (line_buffered w) eqn:Hlb;
  destruct (loop_end w) as [[]|] eqn:Hend;
    try destruct (fault w (At_print 5));
    destruct (fault w At_server_close);
    run_state; rewrite ?Hlb;
    rewrite <- ?app_assoc, ?app_nil_r;
    (split; [reflexivity|]); (split; [reflexivity|]); (split; [reflexivity|]);
    (split; [first [ exists []; rewrite app_nil_r; reflexivity
                   | eexists; reflexivity
                   | eexists; cbn [app]; reflexivity ]|]);
    cbn [app]; eexists; (split; [reflexivity|]).
  all: split.
  all: try (repeat apply Forall_cons; try apply Forall_nil; unfold exit_call;
            auto; fail).
  all: cbn [In]; split; intros Hin.
  all: try assumption.
  all: try (left; reflexivity).
  all: try congruence.
  all: exfalso; repeat destruct Hin as [Hin|Hin];
    solve [discriminate | exact Hin].
Qed.

Lemma run_completed w : startup_ok w -> completed w (snd (run w)).
Proof. intros Hok. rewrite (run_ending w Hok). apply ending_completed. Qed.

(** ** Lists of calls *)

Lemma in_firstn {A} (x : A) n l : In x (firstn n l) -> In x l.
Proof.
  revert l. induction n as [|n IH]; intros [|a l]; cbn; try tauto.
  intros [->|H]; [left; reflexivity | right; apply IH, H].
Qed.

Lemma Forall_firstn' {A} (P : A -> Prop) n l :
  Forall P l -> Forall P (firstn n l).
Proof.
  intros H. apply Forall_forall. intros x Hx.
  rewrite Forall_forall in H. apply H, (in_firstn x n l Hx).
Qed.

Lemma serve_not_in_startup_calls w :
  ~ In Call_serve_forever (startup_calls w).
Proof.
  unfold startup_calls. cbn [In]. intros H.
  repeat destruct H as [H|H]; solve [discriminate H | exact H].
Qed.

Lemma stopped_not_in_startup_lines w : ~ In line_stopped (startup_lines w).
Proof.
  unfold startup_lines. cbn [In]. intros H.
  repeat destruct H as [H|H]; solve [discriminate H | exact H].
Qed.

Lemma stopped_not_in_startup_calls w :
  ~ In (Call_print line_stopped) (startup_calls w).
Proof.
  unfold startup_calls. cbn [In]. intros H.
  repeat destruct H as [H|H];
    solve [discriminate H | exact H | injection H as H; discriminate H].
Qed.

Lemma exit_call_not_serve c : exit_call c -> c <> Call_serve_forever.
Proof. intros [->|[->| ->]]; discriminate. Qed.

Lemma aborted_calls w p x :
  aborted w p -> In x (calls p) ->
  In x (startup_calls w) \/ x = Call_server_close.
Proof.
  intros (_ & _ & _ & _ & _ & n & closing & _ & Hc & ->) Hin.
  apply in_app_or in Hin. destruct Hin as [Hin|Hin].
  - left. apply (in_firstn x n _ Hin).
  - right. destruct Hc as [-> | ->]; cbn in Hin; [destruct Hin|].
    destruct Hin as [<-|[]]. reflexivity.
Qed.

Lemma aborted_never_serves w p :
  aborted w p -> ~ In Call_serve_forever (calls p).
Proof.
  intros Ha Hin. destruct (aborted_calls w p _ Ha Hin) as [H|H].
  - exact (serve_not_in_startup_calls w H).
  - discriminate H.
Qed.

Lemma aborted_never_prints_stopped w p :
  aborted w p -> ~ In (Call_print line_stopped) (calls p).
Proof.
  intros Ha Hin. destruct (aborted_calls w p _ Ha Hin) as [H|H].
  - exact (stopped_not_in_startup_calls w H).
  - discriminate H.
Qed.

Lemma index_of_none f l :
  (forall c, In c l -> f c = false) -> index_of f l = None.
Proof.
  induction l as [|c l IH]; intros H; [reflexivity|].
  cbn [index_of]. rewrite (H c) by (left; reflexivity).
  rewrite IH; [reflexivity|]. intros c' Hc'. apply H. right. exact Hc'.
Qed.

Lemma startup_ok_set_serving conns e w :
  startup_ok (set_serving conns e w) <-> startup_ok w.
Proof. split; intros [H Ho]; (split; [exact H | exact Ho]). Qed.

Lemma first_fault_set_serving conns e w :
  first_fault (set_serving conns e w) = first_fault w.
Proof. reflexivity. Qed.

(** * The claims *)

(** ** Responses *)




(** It fails as well for a request of a version the server does not speak:
    the response to [GET /index.html HTTP/2.0] is the page of error 505
    alone, sent before the version of the request has replaced the
    default. *)
Lemma unsupported_version_reply_carries_no_cors_lines :
  version_in_force (Sample.sends "GET /index.html HTTP/2.0") = "HTTP/0.9" /\
  custom_reply Sample.quiz_site "/srv/quiz"
    (Sample.sends "GET /index.html HTTP/2.0")
  = ["<p>Error code: 505</p>"] /\
  ~ carries_cors
      (custom_reply Sample.quiz_site "/srv/quiz"
         (Sample.sends "GET /index.html HTTP/2.0")).
Proof.
  assert (Hr : custom_reply Sample.quiz_site "/srv/quiz"
                 (Sample.sends "GET /index.html HTTP/2.0")
               = ["<p>Error code: 505</p>"]) by (vm_compute; reflexivity).
  split; [vm_compute; reflexivity|]. split; [exact Hr|].
  intros (lines & body & Heq).
  assert (Hj : "<p>Error code: 505</p>" = join (lines ++ cors_lines ++ [CRLF]))
    by (rewrite Hr in Heq; congruence).
  pose proof (cors_block_length lines) as Hlen.
  rewrite <- Hj in Hlen. cbn in Hlen. lia.
Qed.




(** The other cases C2 does not cover as stated: a request whose path
    [open] refuses is not answered at all, and a directory without an index
    file is answered by a listing, not by 404. *)
Lemma path_with_nul_byte_is_not_answered :
  custom_reply Sample.quiz_site "/srv/quiz" (Sample.sends "GET /%00 HTTP/1.1")
  = [] /\
  fst (CustomHTTPRequestHandler.handle Sample.quiz_site
         (Sample.sends "GET /%00 HTTP/1.1") (fresh_handler "/srv/quiz"))
  = Raise (ValueError "embedded null byte").
Proof. split; vm_compute; reflexivity. Qed.

Lemma unchanged_file_is_not_sent_again :
  status_is 304
    (custom_reply Sample.quiz_site "/srv/quiz"
       (Sample.sends_cached "GET /index.html HTTP/1.1")).
Proof. eexists "Not Modified", _, _. vm_compute. reflexivity. Qed.

Lemma directory_without_index_is_listed :
  resolves_to Sample.quiz_site "/srv/quiz" (Sample.get "/data/") = None /\
  status_is 200
    (custom_reply Sample.quiz_site "/srv/quiz"
       (Sample.sends "GET /data/ HTTP/1.1")).
Proof.
  split; [reflexivity|]. eexists "OK", _, _. vm_compute. reflexivity.
Qed.

(** ** The life of the process *)

(** C3.  When the startup goes through (no call of it raises and
    [webbrowser.open] returns) and [KeyboardInterrupt] is raised in the
    serve loop, the process prints the stop notice after the five startup
    lines, leaves the [with] block, which closes the listening socket, and
    ends with exit status 0; all six lines have reached standard output by
    then, however it is buffered.  No other call raises in the scenario of
    the claim. *)
Theorem interrupt_while_serving_exits_cleanly w :
  (forall pt, fault w pt = None) ->
  opens w <> Waits ->
  loop_end w = Some KeyboardInterrupt ->
  run w =
    (Raise (SystemExit 0),
     {| cwd := working_directory w;
        stdout := startup_lines w ++ [line_stopped];
        pending := [];
        socket := Closed;
        browser := launched w;
        served := responses_sent w;
        calls := startup_calls w ++
                 [Call_serve_forever; Call_print line_stopped;
                  Call_sys_exit 0; Call_server_close] |})
  /\ exit_status (fst (run w)) = Some 0.
Proof.
  intros Hf Hopen Hend.
  assert (Hok : startup_ok w) by (split; [intros pt _; apply Hf | exact Hopen]).
  rewrite (run_ending w Hok). unfold ending, leave_with.
  rewrite Hend, !Hf, serving_explicit.
  split; [|reflexivity]. f_equal.
  destruct (line_buffered w) eqn:Hlb; run_state; rewrite ?Hlb;
    rewrite <- ?app_assoc, ?app_nil_r; reflexivity.
Qed.

Lemma interrupt_while_serving_exits_cleanly_witness :
  (forall pt, fault Sample.quiet_start pt = None) /\
  opens Sample.quiet_start <> Waits /\
  loop_end Sample.quiet_start = Some KeyboardInterrupt /\
  exit_status (fst (run Sample.quiet_start)) = Some 0.
Proof.
  assert (Hf : forall pt, fault Sample.quiet_start pt = None)
    by (intros pt; reflexivity).
  assert (Ho : opens Sample.quiet_start <> Waits)
    by (vm_compute; discriminate).
  split; [exact Hf|]. split; [exact Ho|]. split; [reflexivity|].
  exact (proj2 (interrupt_while_serving_exits_cleanly Sample.quiet_start
                  Hf Ho eq_refl)).
Defined.

(** C4.  When the directory change succeeds and binding port 3000 raises
    [OSError], the error leaves [main] uncaught and the exit status is 1;
    the constructor was called once, for port 3000, and never again; nothing
    was printed. *)
Theorem port_in_use_is_fatal w what :
  fault w At_chdir = None ->
  fault w At_TCPServer = Some (OSError what) ->
  run w =
    (Raise (OSError what),
     {| cwd := working_directory w;
        stdout := [];
        pending := [];
        socket := Closed;
        browser := [];
        served := [];
        calls := [Call_chdir (script_parent w); Call_TCPServer "" PORT] |})
  /\ exit_status (fst (run w)) = Some 1.
Proof.
  intros H1 H2. unfold_main. rewrite !H1, !H2. run_main.
  split; reflexivity.
Qed.

Lemma port_in_use_is_fatal_witness :
  fault Sample.port_in_use At_chdir = None /\
  fault Sample.port_in_use At_TCPServer
  = Some (OSError "[Errno 98] Address already in use") /\
  stdout (snd (run Sample.port_in_use)) = [] /\
  exit_status (fst (run Sample.port_in_use)) = Some 1.
Proof.
  split; [reflexivity|]. split; [reflexivity|].
  destruct (port_in_use_is_fatal Sample.port_in_use
              "[Errno 98] Address already in use" eq_refl eq_refl)
    as [Hrun Hexit].
  split; [rewrite Hrun; reflexivity | exact Hexit].
Defined.

Lemma ending_blocked w : fst (ending w) = Blocked <-> loop_end w = None.
Proof.
  unfold ending, leave_with.
  destruct (loop_end w) as [[]|]; try destruct (fault w (At_print 5));
    destruct (fault w At_server_close); cbn [fst];
    split; intros H; first [reflexivity | discriminate H].
Qed.

(** C5, as the code has it.  Take a run that calls [serve_forever].  When
    it does, lines 26 to 36 have returned and have had their effects, in
    this order: the working directory is the directory of the script; the
    socket is bound to port 3000 of all interfaces and listens; the five
    lines (title, URL, working directory, browser notice, stop instruction)
    have been printed in this order, and are on standard output when it is
    line buffered and in its buffer otherwise; the browser has been launched
    unless there was none to launch; no connection has been served.  The run
    goes on from there with the serve loop: the call of [serve_forever]
    follows these calls, every connection is served, and the process blocks
    in the loop unless an exception ends it. *)
Theorem startup_order w :
  In Call_serve_forever (calls (snd (run w))) ->
  up_to_serving w =
    (Return tt,
     {| cwd := working_directory w;
        stdout :=
          shown w
            [line_title; line_url; line_directory (working_directory w);
             line_browser; line_stop];
        pending :=
          kept w
            [line_title; line_url; line_directory (working_directory w);
             line_browser; line_stop];
        socket := Listening "" PORT;
        browser := launched w;
        served := [];
        calls :=
          [Call_chdir (script_parent w); Call_TCPServer "" PORT;
           Call_print line_title; Call_print line_url;
           Call_print (line_directory (working_directory w));
           Call_print line_browser; Call_print line_stop;
           Call_webbrowser_open url] |}) /\
  run w = interpreter_exit (serve_and_leave w (snd (up_to_serving w))) /\
  (exists rest,
     calls (snd (run w)) =
       ([Call_chdir (script_parent w); Call_TCPServer "" PORT;
         Call_print line_title; Call_print line_url;
         Call_print (line_directory (working_directory w));
         Call_print line_browser; Call_print line_stop;
         Call_webbrowser_open url; Call_serve_forever] ++ rest)%list) /\
  (exists more,
     (stdout (snd (run w)) ++ pending (snd (run w)))%list =
       ([line_title; line_url; line_directory (working_directory w);
         line_browser; line_stop] ++ more)%list) /\
  served (snd (run w)) = responses_sent w /\
  (fst (run w) = Blocked <-> loop_end w = None).
Proof.
  intros Hin.
  destruct (run_cases w) as [[Hok Hrun] | [[_ Ha] | (_ & _ & Hrun)]].
  - pose proof (startup_run w Hok) as Hup.
    split; [exact Hup|]. split.
    { rewrite Hup. unfold run. rewrite (main_started w Hok). reflexivity. }
    destruct (run_completed w Hok)
      as (_ & _ & Hserved & [extra Hout] & tail & Hcalls & _).
    split; [exists tail; exact Hcalls|].
    split; [exists extra; exact Hout|].
    split; [exact Hserved|].
    rewrite Hrun. apply ending_blocked.
  - exfalso. exact (aborted_never_serves w _ Ha Hin).
  - exfalso. rewrite Hrun in Hin. cbn [snd calls started] in Hin.
    exact (serve_not_in_startup_calls w Hin).
Qed.

Lemma startup_order_witness :
  In Call_serve_forever (calls (snd (run Sample.piped_start))) /\
  stdout (snd (up_to_serving Sample.piped_start)) = [] /\
  pending (snd (up_to_serving Sample.piped_start))
  = [line_title; line_url; line_directory "/srv/quiz"; line_browser;
     line_stop] /\
  socket (snd (up_to_serving Sample.piped_start)) = Listening "" PORT /\
  exists rest,
    calls (snd (run Sample.piped_start)) =
      ([Call_chdir "/srv/quiz"; Call_TCPServer "" PORT;
        Call_print line_title; Call_print line_url;
        Call_print (line_directory "/srv/quiz");
        Call_print line_browser; Call_print line_stop;
        Call_webbrowser_open url; Call_serve_forever] ++ rest)%list.
Proof.
  assert (Hin : In Call_serve_forever (calls (snd (run Sample.piped_start))))
    by (vm_compute; tauto).
  split; [exact Hin|].
  destruct (startup_order Sample.piped_start Hin)
    as (Hup & _ & Hcalls & _).
  rewrite Hup. split; [reflexivity|]. split; [reflexivity|].
  split; [reflexivity|]. exact Hcalls.
Defined.

(** C5, as it is stated, fails when standard output is a pipe or a file: the
    run reaches the serve loop, has launched the browser and goes on
    serving, and none of the five lines is on standard output; they are
    written when the interpreter ends. *)
Lemma piped_lines_are_not_written_at_startup :
  In Call_serve_forever
    (calls (snd (run (set_serving [] None Sample.piped_start)))) /\
  fst (run (set_serving [] None Sample.piped_start)) = Blocked /\
  browser (snd (run (set_serving [] None Sample.piped_start))) = [url] /\
  stdout (snd (run (set_serving [] None Sample.piped_start))) = [] /\
  stdout (snd (run Sample.piped_start))
  = [line_title; line_url; line_directory "/srv/quiz"; line_browser;
     line_stop; line_stopped].
Proof.
  split; [vm_compute; tauto|]. repeat split; vm_compute; reflexivity.
Qed.

Lemma launch_in_calls w :
  In (Call_webbrowser_open url) (calls (snd (run w))) ->
  forall pt, In pt [At_chdir; At_TCPServer; At_print 0; At_print 1; At_getcwd;
                    At_print 2; At_print 3; At_print 4] ->
  fault w pt = None.
Proof.
  intros Hin.
  assert (Hno : forall n closing,
             (n <= 7)%nat ->
             closing = [] \/ closing = [Call_server_close] ->
             ~ In (Call_webbrowser_open url)
                 (firstn n (startup_calls w) ++ closing)).
  { intros n closing Hn Hcl Hx. apply in_app_or in Hx.
    destruct Hx as [Hx | Hx].
    - unfold startup_calls in Hx.
      destruct n as [|[|[|[|[|[|[|[|n]]]]]]]]; try lia;
        cbn [firstn In] in Hx;
        repeat destruct Hx as [Hx|Hx]; solve [discriminate Hx | exact Hx].
    - destruct Hcl as [-> | ->]; cbn [In] in Hx;
        repeat destruct Hx as [Hx|Hx]; solve [discriminate Hx | exact Hx]. }
  destruct (fault w At_chdir) eqn:F1.
  { exfalso. revert Hin. unfold_main. rewrite !F1. run_main.
    apply (Hno 1%nat []); [lia | auto]. }
  destruct (fault w At_TCPServer) eqn:F2.
  { exfalso. revert Hin. unfold_main. rewrite !F1, !F2. run_main.
    apply (Hno 2%nat []); [lia | auto]. }
  destruct (fault w (At_print 0)) eqn:F3.
  { exfalso. revert Hin. unfold_main. rewrite !F1, !F2, !F3.
    destruct (line_buffered w); run_main;
      destruct (fault w At_server_close);
      apply (Hno 3%nat [Call_server_close]); first [lia | auto]. }
  destruct (fault w (At_print 1)) eqn:F4.
  { exfalso. revert Hin. unfold_main. rewrite !F1, !F2, !F3, !F4.
    destruct (line_buffered w); run_main;
      destruct (fault w At_server_close);
      apply (Hno 4%nat [Call_server_close]); first [lia | auto]. }
  destruct (fault w At_getcwd) eqn:F5.
  { exfalso. revert Hin. unfold_main. rewrite !F1, !F2, !F3, !F4, !F5.
    destruct (line_buffered w); run_main;
      destruct (fault w At_server_close);
      apply (Hno 4%nat [Call_server_close]); first [lia | auto]. }
  destruct (fault w (At_print 2)) eqn:F6.
  { exfalso. revert Hin. unfold_main. rewrite !F1, !F2, !F3, !F4, !F5, !F6.
    destruct (line_buffered w); run_main;
      destruct (fault w At_server_close);
      apply (Hno 5%nat [Call_server_close]); first [lia | auto]. }
  destruct (fault w (At_print 3)) eqn:F7.
  { exfalso. revert Hin. unfold_main.
    rewrite !F1, !F2, !F3, !F4, !F5, !F6, !F7.
    destruct (line_buffered w); run_main;
      destruct (fault w At_server_close);
      apply (Hno 6%nat [Call_server_close]); first [lia | auto]. }
  destruct (fault w (At_print 4)) eqn:F8.
  { exfalso. revert Hin. unfold_main.
    rewrite !F1, !F2, !F3, !F4, !F5, !F6, !F7, !F8.
    destruct (line_buffered w); run_main;
      destruct (fault w At_server_close);
      apply (Hno 7%nat [Call_server_close]); first [lia | auto]. }
  intros pt Hpt. cbn [In] in Hpt.
  repeat destruct Hpt as [<-|Hpt]; solve [assumption | contradiction].
Qed.

Lemma index_of_launch_and_serve w l i j :
  (l = startup_calls w \/
   exists tail, l = (startup_calls w ++ Call_serve_forever :: tail)%list) ->
  index_of is_launch l = Some i -> index_of is_serve l = Some j ->
  (i < j)%nat.
Proof.
  intros [-> | [tail ->]]; unfold startup_calls;
    cbn [app index_of is_launch is_serve option_map]; intros Hi Hj.
  - discriminate Hj.
  - injection Hi as <-. injection Hj as <-. lia.
Qed.

Lemma aborted_serve_index w p :
  aborted w p -> index_of is_serve (calls p) = None.
Proof.
  intros Ha. apply index_of_none. intros c Hc.
  destruct c; try reflexivity.
  exfalso. exact (aborted_never_serves w p Ha Hc).
Qed.

Lemma browser_set_serving conns e w :
  browser (snd (run (set_serving conns e w))) = browser (snd (run w)).
Proof.
  destruct (run_cases w) as [[Hok Hrun] | [[[pt [x Hf]] Ha] | (Hf & Ho & Hrun)]].
  - assert (Hok' : startup_ok (set_serving conns e w))
      by (apply startup_ok_set_serving, Hok).
    destruct (run_completed w Hok) as (_ & -> & _).
    destruct (run_completed _ Hok') as (_ & -> & _). reflexivity.
  - destruct Ha as (_ & -> & _).
    destruct (run_aborted (set_serving conns e w) pt x Hf) as (_ & -> & _).
    reflexivity.
  - rewrite Hrun.
    rewrite (run_waiting (set_serving conns e w) Hf Ho). reflexivity.
Qed.

Lemma run_blocked w :
  fst (run w) = Blocked ->
  socket (snd (run w)) = Listening "" PORT /\
  cwd (snd (run w)) = working_directory w.
Proof.
  intros Hb.
  destruct (run_cases w) as [[Hok Hrun] | [[[pt [x Hf]] _] | (Hf & Ho & Hrun)]].
  - rewrite Hrun in *. apply ending_blocked in Hb.
    unfold ending. rewrite Hb, serving_explicit. split; reflexivity.
  - exfalso. revert Hb. clear -Hf.
    unfold first_fault, startup_points in Hf. cbn [first_fault_among] in Hf.
    repeat match type of Hf with
           | match fault w ?q with _ => _ end = _ =>
               let F := fresh "F" in
               destruct (fault w q) eqn:F;
               [clear Hf; failed_here;
                try destruct (fault w At_server_close);
                discriminate|]
           end.
    discriminate Hf.
  - rewrite Hrun. split; reflexivity.
Qed.




Lemma fixed_bind_startup_calls w : Forall fixed_bind (startup_calls w).
Proof. unfold startup_calls. repeat constructor. Qed.

Lemma calls_fixed_bind w : Forall fixed_bind (calls (snd (run w))).
Proof.
  destruct (run_cases w) as [[Hok Hrun] | [[_ Ha] | (_ & _ & Hrun)]].
  - destruct (run_completed w Hok) as (_ & _ & _ & _ & tail & -> & Htail & _).
    apply Forall_app. split; [apply fixed_bind_startup_calls|].
    constructor; [exact I|].
    eapply Forall_impl; [|exact Htail].
    intros c [->|[->| ->]]; exact I.
  - destruct Ha as (_ & _ & _ & _ & _ & n & closing & _ & Hcl & ->).
    apply Forall_app. split.
    + apply Forall_firstn', fixed_bind_startup_calls.
    + destruct Hcl as [-> | ->]; repeat constructor.
  - rewrite Hrun. apply fixed_bind_startup_calls.
Qed.

Lemma socket_of_a_run w :
  socket (snd (run w)) = NoSocket \/ socket (snd (run w)) = Closed \/
  socket (snd (run w)) = Listening "" PORT.
Proof.
  destruct (run_cases w) as [[Hok Hrun] | [[[pt [x Hf]] _] | (Hf & Ho & Hrun)]].
  - rewrite Hrun. unfold ending, leave_with. rewrite serving_explicit.
    destruct (line_buffered w);
      destruct (loop_end w) as [[]|]; try destruct (fault w (At_print 5));
      destruct (fault w At_server_close); run_state; auto.
  - clear -Hf.
    unfold first_fault, startup_points in Hf. cbn [first_fault_among] in Hf.
    repeat match type of Hf with
           | match fault w ?q with _ => _ end = _ =>
               let F := fresh "F" in
               destruct (fault w q) eqn:F;
               [clear Hf; failed_here;
                try destruct (fault w At_server_close); auto|]
           end.
    discriminate Hf.
  - rewrite Hrun. right. right. reflexivity.
Qed.

(** C7.  Whatever the command line, the environment and the events of the
    run: the only socket [main] ever asks for is on all interfaces (the
    empty host) and on port 3000, and no socket of the process is ever bound
    elsewhere; while the process runs it listens there and works in the
    directory of the script; it does run, listening there, whenever the
    startup goes through and nothing ends the serve loop.  The whole run is
    the same for any other arguments after the name of the script: [main]
    reads none. *)
Theorem port_is_fixed_and_not_configurable w :
  Forall fixed_bind (calls (snd (run w))) /\
  (forall host port,
     socket (snd (run w)) = Listening host port -> host = "" /\ port = 3000) /\
  (fst (run w) = Blocked ->
   socket (snd (run w)) = Listening "" 3000 /\
   cwd (snd (run w)) = working_directory w) /\
  (startup_ok w -> loop_end w = None ->
   fst (run w) = Blocked /\ served (snd (run w)) = responses_sent w) /\
  (forall args, run (set_arguments args w) = run w).
Proof.
  split; [apply calls_fixed_bind|]. split; [|split; [|split]].
  - intros host port Hs.
    destruct (socket_of_a_run w) as [H | [H | H]]; rewrite H in Hs;
      try discriminate Hs.
    injection Hs as <- <-. split; reflexivity.
  - apply run_blocked.
  - intros Hok Hend. rewrite (run_ending w Hok). unfold ending.
    rewrite Hend, serving_explicit. split; reflexivity.
  - intros args. reflexivity.
Qed.

Lemma port_is_fixed_and_not_configurable_witness :
  startup_ok (set_serving [] None Sample.quiet_start) /\
  loop_end (set_serving [] None Sample.quiet_start) = None /\
  fst (run (set_serving [] None Sample.quiet_start)) = Blocked /\
  socket (snd (run (set_serving [] None Sample.quiet_start)))
  = Listening "" 3000 /\
  run (set_arguments ["--port"; "8000"; "--directory"; "/tmp"]
         Sample.quiet_start)
  = run Sample.quiet_start.
Proof.
  assert (Hok : startup_ok (set_serving [] None Sample.quiet_start)).
  { split; [intros pt _; reflexivity | vm_compute; discriminate]. }
  destruct (port_is_fixed_and_not_configurable
              (set_serving [] None Sample.quiet_start))
    as (_ & _ & Hrun & Hblocked & _).
  destruct (Hblocked Hok eq_refl) as [Hb _].
  split; [exact Hok|]. split; [reflexivity|]. split; [exact Hb|].
  split; [exact (proj1 (Hrun Hb))|].
  exact (proj2 (proj2 (proj2 (proj2
           (port_is_fixed_and_not_configurable Sample.quiet_start))))
           ["--port"; "8000"; "--directory"; "/tmp"]).
Defined.





Ltac interrupted_here :=
  unfold_main;
  repeat match goal with
         | H : fault _ _ = _ |- _ => rewrite !H; clear H
         end;
  destruct (line_buffered _);
  run_main;
  (split; [reflexivity|]); (split; [reflexivity|]);
  (split;
   [cbn [In]; intros H;
    repeat destruct H as [H|H]; solve [discriminate H | exact H]|]);
  (split;
   [cbn [In]; intros H;
    repeat destruct H as [H|H]; solve [discriminate H | exact H]
   |reflexivity]).

(** C10.  The [except KeyboardInterrupt] clause runs, and prints the stop
    notice, in exactly those runs whose startup went through and whose serve
    loop was ended by [KeyboardInterrupt].  When the first call to raise is
    one inside the [with] block before the loop (a print, [os.getcwd] or the
    browser launch) and it raises [KeyboardInterrupt], the exception leaves
    [main] uncaught: the exit status is that of an unhandled
    [KeyboardInterrupt], not 0, and the stop notice is not printed; the
    [with] block still closes the socket. *)
Theorem only_an_interrupt_in_the_loop_is_handled w :
  (In (Call_print line_stopped) (calls (snd (run w))) <->
   startup_ok w /\ loop_end w = Some KeyboardInterrupt) /\
  (forall pt,
     In pt after_bind_points ->
     first_fault w = Some (pt, KeyboardInterrupt) ->
     fault w At_server_close = None ->
     fst (run w) = Raise KeyboardInterrupt /\
     exit_status (fst (run w)) = Some 130 /\
     ~ In line_stopped (stdout (snd (run w))) /\
     ~ In Call_serve_forever (calls (snd (run w))) /\
     socket (snd (run w)) = Closed).
Proof.
  split.
  - destruct (run_cases w)
      as [[Hok Hrun] | [[[pt [x Hf]] Ha] | (Hf & Ho & Hrun)]].
    + destruct (run_completed w Hok)
        as (_ & _ & _ & _ & tail & -> & _ & Hiff). split.
      * intros Hin. split; [exact Hok|]. apply Hiff.
        apply in_app_or in Hin. destruct Hin as [Hin|[Hin|Hin]].
        -- exfalso. exact (stopped_not_in_startup_calls w Hin).
        -- discriminate Hin.
        -- exact Hin.
      * intros [_ Hend]. apply in_or_app. right. right. apply Hiff, Hend.
    + split.
      * intros Hin. exfalso.
        exact (aborted_never_prints_stopped w _ Ha Hin).
      * intros [Hok _]. exfalso. exact (first_fault_some w pt x Hf Hok).
    + split.
      * rewrite Hrun. cbn [snd calls started]. intros Hin. exfalso.
        exact (stopped_not_in_startup_calls w Hin).
      * intros [[_ Hok] _]. exfalso. exact (Hok Ho).
  - intros pt Hpt Hfirst Hclose.
    unfold first_fault, startup_points in Hfirst.
    cbn [first_fault_among] in Hfirst.
    unfold after_bind_points in Hpt. cbn [In] in Hpt.
    destruct (fault w At_chdir) eqn:F1;
      [injection Hfirst as <- _; repeat destruct Hpt as [Hpt|Hpt];
       solve [discriminate Hpt | contradiction]|].
    destruct (fault w At_TCPServer) eqn:F2;
      [injection Hfirst as <- _; repeat destruct Hpt as [Hpt|Hpt];
       solve [discriminate Hpt | contradiction]|].
    clear Hpt.
    destruct (fault w (At_print 0)) eqn:F3;
      [injection Hfirst as _ ->; interrupted_here|].
    destruct (fault w (At_print 1)) eqn:F4;
      [injection Hfirst as _ ->; interrupted_here|].
    destruct (fault w At_getcwd) eqn:F5;
      [injection Hfirst as _ ->; interrupted_here|].
    destruct (fault w (At_print 2)) eqn:F6;
      [injection Hfirst as _ ->; interrupted_here|].
    destruct (fault w (At_print 3)) eqn:F7;
      [injection Hfirst as _ ->; interrupted_here|].
    destruct (fault w (At_print 4)) eqn:F8;
      [injection Hfirst as _ ->; interrupted_here|].
    destruct (fault w At_webbrowser_open) eqn:F9;
      [injection Hfirst as _ ->; interrupted_here|].
    discriminate Hfirst.
Qed.

Lemma only_an_interrupt_in_the_loop_is_handled_witness :
  In (At_print 3) after_bind_points /\
  first_fault (Sample.failing_at (At_print 3) KeyboardInterrupt)
  = Some (At_print 3, KeyboardInterrupt) /\
  fault (Sample.failing_at (At_print 3) KeyboardInterrupt) At_server_close
  = None /\
  fst (run (Sample.failing_at (At_print 3) KeyboardInterrupt))
  = Raise KeyboardInterrupt /\
  exit_status (fst (run (Sample.failing_at (At_print 3) KeyboardInterrupt)))
  = Some 130.
Proof.
  assert (Hin : In (At_print 3) after_bind_points)
    by (unfold after_bind_points; cbn [In]; tauto).
  split; [exact Hin|]. split; [reflexivity|]. split; [reflexivity|].
  destruct (proj2 (only_an_interrupt_in_the_loop_is_handled
                     (Sample.failing_at (At_print 3) KeyboardInterrupt))
              (At_print 3) Hin eq_refl eq_refl)
    as (Hres & Hexit & _).
  split; [exact Hres | exact Hexit].
Defined.

(** * Further properties *)

(** ** The override *)

(** X1.  On a handler for a request of HTTP/1.0 or later, [end_headers]
    returns, sends one write made of the lines buffered so far, the three
    lines of the override and the blank line, and leaves the buffer empty;
    no other attribute changes, the connection stays open or closed as it
    was. *)
Theorem end_headers_flushes_buffer_and_cors h :
  is_http09 h = false ->
  CustomHTTPRequestHandler.end_headers h =
    (Return tt,
     {| command := command h; path := path h;
        request_version := request_version h; headers := headers h;
        directory := directory h; close_connection := close_connection h;
        headers_buffer := Some [];
        wfile := wfile h ++
                 [join (buffer_or_new h ++ cors_lines ++ [CRLF])%list] |}).
Proof. intros H. rewrite custom_end_headers_run by exact H. reflexivity. Qed.

Lemma end_headers_flushes_buffer_and_cors_witness :
  is_http09 Scenario.buffering = false /\
  wfile (snd (CustomHTTPRequestHandler.end_headers Scenario.buffering))
  = [join ([status_line 200 "OK"] ++ cors_lines ++ [CRLF])%list].
Proof.
  split; [reflexivity|].
  rewrite (end_headers_flushes_buffer_and_cors Scenario.buffering eq_refl).
  reflexivity.
Defined.

(** X2.  On a handler that has buffered nothing yet, the inherited
    [end_headers] raises [AttributeError], the attribute [_headers_buffer]
    being missing; the override does not: its first [send_header] creates
    the buffer, and the block it sends is the three lines and the blank
    line. *)
Theorem end_headers_needs_no_earlier_header h :
  is_http09 h = false ->
  headers_buffer h = None ->
  BaseHTTPRequestHandler.end_headers h
  = (Raise (AttributeError "_headers_buffer"), h) /\
  fst (CustomHTTPRequestHandler.end_headers h) = Return tt /\
  wfile (snd (CustomHTTPRequestHandler.end_headers h))
  = (wfile h ++ [join (cors_lines ++ [CRLF])%list])%list.
Proof.
  intros H Hb. split; [|split].
  - unfold end_headers, bind, get, when, raise. rewrite H. cbn [negb].
    rewrite Hb. reflexivity.
  - rewrite custom_end_headers_run by exact H. reflexivity.
  - rewrite custom_end_headers_run by exact H.
    unfold buffer_or_new. rewrite Hb. reflexivity.
Qed.

Lemma end_headers_needs_no_earlier_header_witness :
  is_http09 Scenario.fresh = false /\
  headers_buffer Scenario.fresh = None /\
  BaseHTTPRequestHandler.end_headers Scenario.fresh
  = (Raise (AttributeError "_headers_buffer"), Scenario.fresh) /\
  fst (CustomHTTPRequestHandler.end_headers Scenario.fresh) = Return tt.
Proof.
  split; [reflexivity|]. split; [reflexivity|].
  destruct (end_headers_needs_no_earlier_header Scenario.fresh eq_refl eq_refl)
    as (Hbase & Hret & _).
  split; [exact Hbase | exact Hret].
Defined.

(** X3.  On a handler for a request of HTTP/0.9, [end_headers] returns
    without writing or buffering anything: the handler is unchanged. *)
Theorem end_headers_is_silent_for_http09 h :
  is_http09 h = true ->
  CustomHTTPRequestHandler.end_headers h = (Return tt, h).
Proof. apply custom_end_headers_http09. Qed.

Lemma end_headers_is_silent_for_http09_witness :
  is_http09 Scenario.fresh_http09 = true /\
  CustomHTTPRequestHandler.end_headers Scenario.fresh_http09
  = (Return tt, Scenario.fresh_http09).
Proof.
  split; [reflexivity|].
  exact (end_headers_is_silent_for_http09 Scenario.fresh_http09 eq_refl).
Defined.

(** X4.  Two calls in a row send two blocks: the second holds the three
    lines and the blank line only, nothing buffered before the first call is
    sent again. *)
Theorem end_headers_twice_repeats_only_cors h :
  is_http09 h = false ->
  fst ((CustomHTTPRequestHandler.end_headers ;;
        CustomHTTPRequestHandler.end_headers) h) = Return tt /\
  wfile (snd ((CustomHTTPRequestHandler.end_headers ;;
               CustomHTTPRequestHandler.end_headers) h))
  = (wfile h ++
     [join (buffer_or_new h ++ cors_lines ++ [CRLF])%list;
      join (cors_lines ++ [CRLF])%list])%list.
Proof.
  intros H. unfold bind.
  rewrite (custom_end_headers_run h H).
  rewrite custom_end_headers_run by exact H.
  cbn [fst snd]. rewrite !wfile_flushed, <- app_assoc.
  split; reflexivity.
Qed.

Lemma end_headers_twice_repeats_only_cors_witness :
  is_http09 Scenario.buffering = false /\
  wfile (snd ((CustomHTTPRequestHandler.end_headers ;;
               CustomHTTPRequestHandler.end_headers) Scenario.buffering))
  = [join ([status_line 200 "OK"] ++ cors_lines ++ [CRLF])%list;
     join (cors_lines ++ [CRLF])%list].
Proof.
  split; [reflexivity|].
  rewrite (proj2 (end_headers_twice_repeats_only_cors Scenario.buffering
                    eq_refl)).
  reflexivity.
Defined.
(** ** The handler class *)

Lemma accepted_version conn r :
  accepts conn r -> req_version r <> "HTTP/0.9" ->
  version_in_force conn = req_version r.
Proof.
  intros (Hlen & _ & Hwords) Hv. unfold version_in_force.
  replace (65536 <? len (raw_requestline conn)) with false
    by (symmetry; apply Z.ltb_ge; exact Hlen).
  cbv zeta.
  destruct (str_split _) as [|c [|p [|v [|x rest]]]]; try contradiction.
  - destruct Hwords as (_ & _ & _ & Hv'). congruence.
  - destruct Hwords as ((base & number & Hread & Hge) & _ & _ & Hv').
    cbn [List.length Nat.leb last]. rewrite Hread, Hge. congruence.
Qed.



Lemma head_of_bind_ret {A B} (m1 m2 : M handler A) (b : B) h1 h2 :
  head_of (m1 h1) (m2 h2) ->
  head_of (bind m1 (fun _ => ret b) h1) (bind m2 (fun _ => ret b) h2).
Proof.
  intros [(e & [R1 W1] & [R2 W2]) | (a & block & rest & [R1 W1] & [R2 W2])];
    unfold bind, ret;
    destruct (m1 h1) as [r1 s1], (m2 h2) as [r2 s2]; cbn [fst snd] in *;
    subst r1 r2; cbn [fst snd].
  - left. exists e. repeat split; assumption.
  - right. exists b, block, rest. repeat split; assumption.
Qed.

Ltac head_leaf :=
  right; unfold ret, modify; cbn [fst snd];
  eexists _, _, _; split; (split; [reflexivity|]);
  autorewrite with handler; reflexivity.

Section HeadAndGet.
Variable E : environment.
Variables (cwd : string) (r : request).
Hypothesis H : String.eqb (req_version r) "HTTP/0.9" = false.

Let Heh := custom_end_headers_flushes.

Ltac same_request :=
  cbn [command path headers directory new_handler with_command req_command
       req_path req_headers].

Lemma send_error_head_of code message :
  has_body code = true ->
  head_of
    (send_error E CustomHTTPRequestHandler.end_headers code (Some message)
       None (new_handler cwd (with_command "HEAD" r)))
    (send_error E CustomHTTPRequestHandler.end_headers code (Some message)
       None (new_handler cwd (with_command "GET" r))).
Proof.
  intros Hb. unfold send_error, send_response, when.
  destruct (response_messages E code) as [shortmsg longmsg].
  rewrite Hb.
  run_handler H Heh Heh.
  autorewrite with handler. same_request.
  change (String.eqb "HEAD" "HEAD") with true.
  change (String.eqb "GET" "HEAD") with false.
  cbn [negb andb].
  match goal with |- context [if ?b then _ else _] => destruct b end;
    head_leaf.
Qed.

Lemma list_directory_head_of fullpath :
  head_of
    (SimpleHTTPRequestHandler.list_directory E
       CustomHTTPRequestHandler.end_headers fullpath
       (new_handler cwd (with_command "HEAD" r)))
    (SimpleHTTPRequestHandler.list_directory E
       CustomHTTPRequestHandler.end_headers fullpath
       (new_handler cwd (with_command "GET" r))).
Proof.
  unfold SimpleHTTPRequestHandler.list_directory.
  rewrite !bind_get. same_request.
  destruct (listdir E fullpath) as [entries|].
  - unfold send_response. run_handler H Heh Heh. head_leaf.
  - apply head_of_bind_ret, send_error_head_of. reflexivity.
Qed.

Lemma send_head_file_head_of fullpath :
  head_of
    (SimpleHTTPRequestHandler.send_head_file E
       CustomHTTPRequestHandler.end_headers fullpath
       (new_handler cwd (with_command "HEAD" r)))
    (SimpleHTTPRequestHandler.send_head_file E
       CustomHTTPRequestHandler.end_headers fullpath
       (new_handler cwd (with_command "GET" r))).
Proof.
  unfold SimpleHTTPRequestHandler.send_head_file.
  rewrite !bind_get. cbv zeta. same_request.
  destruct (endswith fullpath "/").
  { apply head_of_bind_ret, send_error_head_of. reflexivity. }
  destruct (open_rb E fullpath) as [contents fs| |what].
  - match goal with |- context [if ?b then _ else _] => destruct b end;
      unfold send_response; run_handler H Heh Heh; head_leaf.
  - apply head_of_bind_ret, send_error_head_of. reflexivity.
  - left. exists (ValueError what). repeat split.
Qed.

Lemma send_head_head_of :
  head_of
    (SimpleHTTPRequestHandler.send_head E CustomHTTPRequestHandler.end_headers
       (new_handler cwd (with_command "HEAD" r)))
    (SimpleHTTPRequestHandler.send_head E CustomHTTPRequestHandler.end_headers
       (new_handler cwd (with_command "GET" r))).
Proof.
  unfold SimpleHTTPRequestHandler.send_head.
  rewrite !bind_get. cbv zeta. same_request.
  destruct (isdir E _); [|apply send_head_file_head_of].
  destruct (negb _).
  { unfold send_response. run_handler H Heh Heh. head_leaf. }
  destruct (isfile E _); [apply send_head_file_head_of|].
  destruct (isfile E _); [apply send_head_file_head_of|].
  apply list_directory_head_of.
Qed.
End HeadAndGet.

(** X6.  HEAD is GET without the body: for a request of HTTP/1.0 or later,
    whatever its path, the response to HEAD is the first write of the
    response to the same request sent as GET, that is its header block, and
    nothing else. *)
Theorem head_is_get_without_body E cwd r :
  req_version r <> "HTTP/0.9" ->
  custom_response E cwd (with_command "HEAD" r)
  = firstn 1 (custom_response E cwd (with_command "GET" r)).
Proof.
  intros H. apply String_eqb_false in H.
  rewrite (head_response E cwd (with_command "HEAD" r) eq_refl).
  rewrite (get_response E cwd (with_command "GET" r) eq_refl).
  destruct (send_head_head_of E cwd r H)
    as [(e & [R1 W1] & [R2 W2]) | (a & block & rest & [R1 W1] & [R2 W2])];
    destruct (SimpleHTTPRequestHandler.send_head E
                CustomHTTPRequestHandler.end_headers
                (new_handler cwd (with_command "HEAD" r))) as [r1 s1];
    destruct (SimpleHTTPRequestHandler.send_head E
                CustomHTTPRequestHandler.end_headers
                (new_handler cwd (with_command "GET" r))) as [r2 s2];
    cbn [fst snd] in *; subst r1 r2.
  - rewrite W1, W2. reflexivity.
  - destruct a as [contents|]; rewrite W1, W2; reflexivity.
Qed.

Lemma head_is_get_without_body_witness :
  req_version (Sample.get "/index.html") <> "HTTP/0.9" /\
  custom_response Sample.quiz_site "/srv/quiz"
    (with_command "HEAD" (Sample.get "/index.html"))
  = firstn 1
      (custom_response Sample.quiz_site "/srv/quiz"
         (with_command "GET" (Sample.get "/index.html"))).
Proof.
  split; [discriminate|].
  apply (head_is_get_without_body Sample.quiz_site "/srv/quiz"
           (Sample.get "/index.html")).
  discriminate.
Defined.

(** X7.  For a request of HTTP/0.9 the override changes nothing: whatever
    the method and the path, the response is, write for write, the response
    of the parent class. *)
Theorem http09_response_is_the_inherited_one E cwd r :
  req_version r = "HTTP/0.9" ->
  custom_response E cwd r = inherited_response E cwd r.
Proof.
  intros H. unfold custom_response, inherited_response, response_of,
    CustomHTTPRequestHandler.handle_one_request,
    SimpleHTTPRequestHandler.handle_one_request,
    CustomHTTPRequestHandler.getattr_do.
  rewrite (handle_one_request_http09 E _ _ custom_end_headers_silent
             base_end_headers_silent (new_handler cwd r));
    [reflexivity|].
  rewrite is_http09_new_handler, H. reflexivity.
Qed.

Lemma http09_response_is_the_inherited_one_witness :
  req_version (Sample.http09_get "/nope") = "HTTP/0.9" /\
  custom_response Sample.quiz_site "/srv/quiz" (Sample.http09_get "/nope")
  = inherited_response Sample.quiz_site "/srv/quiz"
      (Sample.http09_get "/nope").
Proof.
  split; [reflexivity|].
  exact (http09_response_is_the_inherited_one Sample.quiz_site "/srv/quiz"
           (Sample.http09_get "/nope") eq_refl).
Defined.



(** ** The process *)

(** What a failing startup comes to, for every point and every
    exception. *)
Lemma run_first_fault w pt e :
  first_fault w = Some (pt, e) ->
  fault w At_server_close = None ->
  fst (run w) = Raise e /\
  socket (snd (run w))
  = match pt with At_chdir => NoSocket | _ => Closed end /\
  (pt = At_chdir <-> fault w At_chdir <> None).
Proof.
  intros Hfirst Hclose.
  unfold first_fault, startup_points in Hfirst.
  cbn [first_fault_among] in Hfirst.
  destruct (fault w At_chdir) eqn:F1;
    [injection Hfirst as <- ->;
     (split; [|split; [|split; [discriminate | reflexivity]]]);
     failed_here; reflexivity|].
  destruct (fault w At_TCPServer) eqn:F2;
    [injection Hfirst as <- ->;
     (split; [|split; [|split; [discriminate | congruence]]]);
     failed_here; reflexivity|].
  destruct (fault w (At_print 0)) eqn:F3;
    [injection Hfirst as <- ->;
     (split; [|split; [|split; [discriminate | congruence]]]);
     failed_here; reflexivity|].
  destruct (fault w (At_print 1)) eqn:F4;
    [injection Hfirst as <- ->;
     (split; [|split; [|split; [discriminate | congruence]]]);
     failed_here; reflexivity|].
  destruct (fault w At_getcwd) eqn:F5;
    [injection Hfirst as <- ->;
     (split; [|split; [|split; [discriminate | congruence]]]);
     failed_here; reflexivity|].
  destruct (fault w (At_print 2)) eqn:F6;
    [injection Hfirst as <- ->;
     (split; [|split; [|split; [discriminate | congruence]]]);
     failed_here; reflexivity|].
  destruct (fault w (At_print 3)) eqn:F7;
    [injection Hfirst as <- ->;
     (split; [|split; [|split; [discriminate | congruence]]]);
     failed_here; reflexivity|].
  destruct (fault w (At_print 4)) eqn:F8;
    [injection Hfirst as <- ->;
     (split; [|split; [|split; [discriminate | congruence]]]);
     failed_here; reflexivity|].
  destruct (fault w At_webbrowser_open) eqn:F9;
    [injection Hfirst as <- ->;
     (split; [|split; [|split; [discriminate | congruence]]]);
     failed_here; reflexivity|].
  discriminate Hfirst.
Qed.

(** X9.  Whatever call of the startup raises first (the directory change,
    the bind, a print, [os.getcwd] or the browser launch) and whatever it
    raises, the exception leaves [main] uncaught and unchanged, the serve
    loop is never entered and no connection is served; the socket is closed
    when it had been created, that is unless the directory change
    failed. *)
Theorem startup_failure_is_fatal w pt e :
  first_fault w = Some (pt, e) ->
  fault w At_server_close = None ->
  fst (run w) = Raise e /\
  socket (snd (run w))
  = match pt with At_chdir => NoSocket | _ => Closed end /\
  served (snd (run w)) = [] /\
  ~ In Call_serve_forever (calls (snd (run w))).
Proof.
  intros Hfirst Hclose.
  destruct (run_first_fault w pt e Hfirst Hclose) as (Hres & Hsock & _).
  split; [exact Hres|]. split; [exact Hsock|].
  pose proof (run_aborted w pt e Hfirst) as Ha.
  split; [apply Ha | exact (aborted_never_serves w _ Ha)].
Qed.

Lemma startup_failure_is_fatal_witness :
  first_fault (Sample.failing_at At_getcwd (OSError "[Errno 2] No such file"))
  = Some (At_getcwd, OSError "[Errno 2] No such file") /\
  fst (run (Sample.failing_at At_getcwd (OSError "[Errno 2] No such file")))
  = Raise (OSError "[Errno 2] No such file") /\
  socket (snd (run (Sample.failing_at At_getcwd
                      (OSError "[Errno 2] No such file"))))
  = Closed.
Proof.
  split; [reflexivity|].
  destruct (startup_failure_is_fatal
              (Sample.failing_at At_getcwd (OSError "[Errno 2] No such file"))
              At_getcwd (OSError "[Errno 2] No such file") eq_refl eq_refl)
    as (Hres & Hsock & _).
  split; [exact Hres | exact Hsock].
Defined.

(** X10.  The [with] block releases the socket on every way out: in every
    run that ends, by whatever exception and wherever it is raised, the
    socket is closed at the end, provided [server_close] itself does not
    raise; it was never created when the directory change failed. *)
Theorem socket_is_released_on_every_exit w :
  fault w At_server_close = None ->
  fst (run w) <> Blocked ->
  socket (snd (run w))
  = match fault w At_chdir with Some _ => NoSocket | None => Closed end.
Proof.
  intros Hclose Hend.
  destruct (run_cases w)
    as [[Hok Hrun] | [[[pt [e Hfirst]] _] | (_ & _ & Hrun)]].
  - rewrite (proj1 Hok At_chdir) by in_points.
    rewrite Hrun in *. unfold ending, leave_with in *.
    rewrite Hclose in *.
    destruct (loop_end w) as [[]|]; try destruct (fault w (At_print 5));
      first [reflexivity | exfalso; apply Hend; reflexivity].
  - destruct (run_first_fault w pt e Hfirst Hclose) as (_ & -> & Hiff).
    destruct (fault w At_chdir) eqn:F1.
    + assert (pt = At_chdir) as -> by (apply Hiff; discriminate).
      reflexivity.
    + destruct pt; try reflexivity.
      exfalso. apply (proj1 Hiff eq_refl). reflexivity.
  - exfalso. apply Hend. rewrite Hrun. reflexivity.
Qed.

Lemma socket_is_released_on_every_exit_witness :
  fault Scenario.notice_fails At_server_close = None /\
  fst (run Scenario.notice_fails) <> Blocked /\
  socket (snd (run Scenario.notice_fails)) = Closed.
Proof.
  assert (Hend : fst (run Scenario.notice_fails) <> Blocked)
    by (vm_compute; discriminate).
  split; [reflexivity|]. split; [exact Hend|].
  exact (socket_is_released_on_every_exit Scenario.notice_fails eq_refl Hend).
Defined.

Lemma aborted_run_ends w pt e :
  first_fault w = Some (pt, e) -> fst (run w) <> Blocked.
Proof.
  intros Hf. unfold first_fault, startup_points in Hf.
  cbn [first_fault_among] in Hf.
  repeat match type of Hf with
         | match fault w ?q with _ => _ end = _ =>
             let F := fresh "F" in
             destruct (fault w q) eqn:F;
             [clear Hf; failed_here;
              try destruct (fault w At_server_close);
              discriminate|]
         end.
  discriminate Hf.
Qed.

(** X11.  The process is still running at the end of the observation in two
    cases and no other.  Either the startup went through and nothing has
    ended the serve loop: the process then listens on port 3000 of all
    interfaces, has served every connection and has launched the browser if
    there was one to launch.  Or no call of the startup raised and
    [webbrowser.open] has not returned: the process then listens as well,
    but has not entered the serve loop and has served nothing.  In both
    cases the five startup lines have been printed and nothing else; they
    are on standard output when it is line buffered, and still in its
    buffer when it is not. *)
Theorem process_runs_on_in_two_cases w :
  (fst (run w) = Blocked <->
   (startup_ok w /\ loop_end w = None) \/
   (first_fault w = None /\ opens w = Waits)) /\
  (startup_ok w -> loop_end w = None ->
   run w =
     (Blocked,
      {| cwd := working_directory w;
         stdout := shown w (startup_lines w);
         pending := kept w (startup_lines w);
         socket := Listening "" PORT;
         browser := launched w;
         served := responses_sent w;
         calls := startup_calls w ++ [Call_serve_forever] |})) /\
  (first_fault w = None -> opens w = Waits ->
   run w =
     (Blocked,
      {| cwd := working_directory w;
         stdout := shown w (startup_lines w);
         pending := kept w (startup_lines w);
         socket := Listening "" PORT;
         browser := [url];
         served := [];
         calls := startup_calls w |})).
Proof.
  split; [|split].
  - destruct (run_cases w)
      as [[Hok Hrun] | [[[pt [e Hfirst]] _] | (Hf & Ho & Hrun)]].
    + rewrite Hrun. split.
      * intros Hb. left. split; [exact Hok | apply ending_blocked, Hb].
      * intros [[_ Hend] | [_ Ho]]; [apply ending_blocked, Hend|].
        exfalso. exact (proj2 Hok Ho).
    + split.
      * intros Hb. exfalso. exact (aborted_run_ends w pt e Hfirst Hb).
      * intros [[Hok _] | [Hf _]].
        -- exfalso. exact (first_fault_some w pt e Hfirst Hok).
        -- congruence.
    + rewrite Hrun. split; [intros _; right; split; assumption | reflexivity].
  - intros Hok Hend. rewrite (run_ending w Hok). unfold ending.
    rewrite Hend, serving_explicit. reflexivity.
  - intros Hf Ho. rewrite (run_waiting w Hf Ho).
    unfold started, launched. rewrite Ho. reflexivity.
Qed.

Lemma process_runs_on_in_two_cases_witness :
  startup_ok (set_serving [] None Sample.piped_start) /\
  loop_end (set_serving [] None Sample.piped_start) = None /\
  fst (run (set_serving [] None Sample.piped_start)) = Blocked /\
  stdout (snd (run (set_serving [] None Sample.piped_start))) = [] /\
  first_fault Scenario.console_browser = None /\
  opens Scenario.console_browser = Waits /\
  served (snd (run Scenario.console_browser)) = [].
Proof.
  assert (Hok : startup_ok (set_serving [] None Sample.piped_start)).
  { split; [intros pt _; reflexivity | vm_compute; discriminate]. }
  assert (Ho : opens Scenario.console_browser = Waits)
    by (vm_compute; reflexivity).
  destruct (process_runs_on_in_two_cases (set_serving [] None Sample.piped_start))
    as (_ & Hserving & _).
  destruct (process_runs_on_in_two_cases Scenario.console_browser)
    as (_ & _ & Hwaiting).
  split; [exact Hok|]. split; [reflexivity|].
  rewrite (Hserving Hok eq_refl). split; [reflexivity|].
  split; [reflexivity|]. split; [reflexivity|]. split; [exact Ho|].
  rewrite (Hwaiting eq_refl Ho). reflexivity.
Defined.

(** X12.  The [except] clause catches [KeyboardInterrupt] and nothing else:
    any other exception that ends the serve loop leaves [main] uncaught and
    unchanged; the stop notice is not printed and [sys.exit] is not called;
    the [with] block closes the socket. *)
Theorem other_exception_in_the_loop_is_not_caught w e :
  startup_ok w ->
  loop_end w = Some e ->
  e <> KeyboardInterrupt ->
  fault w At_server_close = None ->
  run w =
    (Raise e,
     {| cwd := working_directory w;
        stdout := startup_lines w;
        pending := [];
        socket := Closed;
        browser := launched w;
        served := responses_sent w;
        calls := startup_calls w ++ [Call_serve_forever; Call_server_close] |}).
Proof.
  intros Hok Hend Hne Hclose. rewrite (run_ending w Hok).
  unfold ending, leave_with. rewrite Hend, Hclose, serving_explicit.
  destruct e; try congruence;
    destruct (line_buffered w) eqn:Hlb; run_state; rewrite ?Hlb;
    rewrite <- ?app_assoc, ?app_nil_r; reflexivity.
Qed.

Lemma other_exception_in_the_loop_is_not_caught_witness :
  startup_ok (Scenario.serving_until (Some (OSError "select"))) /\
  fst (run (Scenario.serving_until (Some (OSError "select"))))
  = Raise (OSError "select") /\
  exit_status (fst (run (Scenario.serving_until (Some (OSError "select")))))
  = Some 1.
Proof.
  assert (Hok : startup_ok (Scenario.serving_until (Some (OSError "select")))).
  { split; [intros pt _; reflexivity | vm_compute; discriminate]. }
  split; [exact Hok|].
  assert (Hne : OSError "select" <> KeyboardInterrupt) by discriminate.
  rewrite (other_exception_in_the_loop_is_not_caught
             (Scenario.serving_until (Some (OSError "select")))
             (OSError "select") Hok eq_refl Hne eq_refl).
  split; reflexivity.
Defined.

(** X13.  When the interrupt is caught but printing the stop notice raises,
    [sys.exit(0)] is not reached: the exception of the print leaves [main],
    the notice is not on standard output, and the socket is closed all the
    same. *)
Theorem failing_stop_notice_prevents_clean_exit w e :
  startup_ok w ->
  loop_end w = Some KeyboardInterrupt ->
  fault w (At_print 5) = Some e ->
  fault w At_server_close = None ->
  run w =
    (Raise e,
     {| cwd := working_directory w;
        stdout := startup_lines w;
        pending := [];
        socket := Closed;
        browser := launched w;
        served := responses_sent w;
        calls := startup_calls w ++
                 [Call_serve_forever; Call_print line_stopped;
                  Call_server_close] |}).
Proof.
  intros Hok Hend Hprint Hclose. rewrite (run_ending w Hok).
  unfold ending, leave_with. rewrite Hend, Hprint, Hclose, serving_explicit.
  destruct (line_buffered w) eqn:Hlb; run_state; rewrite ?Hlb;
    rewrite <- ?app_assoc, ?app_nil_r; reflexivity.
Qed.

Lemma failing_stop_notice_prevents_clean_exit_witness :
  startup_ok Scenario.notice_fails /\
  loop_end Scenario.notice_fails = Some KeyboardInterrupt /\
  fst (run Scenario.notice_fails) = Raise (OSError "[Errno 32] Broken pipe") /\
  exit_status (fst (run Scenario.notice_fails)) = Some 1.
Proof.
  assert (Hok : startup_ok Scenario.notice_fails).
  { split; [|vm_compute; discriminate].
    intros pt Hin. unfold startup_points in Hin. cbn [In] in Hin.
    repeat destruct Hin as [<-|Hin]; solve [reflexivity | contradiction]. }
  split; [exact Hok|]. split; [reflexivity|].
  rewrite (failing_stop_notice_prevents_clean_exit Scenario.notice_fails
             (OSError "[Errno 32] Broken pipe") Hok eq_refl eq_refl eq_refl).
  split; reflexivity.
Defined.

Lemma run_aborted_set_serving w conns e pt x :
  first_fault w = Some (pt, x) -> run (set_serving conns e w) = run w.
Proof.
  intros Hfirst. unfold first_fault, startup_points in Hfirst.
  cbn [first_fault_among] in Hfirst.
  repeat match type of Hfirst with
         | match fault w ?q with _ => _ end = _ =>
             let F := fresh "F" in
             destruct (fault w q) eqn:F;
             [clear Hfirst; unfold_main;
              cbn [fault set_serving line_buffered];
              repeat match goal with
                     | H : fault _ _ = _ |- _ => rewrite !H; clear H
                     end;
              destruct (line_buffered w);
              run_main; reflexivity|]
         end.
  discriminate Hfirst.
Qed.

(** X14.  No connection ends the server or changes how it ends: whatever
    connections arrive, the result of the run is the same; and when the
    startup went through, the client of each of them has received, in the
    order of arrival, what a handler working in the directory of the script
    writes for it, which is nothing when the handler raises. *)
Theorem connections_do_not_change_the_outcome w conns :
  fst (run (set_serving conns (loop_end w) w)) = fst (run w) /\
  (startup_ok w ->
   served (snd (run (set_serving conns (loop_end w) w)))
   = map (custom_reply (site w) (working_directory w)) conns).
Proof.
  destruct (run_cases w)
    as [[Hok Hrun] | [[[pt [e Hfirst]] _] | (Hf & Ho & Hrun)]].
  - assert (Hok' : startup_ok (set_serving conns (loop_end w) w))
      by (apply startup_ok_set_serving, Hok).
    split.
    + rewrite (run_ending _ Hok'), Hrun.
      unfold ending, leave_with. cbn [loop_end fault set_serving].
      destruct (loop_end w) as [[]|]; try destruct (fault w (At_print 5));
        destruct (fault w At_server_close); reflexivity.
    + intros _.
      destruct (run_completed _ Hok') as (_ & _ & Hserved & _).
      exact Hserved.
  - rewrite (run_aborted_set_serving w conns (loop_end w) pt e Hfirst).
    split; [reflexivity|].
    intros Hok; exfalso; exact (first_fault_some w pt e Hfirst Hok).
  - rewrite Hrun, (run_waiting (set_serving conns (loop_end w) w) Hf Ho).
    split; [reflexivity|].
    intros [_ Hok]; exfalso; exact (Hok Ho).
Qed.

Lemma connections_do_not_change_the_outcome_witness :
  startup_ok Sample.quiet_start /\
  served (snd (run (set_serving
                      [Sample.sends "GET /%00 HTTP/1.1";
                       Sample.sends "GET / HTTP/1.1"]
                      (loop_end Sample.quiet_start) Sample.quiet_start)))
  = map (custom_reply (site Sample.quiet_start)
           (working_directory Sample.quiet_start))
      [Sample.sends "GET /%00 HTTP/1.1"; Sample.sends "GET / HTTP/1.1"] /\
  custom_reply (site Sample.quiet_start)
    (working_directory Sample.quiet_start) (Sample.sends "GET /%00 HTTP/1.1")
  = [].
Proof.
  assert (Hok : startup_ok Sample.quiet_start).
  { split; [intros pt _; reflexivity | vm_compute; discriminate]. }
  split; [exact Hok|].
  split; [|vm_compute; reflexivity].
  exact (proj2 (connections_do_not_change_the_outcome Sample.quiet_start
                  [Sample.sends "GET /%00 HTTP/1.1";
                   Sample.sends "GET / HTTP/1.1"]) Hok).
Defined.

(** X15.  A browser is launched at most once, for [http://localhost:3000],
    and never before the five startup lines have been printed: when one has
    been launched, the five lines are the first lines that are on standard
    output or in its buffer. *)
Theorem browser_opens_once_after_the_lines w :
  browser (snd (run w)) = [] \/
  (browser (snd (run w)) = ["http://localhost:3000"] /\
   opens w <> NotLaunched /\
   exists more,
     (stdout (snd (run w)) ++ pending (snd (run w)))%list
     = (startup_lines w ++ more)%list).
Proof.
  destruct (run_cases w)
    as [[Hok Hrun] | [[[pt [e Hfirst]] Ha] | (Hf & Ho & Hrun)]].
  - destruct (run_completed w Hok) as (_ & Hb & _ & Hout & _).
    rewrite Hb. unfold launched.
    destruct (opens w) eqn:Ho; [right | left; reflexivity | right];
      (split; [reflexivity|]); (split; [discriminate | exact Hout]).
  - left. apply Ha.
  - right. rewrite Hrun. cbn [snd browser stdout pending started].
    unfold launched. rewrite Ho. split; [reflexivity|].
    split; [discriminate|]. exists [].
    unfold shown, kept. destruct (line_buffered w);
      rewrite ?app_nil_r; reflexivity.
Qed.

Lemma browser_opens_once_after_the_lines_witness :
  browser (snd (run Scenario.no_desktop)) = [] /\
  browser (snd (run Sample.piped_start)) = ["http://localhost:3000"].
Proof.
  destruct (browser_opens_once_after_the_lines Scenario.no_desktop)
    as [Hnone | [Hone _]];
    [|exfalso; revert Hone; vm_compute; discriminate].
  split; [exact Hnone|]. vm_compute. reflexivity.
Defined.

(** X16.  [main] prints nothing but its six lines, each at most once and in
    the order of the source: standard output is, at the end of every run, a
    prefix of the five startup lines followed by the stop notice. *)
Theorem stdout_is_a_prefix_of_the_six_lines w :
  exists n, stdout (snd (run w)) = firstn n (all_lines w).
Proof.
  destruct (run_cases w) as [[Hok Hrun] | [[_ Ha] | (_ & _ & Hrun)]].
  - rewrite Hrun. unfold ending, leave_with.
    rewrite serving_explicit.
    destruct (line_buffered w) eqn:Hlb;
      destruct (loop_end w) as [[]|]; try destruct (fault w (At_print 5));
      destruct (fault w At_server_close);
      run_state; rewrite ?Hlb; rewrite ?app_nil_r;
      first [ exists 5%nat; reflexivity | exists 6%nat; reflexivity
            | exists 0%nat; reflexivity ].
  - destruct Ha as (_ & _ & _ & _ & (n & Hn & ->) & _).
    exists n. unfold all_lines. rewrite firstn_app.
    replace (n - List.length (startup_lines w))%nat with 0%nat
      by (cbn [List.length startup_lines]; lia).
    cbn [firstn]. rewrite app_nil_r. reflexivity.
  - rewrite Hrun. cbn [snd stdout started]. unfold shown.
    destruct (line_buffered w);
      [exists 5%nat; reflexivity | exists 0%nat; reflexivity].
Qed.

(** X17.  On a pipe or a file, where [sys.stdout] is not line buffered,
    nothing [main] prints is on standard output while the process runs; and
    however standard output is buffered, nothing is left in its buffer when
    the process has ended. *)
Theorem output_reaches_a_pipe_at_exit w :
  (line_buffered w = false -> fst (run w) = Blocked ->
   stdout (snd (run w)) = []) /\
  (fst (run w) <> Blocked -> pending (snd (run w)) = []) /\
  (line_buffered w = true -> pending (snd (run w)) = []).
Proof.
  destruct (run_cases w)
    as [[Hok Hrun] | [[[pt [e Hfirst]] Ha] | (Hf & Ho & Hrun)]].
  - rewrite Hrun. unfold ending, leave_with. rewrite serving_explicit.
    destruct (line_buffered w) eqn:Hlb;
      destruct (loop_end w) as [[]|]; try destruct (fault w (At_print 5));
      destruct (fault w At_server_close);
      run_state; rewrite ?Hlb;
      (split; [intros; first [reflexivity | discriminate]|]);
      (split; intros H; first [reflexivity | discriminate | exfalso; apply H; reflexivity]).
  - split; [|split].
    + intros _ Hb. exfalso. exact (aborted_run_ends w pt e Hfirst Hb).
    + intros _. apply Ha.
    + intros _. apply Ha.
  - rewrite Hrun. cbn [fst snd stdout pending started]. unfold shown, kept.
    split; [intros ->; reflexivity|].
    split; [intros H; exfalso; apply H; reflexivity | intros ->; reflexivity].
Qed.

Lemma output_reaches_a_pipe_at_exit_witness :
  line_buffered (set_serving [] None Sample.piped_start) = false /\
  fst (run (set_serving [] None Sample.piped_start)) = Blocked /\
  stdout (snd (run (set_serving [] None Sample.piped_start))) = [] /\
  fst (run Sample.piped_start) <> Blocked /\
  pending (snd (run Sample.piped_start)) = [].
Proof.
  assert (Hb : fst (run (set_serving [] None Sample.piped_start)) = Blocked)
    by (vm_compute; reflexivity).
  assert (He : fst (run Sample.piped_start) <> Blocked)
    by (vm_compute; discriminate).
  split; [reflexivity|]. split; [exact Hb|].
  split.
  - exact (proj1 (output_reaches_a_pipe_at_exit
                    (set_serving [] None Sample.piped_start)) eq_refl Hb).
  - split; [exact He|].
    exact (proj1 (proj2 (output_reaches_a_pipe_at_exit Sample.piped_start))
             He).
Defined.

(** ** The connection *)


Lemma send_error_http09_run E eh code message explain h :
  silent_for_http09 eh ->
  is_http09 h = true ->
  fst (send_error E eh code message explain h) = Return tt /\
  wfile (snd (send_error E eh code message explain h))
  = (wfile h ++
     if has_body code && negb (String.eqb (command h) "HEAD")
        && negb (String.eqb (page_of E code message explain) "")
     then [page_of E code message explain] else [])%list.
Proof.
  intros Hs H. unfold send_error, send_response, when, page_of.
  destruct (response_messages E code) as [shortmsg longmsg]. cbn [fst snd].
  destruct (has_body code); run_http09 H Hs Hs;
    autorewrite with handler; cbn [andb];
    [|rewrite app_nil_r; split; reflexivity].
  match goal with
  | |- context [if ?b then _ else _] => destruct b
  end;
    unfold modify, ret; cbn [fst snd]; autorewrite with handler;
    rewrite ?app_nil_r; split; reflexivity.
Qed.



Lemma reads_from_pieces calls n s :
  (0 < n)%nat ->
  Forall (fun piece => piece <> "" /\ (String.length piece <= n)%nat)
    (reads_from calls n s).
Proof.
  intros Hn. revert s. induction calls as [|calls IH]; intros s;
    cbn [reads_from]; [constructor|].
  destruct (take n s) as [|c t] eqn:Ht; [constructor|].
  constructor; [|apply IH].
  split; [discriminate|]. rewrite <- Ht. clear.
  revert s. induction n as [|n IHn]; intros [|c s]; cbn; try lia.
  specialize (IHn s). lia.
Qed.

(** X20.  [copyfile] returns and sends the file as it is, in pieces: every
    piece it writes holds a byte at least and [COPY_BUFSIZE] bytes at most,
    and the pieces make up the contents; nothing is written for an empty
    file, and a file that fits the buffer goes out in one write. *)
Theorem copyfile_sends_the_file_in_pieces contents h :
  fst (SimpleHTTPRequestHandler.copyfile contents h) = Return tt /\
  exists pieces,
    wfile (snd (SimpleHTTPRequestHandler.copyfile contents h))
    = (wfile h ++ pieces)%list /\
    join pieces = contents /\
    Forall (fun piece =>
              piece <> "" /\
              (String.length piece <= SimpleHTTPRequestHandler.COPY_BUFSIZE)%nat)
      pieces /\
    (contents = "" -> pieces = []) /\
    (contents <> "" ->
     (String.length contents <= SimpleHTTPRequestHandler.COPY_BUFSIZE)%nat ->
     pieces = [contents]).
Proof.
  unfold SimpleHTTPRequestHandler.copyfile.
  destruct (write_all_run (reads SimpleHTTPRequestHandler.COPY_BUFSIZE contents)
              h) as (-> & -> & _).
  split; [reflexivity|].
  exists (reads SimpleHTTPRequestHandler.COPY_BUFSIZE contents).
  split; [reflexivity|]. split; [apply join_reads|].
  split; [apply reads_from_pieces, copy_bufsize_positive|].
  split; [intros ->; reflexivity|].
  intros Hne Hlen. apply reads_short; assumption.
Qed.

Lemma copyfile_sends_the_file_in_pieces_witness :
  Sample.index_html <> "" /\
  (String.length Sample.index_html
   <= SimpleHTTPRequestHandler.COPY_BUFSIZE)%nat /\
  wfile (snd (SimpleHTTPRequestHandler.copyfile Sample.index_html
                Scenario.fresh))
  = [Sample.index_html].
Proof.
  assert (Hne : Sample.index_html <> "") by discriminate.
  assert (Hlen : (String.length Sample.index_html
                  <= SimpleHTTPRequestHandler.COPY_BUFSIZE)%nat)
    by (apply Nat.leb_le; vm_compute; reflexivity).
  split; [exact Hne|]. split; [exact Hlen|].
  destruct (copyfile_sends_the_file_in_pieces Sample.index_html Scenario.fresh)
    as (_ & pieces & -> & _ & _ & _ & Hone).
  rewrite (Hone Hne Hlen). reflexivity.
Defined.
